(** * LLM-ComputerUse: template store, template matcher, action dispatch

    A shallow embedding of the Python sources

      - utils/element_extraction.py  (ElementExtractor: identify_elements,
        extract_templates, find_templates_on_screen)
      - utils/screen_capture.py      (ScreenCapture.compare_screenshots)
      - utils/action_execution.py    (ActionExecutor: execute_action,
        execute_advanced_action)
      - template_automation.py, desktop_automation.py, vision_automation.py
        (identify_desktop_elements, process_user_request,
        process_advanced_action_request, execute_action,
        execute_action_with_template)

    Python exceptions are an explicit [outcome]; [try ... except Exception]
    is [try_except].  The libraries the code calls (cv2, PIL, numpy, json,
    pyautogui, time) are Section variables in the general statements and are
    instantiated by small reference models in the examples.  Scores are
    float32 values, compared as numpy compares them; names are strings of
    one-byte code points, with a model of [str] on all code points beside
    them. *)

From Stdlib Require Import ZArith QArith Lia Lqa PrimFloat SpecFloat FloatOps
  FloatAxioms Ascii.
From stdpp Require Import gmap strings list fin_maps.

Set Default Proof Using "Type".
Set Warnings "-inexact-float,-register-all".
Local Open Scope string_scope.
Local Open Scope list_scope.

(** ** Exceptions *)

(** The result of running a piece of Python: a value, or a raised exception
    (an instance of a subclass of [Exception], carried as its message). *)
Inductive outcome (A : Type) : Type :=
| Return (a : A)
| Raise (e : string).
Arguments Return {A} a.
Arguments Raise {A} e.

(** Sequencing: an exception in the first statement skips the rest.
    stdpp's [x ← m; k] is this bind. *)
#[global] Instance outcome_bind : MBind outcome := fun A B k m =>
  match m with
  | Return a => k a
  | Raise e => Raise e
  end.

(** [try: body except Exception as e: handler e] *)
Definition try_except {A : Type} (body : outcome A) (handler : string -> A) : A :=
  match body with
  | Return a => a
  | Raise e => handler e
  end.

(** ** Rasters and score maps *)

(** A single-channel image, as the 2-D [uint8] array numpy holds it: a list
    of rows of pixel values.  [shape] is numpy's [(rows, cols)]. *)
Abbreviation gray := (list (list Z)).

Definition shape (img : gray) : nat * nat :=
  (length img, match img with [] => 0 | row :: _ => length row end).

(** A raster without pixels.  No image file holds one (a PNG has at least
    one pixel): in a directory of files it stands for a file that holds no
    image, such as the one a failed write leaves behind. *)
Definition empty_raster (img : gray) : bool :=
  ((shape img).1 =? 0)%nat || ((shape img).2 =? 0)%nat.

(** The score map [cv2.matchTemplate] returns: a 2-D array of floats, one
    cell per placement of the template, indexed [result[row][col]]. *)
Abbreviation score_map := (list (list float)).

Definition cell (result : score_map) (row col : nat) : option float :=
  match result !! row with
  | Some r => r !! col
  | None => None
  end.

(** The cells of a score map are float32 values; each is carried here by
    the binary64 value equal to it.  [to_float32] is the conversion numpy
    and C make of a binary64 value: the nearest float32 value, ties to
    even, an infinity past the largest one.  NaN, the infinities and the
    zeros are kept. *)
Definition to_float32 (x : float) : float :=
  match Prim2SF x with
  | S754_finite s m e =>
      SF2Prim (binary_normalize 24 128 (if s then Z.neg m else Z.pos m) e s)
  | _ => x
  end.

(** numpy's [x >= c] for a cell [x] of a float32 array and a Python float
    [c]: the scalar is converted to float32 and the comparison is made
    there; it is false on NaN. *)
Definition float_ge (x c : float) : bool := PrimFloat.leb (to_float32 c) x.

(** [np.where(result >= confidence)]: the row indices and the column
    indices of the cells of the mask that hold, in row-major (C) order. *)
Fixpoint where_row (thr : float) (r c : nat) (row : list float) : list (nat * nat) :=
  match row with
  | [] => []
  | s :: rest =>
      (if float_ge s thr then [(r, c)] else []) ++ where_row thr r (S c) rest
  end.

Fixpoint where_rows (thr : float) (r : nat) (result : score_map) : list (nat * nat) :=
  match result with
  | [] => []
  | row :: rest => where_row thr r 0 row ++ where_rows thr (S r) rest
  end.

Definition np_where_ge (result : score_map) (thr : float) : list nat * list nat :=
  (map fst (where_rows thr 0 result), map snd (where_rows thr 0 result)).

(** [zip] over [locations_array[::-1]] unpacked: the two arrays swapped and
    zipped, so that a point is [(col, row)], that is [(x, y)]. *)
Definition zip_reversed (locations_array : list nat * list nat) : list (nat * nat) :=
  combine (snd locations_array) (fst locations_array).

(** ** The template matcher (utils/element_extraction.py) *)

Record template_info : Type := TemplateInfo {
  filename : string;
  bounding_box : list Z;
  type_ : string;
  description : string
}.

Record match_result : Type := MatchResult {
  center : Z * Z;
  box : Z * Z * Z * Z;
  confidence : float
}.

(** A Python dict that is iterated: the items in insertion order. *)
Abbreviation pydict V := (list (string * V)).

Fixpoint dict_set {V : Type} (d : pydict V) (k : string) (v : V) : pydict V :=
  match d with
  | [] => [(k, v)]
  | (k', v') :: rest =>
      if decide (k' = k) then (k, v) :: rest else (k', v') :: dict_set rest k v
  end.

Fixpoint dict_get {V : Type} (d : pydict V) (k : string) : option V :=
  match d with
  | [] => None
  | (k', v') :: rest => if decide (k' = k) then Some v' else dict_get rest k
  end.

Section Matcher.

(** [cv2.imread(filename, cv2.IMREAD_GRAYSCALE)] on the template directory
    as it is during the call: [None] for a missing or undecodable file. *)
Variable imread_gray : string -> option gray.

(** [cv2.matchTemplate(image, templ, cv2.TM_CCOEFF_NORMED)]: a map of
    float32 scores, or an exception. *)
Variable matchTemplate : gray -> gray -> outcome score_map.

(** The loop [for pt in zip(...)] over the points of [zip_reversed]. *)
Fixpoint scan_points (pts : list (nat * nat)) (name : string) (template : gray)
    (result : score_map) (locations : gmap string match_result)
    : outcome (gmap string match_result) :=
  match pts with
  | [] => Return locations
  | pt :: rest =>
      let '(h, w) := shape template in
      let center_x := (Z.of_nat pt.1 + Z.of_nat w / 2)%Z in
      let center_y := (Z.of_nat pt.2 + Z.of_nat h / 2)%Z in
      match locations !! name with
      | None =>
          match cell result pt.2 pt.1 with
          | Some s =>
              Return (<[name := {|
                center := (center_x, center_y);
                box := (Z.of_nat pt.1, Z.of_nat pt.2,
                        (Z.of_nat pt.1 + Z.of_nat w)%Z,
                        (Z.of_nat pt.2 + Z.of_nat h)%Z);
                confidence := s |}]> locations)   (* break *)
          | None => Raise "IndexError"
          end
      | Some _ => scan_points rest name template result locations
      end
  end.

(** The body of [for name, template_info in templates.items()], with its
    [try ... except Exception].  The second component is what is printed. *)
Definition match_one (screenshot_gray : gray) (confidence : float)
    (acc : gmap string match_result * list string)
    (item : string * template_info) : gmap string match_result * list string :=
  let '(locations, log) := acc in
  let '(name, info) := item in
  try_except
    (match imread_gray (filename info) with
     | None =>
         Return (locations,
                 log ++ ["Could not load template '" +:+ filename info +:+ "'"])
     | Some template =>
         result ← matchTemplate screenshot_gray template;
         let locations_array := np_where_ge result confidence in
         locations' ← scan_points (zip_reversed locations_array) name
                                  template result locations;
         Return (locations', log)
     end)
    (fun e => (locations, log ++ ["Error finding template " +:+ name +:+ ": " +:+ e])).

(** [find_templates_on_screen], after the conversion of the screenshot to
    grayscale (lines 118-119, which take a well-formed RGB screenshot). *)
Definition find_templates_on_screen (screenshot_gray : gray)
    (templates : pydict template_info) (confidence : float)
    : gmap string match_result * list string :=
  foldl (match_one screenshot_gray confidence) (∅, []) templates.

(** The templates of a batch whose file does not load. *)
Definition missing (item : string * template_info) : bool :=
  match imread_gray (filename item.2) with
  | None => true
  | Some _ => false
  end.

End Matcher.

(** Row-major scan order on cells [(row, col)]: top to bottom, and left to
    right within a row. *)
Definition scanned_before (a b : nat * nat) : Prop :=
  a.1 < b.1 \/ (a.1 = b.1 /\ a.2 < b.2).

(** A cell reaches the threshold when its score is at least the float32
    value nearest to the threshold. *)
Definition qualifies (result : score_map) (thr : float) (row col : nat) : Prop :=
  exists s, cell result row col = Some s /\ PrimFloat.leb (to_float32 thr) s = true.

Definition first_qualifying (result : score_map) (thr : float) (row col : nat) : Prop :=
  qualifies result thr row col /\
  forall r c, qualifies result thr r c -> ~ scanned_before (r, c) (row, col).

(** The entry the loop body builds for the point [(px, py)]. *)
Definition entry_at (template : gray) (px py : nat) (s : float) : match_result :=
  {| center := ((Z.of_nat px + Z.of_nat (shape template).2 / 2)%Z,
                (Z.of_nat py + Z.of_nat (shape template).1 / 2)%Z);
     box := (Z.of_nat px, Z.of_nat py,
             (Z.of_nat px + Z.of_nat (shape template).2)%Z,
             (Z.of_nat py + Z.of_nat (shape template).1)%Z);
     confidence := s |}.

(** ** A reference model of the cv2 calls

    Used to run the matcher on concrete frames.  [imread] reads the template
    directory, a map from file name to the stored raster, and returns [None]
    for a file that is missing or holds no image.  [matchTemplate]
    follows OpenCV's [cv::matchTemplate]: when the image is smaller than the
    template in a dimension it asserts that the image is no larger in either
    ([_img.size().height <= _templ.size().height && _img.size().width <=
    _templ.size().width]) and swaps the two; the score of a placement is the
    correlation coefficient of the template and the window, normalised; it
    is 1 for a template of one colour ([result = Scalar::all(1)]) and 0 for a
    window of one colour.  The coefficient is computed exactly from integer
    sums and rounded once, to float32; OpenCV computes it in floating point
    and is a few units in the last place away from this. *)
Module Cv2.

Definition imread (files : gmap string gray) (file : string) : option gray :=
  match files !! file with
  | Some img => if empty_raster img then None else Some img
  | None => None
  end.

(** The binary64 value nearest to an integer. *)
Definition float_of_Z (z : Z) : float :=
  SF2Prim (binary_normalize prec emax z 0 false).

Definition sum (xs : list Z) : Z := foldr Z.add 0%Z xs.

Definition dot (xs ys : list Z) : Z := sum (zip_with Z.mul xs ys).

(** The [h] x [w] window of [img] whose top-left pixel is [(x, y)], row
    after row. *)
Definition window (img : gray) (y x h w : nat) : list Z :=
  concat (map (fun row => take w (drop x row)) (take h (drop y img))).

(** TM_CCOEFF_NORMED for one placement, with [n] the number of pixels:
    [(n ΣTI - ΣT ΣI) / sqrt ((n ΣTT - ΣT ΣT) (n ΣII - ΣI ΣI))]. *)
(** The float32 value nearest to [n / sqrt d], for [0 < d]: the integer
    square root of the quotient scaled by [4 ^ 128], with one more bit that
    says whether anything was cut off, rounded to 24 bits. *)
Definition ratio_sqrt32 (n d : Z) : float :=
  let scaled := (n * n * 4 ^ 128)%Z in
  let q := (scaled / d)%Z in
  let r := Z.sqrt q in
  let sticky := if ((r * r =? q) && (scaled mod d =? 0))%Z then 0%Z else 1%Z in
  let m := (2 * r + sticky)%Z in
  SF2Prim (binary_normalize 24 128 (if (n <? 0)%Z then (- m)%Z else m) (-129) false).

Definition ccoeff_normed (win templ : list Z) : float :=
  let n := Z.of_nat (length templ) in
  let num := (n * dot templ win - sum templ * sum win)%Z in
  let vt := (n * dot templ templ - sum templ * sum templ)%Z in
  let vw := (n * dot win win - sum win * sum win)%Z in
  if decide (vt = 0%Z) then 1%float
  else if decide (vw = 0%Z) then 0%float
  else ratio_sqrt32 num (vt * vw).

Definition correlate (img templ : gray) : list (list float) :=
  let '(ih, iw) := shape img in
  let '(th, tw) := shape templ in
  map (fun y => map (fun x => ccoeff_normed (window img y x th tw) (concat templ))
                    (seq 0 (S (iw - tw))))
      (seq 0 (S (ih - th))).

Definition matchTemplate (img templ : gray) : outcome (list (list float)) :=
  let '(ih, iw) := shape img in
  let '(th, tw) := shape templ in
  let needswap := (ih <? th)%nat || (iw <? tw)%nat in
  if needswap && negb ((ih <=? th)%nat && (iw <=? tw)%nat)
  then Raise "OpenCV: (-215:Assertion failed) in function 'matchTemplate'"
  else if needswap then Return (correlate templ img)
  else Return (correlate img templ).

End Cv2.

(** ** The template store (extract_templates) *)

(** Characters of a name are code points; the model covers U+0000..U+00FF,
    one [ascii] value per code point, with Python's tables on that range. *)
Definition code (c : ascii) : N := N_of_ascii c.

Definition in_range (lo hi : N) (c : ascii) : bool :=
  (lo <=? code c)%N && (code c <=? hi)%N.

(** [c.isalnum()]: digits and letters of ASCII, and in Latin-1 the letters
    (U+00AA, U+00B5, U+00BA, U+00C0..U+00FF but the two operators U+00D7 and
    U+00F7) and the numeric characters (superscripts, fractions). *)
Definition isalnum (c : ascii) : bool :=
  in_range 48 57 c || in_range 65 90 c || in_range 97 122 c
  || bool_decide (code c ∈ [170; 178; 179; 181; 185; 186; 188; 189; 190]%N)
  || in_range 192 214 c || in_range 216 246 c || in_range 248 255 c.

Definition isupper (c : ascii) : bool :=
  in_range 65 90 c || in_range 192 214 c || in_range 216 222 c.

(** [str.lower()], character by character: the lowercase letter of an
    uppercase one is 32 code points further. *)
Definition lower_char (c : ascii) : ascii :=
  if isupper c then ascii_of_N (code c + 32) else c.

Fixpoint map_chars (f : ascii -> ascii) (s : string) : string :=
  match s with
  | EmptyString => EmptyString
  | String c rest => String (f c) (map_chars f rest)
  end.

Definition lower (s : string) : string := map_chars lower_char s.

(** [''.join(c if c.isalnum() else '_' for c in name).lower()] *)
Definition safe_name (name : string) : string :=
  lower (map_chars (fun c => if isalnum c then c else "_"%char) name).

Fixpoint all_chars (P : ascii -> bool) (s : string) : bool :=
  match s with
  | EmptyString => true
  | String c rest => P c && all_chars P rest
  end.

(** A character of a storage key: the placeholder, or alphanumeric and not
    uppercase. *)
Definition key_char (c : ascii) : bool :=
  bool_decide (c = "_"%char) || (isalnum c && negb (isupper c)).

(** ** Names beyond U+00FF

    Python's [str] is a sequence of code points.  The tables are those of
    Unicode 14.0.0 as CPython 3.11 holds them: the ranges of the
    alphanumeric code points ([str.isalnum]), the lowercase mappings as
    runs [(first, last, step, lowercase of first)], the cased code points and the
    case-ignorable ones, which decide between the two lowercase forms of
    capital sigma. *)
Module Unicode.

Definition in_table (table : list (N * N)) (c : N) : bool :=
  existsb (fun r => (r.1 <=? c)%N && (c <=? r.2)%N) table.

Definition alnum_table : list (N * N) :=
  [(48, 57); (65, 90); (97, 122); (170, 170); (178, 179); (181, 181);
   (185, 186); (188, 190); (192, 214); (216, 246); (248, 705); (710, 721);
   (736, 740); (748, 748); (750, 750); (880, 884); (886, 887); (890, 893);
   (895, 895); (902, 902); (904, 906); (908, 908); (910, 929); (931, 1013);
   (1015, 1153); (1162, 1327); (1329, 1366); (1369, 1369); (1376, 1416);
   (1488, 1514); (1519, 1522); (1568, 1610); (1632, 1641); (1646, 1647);
   (1649, 1747); (1749, 1749); (1765, 1766); (1774, 1788); (1791, 1791);
   (1808, 1808); (1810, 1839); (1869, 1957); (1969, 1969); (1984, 2026);
   (2036, 2037); (2042, 2042); (2048, 2069); (2074, 2074); (2084, 2084);
   (2088, 2088); (2112, 2136); (2144, 2154); (2160, 2183); (2185, 2190);
   (2208, 2249); (2308, 2361); (2365, 2365); (2384, 2384); (2392, 2401);
   (2406, 2415); (2417, 2432); (2437, 2444); (2447, 2448); (2451, 2472);
   (2474, 2480); (2482, 2482); (2486, 2489); (2493, 2493); (2510, 2510);
   (2524, 2525); (2527, 2529); (2534, 2545); (2548, 2553); (2556, 2556);
   (2565, 2570); (2575, 2576); (2579, 2600); (2602, 2608); (2610, 2611);
   (2613, 2614); (2616, 2617); (2649, 2652); (2654, 2654); (2662, 2671);
   (2674, 2676); (2693, 2701); (2703, 2705); (2707, 2728); (2730, 2736);
   (2738, 2739); (2741, 2745); (2749, 2749); (2768, 2768); (2784, 2785);
   (2790, 2799); (2809, 2809); (2821, 2828); (2831, 2832); (2835, 2856);
   (2858, 2864); (2866, 2867); (2869, 2873); (2877, 2877); (2908, 2909);
   (2911, 2913); (2918, 2927); (2929, 2935); (2947, 2947); (2949, 2954);
   (2958, 2960); (2962, 2965); (2969, 2970); (2972, 2972); (2974, 2975);
   (2979, 2980); (2984, 2986); (2990, 3001); (3024, 3024); (3046, 3058);
   (3077, 3084); (3086, 3088); (3090, 3112); (3114, 3129); (3133, 3133);
   (3160, 3162); (3165, 3165); (3168, 3169); (3174, 3183); (3192, 3198);
   (3200, 3200); (3205, 3212); (3214, 3216); (3218, 3240); (3242, 3251);
   (3253, 3257); (3261, 3261); (3293, 3294); (3296, 3297); (3302, 3311);
   (3313, 3314); (3332, 3340); (3342, 3344); (3346, 3386); (3389, 3389);
   (3406, 3406); (3412, 3414); (3416, 3425); (3430, 3448); (3450, 3455);
   (3461, 3478); (3482, 3505); (3507, 3515); (3517, 3517); (3520, 3526);
   (3558, 3567); (3585, 3632); (3634, 3635); (3648, 3654); (3664, 3673);
   (3713, 3714); (3716, 3716); (3718, 3722); (3724, 3747); (3749, 3749);
   (3751, 3760); (3762, 3763); (3773, 3773); (3776, 3780); (3782, 3782);
   (3792, 3801); (3804, 3807); (3840, 3840); (3872, 3891); (3904, 3911);
   (3913, 3948); (3976, 3980); (4096, 4138); (4159, 4169); (4176, 4181);
   (4186, 4189); (4193, 4193); (4197, 4198); (4206, 4208); (4213, 4225);
   (4238, 4238); (4240, 4249); (4256, 4293); (4295, 4295); (4301, 4301);
   (4304, 4346); (4348, 4680); (4682, 4685); (4688, 4694); (4696, 4696);
   (4698, 4701); (4704, 4744); (4746, 4749); (4752, 4784); (4786, 4789);
   (4792, 4798); (4800, 4800); (4802, 4805); (4808, 4822); (4824, 4880);
   (4882, 4885); (4888, 4954); (4969, 4988); (4992, 5007); (5024, 5109);
   (5112, 5117); (5121, 5740); (5743, 5759); (5761, 5786); (5792, 5866);
   (5870, 5880); (5888, 5905); (5919, 5937); (5952, 5969); (5984, 5996);
   (5998, 6000); (6016, 6067); (6103, 6103); (6108, 6108); (6112, 6121);
   (6128, 6137); (6160, 6169); (6176, 6264); (6272, 6276); (6279, 6312);
   (6314, 6314); (6320, 6389); (6400, 6430); (6470, 6509); (6512, 6516);
   (6528, 6571); (6576, 6601); (6608, 6618); (6656, 6678); (6688, 6740);
   (6784, 6793); (6800, 6809); (6823, 6823); (6917, 6963); (6981, 6988);
   (6992, 7001); (7043, 7072); (7086, 7141); (7168, 7203); (7232, 7241);
   (7245, 7293); (7296, 7304); (7312, 7354); (7357, 7359); (7401, 7404);
   (7406, 7411); (7413, 7414); (7418, 7418); (7424, 7615); (7680, 7957);
   (7960, 7965); (7968, 8005); (8008, 8013); (8016, 8023); (8025, 8025);
   (8027, 8027); (8029, 8029); (8031, 8061); (8064, 8116); (8118, 8124);
   (8126, 8126); (8130, 8132); (8134, 8140); (8144, 8147); (8150, 8155);
   (8160, 8172); (8178, 8180); (8182, 8188); (8304, 8305); (8308, 8313);
   (8319, 8329); (8336, 8348); (8450, 8450); (8455, 8455); (8458, 8467);
   (8469, 8469); (8473, 8477); (8484, 8484); (8486, 8486); (8488, 8488);
   (8490, 8493); (8495, 8505); (8508, 8511); (8517, 8521); (8526, 8526);
   (8528, 8585); (9312, 9371); (9450, 9471); (10102, 10131); (11264, 11492);
   (11499, 11502); (11506, 11507); (11517, 11517); (11520, 11557);
   (11559, 11559); (11565, 11565); (11568, 11623); (11631, 11631);
   (11648, 11670); (11680, 11686); (11688, 11694); (11696, 11702);
   (11704, 11710); (11712, 11718); (11720, 11726); (11728, 11734);
   (11736, 11742); (11823, 11823); (12293, 12295); (12321, 12329);
   (12337, 12341); (12344, 12348); (12353, 12438); (12445, 12447);
   (12449, 12538); (12540, 12543); (12549, 12591); (12593, 12686);
   (12690, 12693); (12704, 12735); (12784, 12799); (12832, 12841);
   (12872, 12879); (12881, 12895); (12928, 12937); (12977, 12991);
   (13312, 19903); (19968, 42124); (42192, 42237); (42240, 42508);
   (42512, 42539); (42560, 42606); (42623, 42653); (42656, 42735);
   (42775, 42783); (42786, 42888); (42891, 42954); (42960, 42961);
   (42963, 42963); (42965, 42969); (42994, 43009); (43011, 43013);
   (43015, 43018); (43020, 43042); (43056, 43061); (43072, 43123);
   (43138, 43187); (43216, 43225); (43250, 43255); (43259, 43259);
   (43261, 43262); (43264, 43301); (43312, 43334); (43360, 43388);
   (43396, 43442); (43471, 43481); (43488, 43492); (43494, 43518);
   (43520, 43560); (43584, 43586); (43588, 43595); (43600, 43609);
   (43616, 43638); (43642, 43642); (43646, 43695); (43697, 43697);
   (43701, 43702); (43705, 43709); (43712, 43712); (43714, 43714);
   (43739, 43741); (43744, 43754); (43762, 43764); (43777, 43782);
   (43785, 43790); (43793, 43798); (43808, 43814); (43816, 43822);
   (43824, 43866); (43868, 43881); (43888, 44002); (44016, 44025);
   (44032, 55203); (55216, 55238); (55243, 55291); (63744, 64109);
   (64112, 64217); (64256, 64262); (64275, 64279); (64285, 64285);
   (64287, 64296); (64298, 64310); (64312, 64316); (64318, 64318);
   (64320, 64321); (64323, 64324); (64326, 64433); (64467, 64829);
   (64848, 64911); (64914, 64967); (65008, 65019); (65136, 65140);
   (65142, 65276); (65296, 65305); (65313, 65338); (65345, 65370);
   (65382, 65470); (65474, 65479); (65482, 65487); (65490, 65495);
   (65498, 65500); (65536, 65547); (65549, 65574); (65576, 65594);
   (65596, 65597); (65599, 65613); (65616, 65629); (65664, 65786);
   (65799, 65843); (65856, 65912); (65930, 65931); (66176, 66204);
   (66208, 66256); (66273, 66299); (66304, 66339); (66349, 66378);
   (66384, 66421); (66432, 66461); (66464, 66499); (66504, 66511);
   (66513, 66517); (66560, 66717); (66720, 66729); (66736, 66771);
   (66776, 66811); (66816, 66855); (66864, 66915); (66928, 66938);
   (66940, 66954); (66956, 66962); (66964, 66965); (66967, 66977);
   (66979, 66993); (66995, 67001); (67003, 67004); (67072, 67382);
   (67392, 67413); (67424, 67431); (67456, 67461); (67463, 67504);
   (67506, 67514); (67584, 67589); (67592, 67592); (67594, 67637);
   (67639, 67640); (67644, 67644); (67647, 67669); (67672, 67702);
   (67705, 67742); (67751, 67759); (67808, 67826); (67828, 67829);
   (67835, 67867); (67872, 67897); (67968, 68023); (68028, 68047);
   (68050, 68096); (68112, 68115); (68117, 68119); (68121, 68149);
   (68160, 68168); (68192, 68222); (68224, 68255); (68288, 68295);
   (68297, 68324); (68331, 68335); (68352, 68405); (68416, 68437);
   (68440, 68466); (68472, 68497); (68521, 68527); (68608, 68680);
   (68736, 68786); (68800, 68850); (68858, 68899); (68912, 68921);
   (69216, 69246); (69248, 69289); (69296, 69297); (69376, 69415);
   (69424, 69445); (69457, 69460); (69488, 69505); (69552, 69579);
   (69600, 69622); (69635, 69687); (69714, 69743); (69745, 69746);
   (69749, 69749); (69763, 69807); (69840, 69864); (69872, 69881);
   (69891, 69926); (69942, 69951); (69956, 69956); (69959, 69959);
   (69968, 70002); (70006, 70006); (70019, 70066); (70081, 70084);
   (70096, 70106); (70108, 70108); (70113, 70132); (70144, 70161);
   (70163, 70187); (70272, 70278); (70280, 70280); (70282, 70285);
   (70287, 70301); (70303, 70312); (70320, 70366); (70384, 70393);
   (70405, 70412); (70415, 70416); (70419, 70440); (70442, 70448);
   (70450, 70451); (70453, 70457); (70461, 70461); (70480, 70480);
   (70493, 70497); (70656, 70708); (70727, 70730); (70736, 70745);
   (70751, 70753); (70784, 70831); (70852, 70853); (70855, 70855);
   (70864, 70873); (71040, 71086); (71128, 71131); (71168, 71215);
   (71236, 71236); (71248, 71257); (71296, 71338); (71352, 71352);
   (71360, 71369); (71424, 71450); (71472, 71483); (71488, 71494);
   (71680, 71723); (71840, 71922); (71935, 71942); (71945, 71945);
   (71948, 71955); (71957, 71958); (71960, 71983); (71999, 71999);
   (72001, 72001); (72016, 72025); (72096, 72103); (72106, 72144);
   (72161, 72161); (72163, 72163); (72192, 72192); (72203, 72242);
   (72250, 72250); (72272, 72272); (72284, 72329); (72349, 72349);
   (72368, 72440); (72704, 72712); (72714, 72750); (72768, 72768);
   (72784, 72812); (72818, 72847); (72960, 72966); (72968, 72969);
   (72971, 73008); (73030, 73030); (73040, 73049); (73056, 73061);
   (73063, 73064); (73066, 73097); (73112, 73112); (73120, 73129);
   (73440, 73458); (73648, 73648); (73664, 73684); (73728, 74649);
   (74752, 74862); (74880, 75075); (77712, 77808); (77824, 78894);
   (82944, 83526); (92160, 92728); (92736, 92766); (92768, 92777);
   (92784, 92862); (92864, 92873); (92880, 92909); (92928, 92975);
   (92992, 92995); (93008, 93017); (93019, 93025); (93027, 93047);
   (93053, 93071); (93760, 93846); (93952, 94026); (94032, 94032);
   (94099, 94111); (94176, 94177); (94179, 94179); (94208, 100343);
   (100352, 101589); (101632, 101640); (110576, 110579); (110581, 110587);
   (110589, 110590); (110592, 110882); (110928, 110930); (110948, 110951);
   (110960, 111355); (113664, 113770); (113776, 113788); (113792, 113800);
   (113808, 113817); (119520, 119539); (119648, 119672); (119808, 119892);
   (119894, 119964); (119966, 119967); (119970, 119970); (119973, 119974);
   (119977, 119980); (119982, 119993); (119995, 119995); (119997, 120003);
   (120005, 120069); (120071, 120074); (120077, 120084); (120086, 120092);
   (120094, 120121); (120123, 120126); (120128, 120132); (120134, 120134);
   (120138, 120144); (120146, 120485); (120488, 120512); (120514, 120538);
   (120540, 120570); (120572, 120596); (120598, 120628); (120630, 120654);
   (120656, 120686); (120688, 120712); (120714, 120744); (120746, 120770);
   (120772, 120779); (120782, 120831); (122624, 122654); (123136, 123180);
   (123191, 123197); (123200, 123209); (123214, 123214); (123536, 123565);
   (123584, 123627); (123632, 123641); (124896, 124902); (124904, 124907);
   (124909, 124910); (124912, 124926); (124928, 125124); (125127, 125135);
   (125184, 125251); (125259, 125259); (125264, 125273); (126065, 126123);
   (126125, 126127); (126129, 126132); (126209, 126253); (126255, 126269);
   (126464, 126467); (126469, 126495); (126497, 126498); (126500, 126500);
   (126503, 126503); (126505, 126514); (126516, 126519); (126521, 126521);
   (126523, 126523); (126530, 126530); (126535, 126535); (126537, 126537);
   (126539, 126539); (126541, 126543); (126545, 126546); (126548, 126548);
   (126551, 126551); (126553, 126553); (126555, 126555); (126557, 126557);
   (126559, 126559); (126561, 126562); (126564, 126564); (126567, 126570);
   (126572, 126578); (126580, 126583); (126585, 126588); (126590, 126590);
   (126592, 126601); (126603, 126619); (126625, 126627); (126629, 126633);
   (126635, 126651); (127232, 127244); (130032, 130041); (131072, 173791);
   (173824, 177976); (177984, 178205); (178208, 183969); (183984, 191456);
   (194560, 195101); (196608, 201546)]%N.

Definition lower_table : list (N * N * N * N) :=
  [(65, 90, 1, 97); (192, 214, 1, 224); (216, 222, 1, 248);
   (256, 302, 2, 257); (306, 310, 2, 307); (313, 327, 2, 314);
   (330, 374, 2, 331); (376, 376, 1, 255); (377, 381, 2, 378);
   (385, 385, 1, 595); (386, 388, 2, 387); (390, 390, 1, 596);
   (391, 391, 1, 392); (393, 394, 1, 598); (395, 395, 1, 396);
   (398, 398, 1, 477); (399, 399, 1, 601); (400, 400, 1, 603);
   (401, 401, 1, 402); (403, 403, 1, 608); (404, 404, 1, 611);
   (406, 406, 1, 617); (407, 407, 1, 616); (408, 408, 1, 409);
   (412, 412, 1, 623); (413, 413, 1, 626); (415, 415, 1, 629);
   (416, 420, 2, 417); (422, 422, 1, 640); (423, 423, 1, 424);
   (425, 425, 1, 643); (428, 428, 1, 429); (430, 430, 1, 648);
   (431, 431, 1, 432); (433, 434, 1, 650); (435, 437, 2, 436);
   (439, 439, 1, 658); (440, 440, 1, 441); (444, 444, 1, 445);
   (452, 452, 1, 454); (453, 453, 1, 454); (455, 455, 1, 457);
   (456, 456, 1, 457); (458, 458, 1, 460); (459, 475, 2, 460);
   (478, 494, 2, 479); (497, 497, 1, 499); (498, 500, 2, 499);
   (502, 502, 1, 405); (503, 503, 1, 447); (504, 542, 2, 505);
   (544, 544, 1, 414); (546, 562, 2, 547); (570, 570, 1, 11365);
   (571, 571, 1, 572); (573, 573, 1, 410); (574, 574, 1, 11366);
   (577, 577, 1, 578); (579, 579, 1, 384); (580, 580, 1, 649);
   (581, 581, 1, 652); (582, 590, 2, 583); (880, 882, 2, 881);
   (886, 886, 1, 887); (895, 895, 1, 1011); (902, 902, 1, 940);
   (904, 906, 1, 941); (908, 908, 1, 972); (910, 911, 1, 973);
   (913, 929, 1, 945); (931, 939, 1, 963); (975, 975, 1, 983);
   (984, 1006, 2, 985); (1012, 1012, 1, 952); (1015, 1015, 1, 1016);
   (1017, 1017, 1, 1010); (1018, 1018, 1, 1019); (1021, 1023, 1, 891);
   (1024, 1039, 1, 1104); (1040, 1071, 1, 1072); (1120, 1152, 2, 1121);
   (1162, 1214, 2, 1163); (1216, 1216, 1, 1231); (1217, 1229, 2, 1218);
   (1232, 1326, 2, 1233); (1329, 1366, 1, 1377); (4256, 4293, 1, 11520);
   (4295, 4295, 1, 11559); (4301, 4301, 1, 11565); (5024, 5103, 1, 43888);
   (5104, 5109, 1, 5112); (7312, 7354, 1, 4304); (7357, 7359, 1, 4349);
   (7680, 7828, 2, 7681); (7838, 7838, 1, 223); (7840, 7934, 2, 7841);
   (7944, 7951, 1, 7936); (7960, 7965, 1, 7952); (7976, 7983, 1, 7968);
   (7992, 7999, 1, 7984); (8008, 8013, 1, 8000); (8025, 8031, 2, 8017);
   (8040, 8047, 1, 8032); (8072, 8079, 1, 8064); (8088, 8095, 1, 8080);
   (8104, 8111, 1, 8096); (8120, 8121, 1, 8112); (8122, 8123, 1, 8048);
   (8124, 8124, 1, 8115); (8136, 8139, 1, 8050); (8140, 8140, 1, 8131);
   (8152, 8153, 1, 8144); (8154, 8155, 1, 8054); (8168, 8169, 1, 8160);
   (8170, 8171, 1, 8058); (8172, 8172, 1, 8165); (8184, 8185, 1, 8056);
   (8186, 8187, 1, 8060); (8188, 8188, 1, 8179); (8486, 8486, 1, 969);
   (8490, 8490, 1, 107); (8491, 8491, 1, 229); (8498, 8498, 1, 8526);
   (8544, 8559, 1, 8560); (8579, 8579, 1, 8580); (9398, 9423, 1, 9424);
   (11264, 11311, 1, 11312); (11360, 11360, 1, 11361);
   (11362, 11362, 1, 619); (11363, 11363, 1, 7549); (11364, 11364, 1, 637);
   (11367, 11371, 2, 11368); (11373, 11373, 1, 593); (11374, 11374, 1, 625);
   (11375, 11375, 1, 592); (11376, 11376, 1, 594); (11378, 11378, 1, 11379);
   (11381, 11381, 1, 11382); (11390, 11391, 1, 575);
   (11392, 11490, 2, 11393); (11499, 11501, 2, 11500);
   (11506, 11506, 1, 11507); (42560, 42604, 2, 42561);
   (42624, 42650, 2, 42625); (42786, 42798, 2, 42787);
   (42802, 42862, 2, 42803); (42873, 42875, 2, 42874);
   (42877, 42877, 1, 7545); (42878, 42886, 2, 42879);
   (42891, 42891, 1, 42892); (42893, 42893, 1, 613);
   (42896, 42898, 2, 42897); (42902, 42920, 2, 42903);
   (42922, 42922, 1, 614); (42923, 42923, 1, 604); (42924, 42924, 1, 609);
   (42925, 42925, 1, 620); (42926, 42926, 1, 618); (42928, 42928, 1, 670);
   (42929, 42929, 1, 647); (42930, 42930, 1, 669); (42931, 42931, 1, 43859);
   (42932, 42946, 2, 42933); (42948, 42948, 1, 42900);
   (42949, 42949, 1, 642); (42950, 42950, 1, 7566); (42951, 42953, 2, 42952);
   (42960, 42960, 1, 42961); (42966, 42968, 2, 42967);
   (42997, 42997, 1, 42998); (65313, 65338, 1, 65345);
   (66560, 66599, 1, 66600); (66736, 66771, 1, 66776);
   (66928, 66938, 1, 66967); (66940, 66954, 1, 66979);
   (66956, 66962, 1, 66995); (66964, 66965, 1, 67003);
   (68736, 68786, 1, 68800); (71840, 71871, 1, 71872);
   (93760, 93791, 1, 93792); (125184, 125217, 1, 125218)]%N.

(** The cased code points that are not case-ignorable. *)
Definition cased_table : list (N * N) :=
  [(65, 90); (97, 122); (170, 170); (181, 181); (186, 186); (192, 214);
   (216, 246); (248, 442); (444, 447); (452, 659); (661, 687); (880, 883);
   (886, 887); (891, 893); (895, 895); (902, 902); (904, 906); (908, 908);
   (910, 929); (931, 1013); (1015, 1153); (1162, 1327); (1329, 1366);
   (1376, 1416); (4256, 4293); (4295, 4295); (4301, 4301); (4304, 4346);
   (4349, 4351); (5024, 5109); (5112, 5117); (7296, 7304); (7312, 7354);
   (7357, 7359); (7424, 7467); (7531, 7543); (7545, 7578); (7680, 7957);
   (7960, 7965); (7968, 8005); (8008, 8013); (8016, 8023); (8025, 8025);
   (8027, 8027); (8029, 8029); (8031, 8061); (8064, 8116); (8118, 8124);
   (8126, 8126); (8130, 8132); (8134, 8140); (8144, 8147); (8150, 8155);
   (8160, 8172); (8178, 8180); (8182, 8188); (8450, 8450); (8455, 8455);
   (8458, 8467); (8469, 8469); (8473, 8477); (8484, 8484); (8486, 8486);
   (8488, 8488); (8490, 8493); (8495, 8500); (8505, 8505); (8508, 8511);
   (8517, 8521); (8526, 8526); (8544, 8575); (8579, 8580); (9398, 9449);
   (11264, 11387); (11390, 11492); (11499, 11502); (11506, 11507);
   (11520, 11557); (11559, 11559); (11565, 11565); (42560, 42605);
   (42624, 42651); (42786, 42863); (42865, 42887); (42891, 42894);
   (42896, 42954); (42960, 42961); (42963, 42963); (42965, 42969);
   (42997, 42998); (43002, 43002); (43824, 43866); (43872, 43880);
   (43888, 43967); (64256, 64262); (64275, 64279); (65313, 65338);
   (65345, 65370); (66560, 66639); (66736, 66771); (66776, 66811);
   (66928, 66938); (66940, 66954); (66956, 66962); (66964, 66965);
   (66967, 66977); (66979, 66993); (66995, 67001); (67003, 67004);
   (68736, 68786); (68800, 68850); (71840, 71903); (93760, 93823);
   (119808, 119892); (119894, 119964); (119966, 119967); (119970, 119970);
   (119973, 119974); (119977, 119980); (119982, 119993); (119995, 119995);
   (119997, 120003); (120005, 120069); (120071, 120074); (120077, 120084);
   (120086, 120092); (120094, 120121); (120123, 120126); (120128, 120132);
   (120134, 120134); (120138, 120144); (120146, 120485); (120488, 120512);
   (120514, 120538); (120540, 120570); (120572, 120596); (120598, 120628);
   (120630, 120654); (120656, 120686); (120688, 120712); (120714, 120744);
   (120746, 120770); (120772, 120779); (122624, 122633); (122635, 122654);
   (125184, 125251); (127280, 127305); (127312, 127337); (127344, 127369)]%N.

Definition case_ignorable_table : list (N * N) :=
  [(39, 39); (46, 46); (58, 58); (94, 94); (96, 96); (168, 168); (173, 173);
   (175, 175); (180, 180); (183, 184); (688, 879); (884, 885); (890, 890);
   (900, 901); (903, 903); (1155, 1161); (1369, 1369); (1375, 1375);
   (1425, 1469); (1471, 1471); (1473, 1474); (1476, 1477); (1479, 1479);
   (1524, 1524); (1536, 1541); (1552, 1562); (1564, 1564); (1600, 1600);
   (1611, 1631); (1648, 1648); (1750, 1757); (1759, 1768); (1770, 1773);
   (1807, 1807); (1809, 1809); (1840, 1866); (1958, 1968); (2027, 2037);
   (2042, 2042); (2045, 2045); (2070, 2093); (2137, 2139); (2184, 2184);
   (2192, 2193); (2200, 2207); (2249, 2306); (2362, 2362); (2364, 2364);
   (2369, 2376); (2381, 2381); (2385, 2391); (2402, 2403); (2417, 2417);
   (2433, 2433); (2492, 2492); (2497, 2500); (2509, 2509); (2530, 2531);
   (2558, 2558); (2561, 2562); (2620, 2620); (2625, 2626); (2631, 2632);
   (2635, 2637); (2641, 2641); (2672, 2673); (2677, 2677); (2689, 2690);
   (2748, 2748); (2753, 2757); (2759, 2760); (2765, 2765); (2786, 2787);
   (2810, 2815); (2817, 2817); (2876, 2876); (2879, 2879); (2881, 2884);
   (2893, 2893); (2901, 2902); (2914, 2915); (2946, 2946); (3008, 3008);
   (3021, 3021); (3072, 3072); (3076, 3076); (3132, 3132); (3134, 3136);
   (3142, 3144); (3146, 3149); (3157, 3158); (3170, 3171); (3201, 3201);
   (3260, 3260); (3263, 3263); (3270, 3270); (3276, 3277); (3298, 3299);
   (3328, 3329); (3387, 3388); (3393, 3396); (3405, 3405); (3426, 3427);
   (3457, 3457); (3530, 3530); (3538, 3540); (3542, 3542); (3633, 3633);
   (3636, 3642); (3654, 3662); (3761, 3761); (3764, 3772); (3782, 3782);
   (3784, 3789); (3864, 3865); (3893, 3893); (3895, 3895); (3897, 3897);
   (3953, 3966); (3968, 3972); (3974, 3975); (3981, 3991); (3993, 4028);
   (4038, 4038); (4141, 4144); (4146, 4151); (4153, 4154); (4157, 4158);
   (4184, 4185); (4190, 4192); (4209, 4212); (4226, 4226); (4229, 4230);
   (4237, 4237); (4253, 4253); (4348, 4348); (4957, 4959); (5906, 5908);
   (5938, 5939); (5970, 5971); (6002, 6003); (6068, 6069); (6071, 6077);
   (6086, 6086); (6089, 6099); (6103, 6103); (6109, 6109); (6155, 6159);
   (6211, 6211); (6277, 6278); (6313, 6313); (6432, 6434); (6439, 6440);
   (6450, 6450); (6457, 6459); (6679, 6680); (6683, 6683); (6742, 6742);
   (6744, 6750); (6752, 6752); (6754, 6754); (6757, 6764); (6771, 6780);
   (6783, 6783); (6823, 6823); (6832, 6862); (6912, 6915); (6964, 6964);
   (6966, 6970); (6972, 6972); (6978, 6978); (7019, 7027); (7040, 7041);
   (7074, 7077); (7080, 7081); (7083, 7085); (7142, 7142); (7144, 7145);
   (7149, 7149); (7151, 7153); (7212, 7219); (7222, 7223); (7288, 7293);
   (7376, 7378); (7380, 7392); (7394, 7400); (7405, 7405); (7412, 7412);
   (7416, 7417); (7468, 7530); (7544, 7544); (7579, 7679); (8125, 8125);
   (8127, 8129); (8141, 8143); (8157, 8159); (8173, 8175); (8189, 8190);
   (8203, 8207); (8216, 8217); (8228, 8228); (8231, 8231); (8234, 8238);
   (8288, 8292); (8294, 8303); (8305, 8305); (8319, 8319); (8336, 8348);
   (8400, 8432); (11388, 11389); (11503, 11505); (11631, 11631);
   (11647, 11647); (11744, 11775); (11823, 11823); (12293, 12293);
   (12330, 12333); (12337, 12341); (12347, 12347); (12441, 12446);
   (12540, 12542); (40981, 40981); (42232, 42237); (42508, 42508);
   (42607, 42610); (42612, 42621); (42623, 42623); (42652, 42655);
   (42736, 42737); (42752, 42785); (42864, 42864); (42888, 42890);
   (42994, 42996); (43000, 43001); (43010, 43010); (43014, 43014);
   (43019, 43019); (43045, 43046); (43052, 43052); (43204, 43205);
   (43232, 43249); (43263, 43263); (43302, 43309); (43335, 43345);
   (43392, 43394); (43443, 43443); (43446, 43449); (43452, 43453);
   (43471, 43471); (43493, 43494); (43561, 43566); (43569, 43570);
   (43573, 43574); (43587, 43587); (43596, 43596); (43632, 43632);
   (43644, 43644); (43696, 43696); (43698, 43700); (43703, 43704);
   (43710, 43711); (43713, 43713); (43741, 43741); (43756, 43757);
   (43763, 43764); (43766, 43766); (43867, 43871); (43881, 43883);
   (44005, 44005); (44008, 44008); (44013, 44013); (64286, 64286);
   (64434, 64450); (65024, 65039); (65043, 65043); (65056, 65071);
   (65106, 65106); (65109, 65109); (65279, 65279); (65287, 65287);
   (65294, 65294); (65306, 65306); (65342, 65342); (65344, 65344);
   (65392, 65392); (65438, 65439); (65507, 65507); (65529, 65531);
   (66045, 66045); (66272, 66272); (66422, 66426); (67456, 67461);
   (67463, 67504); (67506, 67514); (68097, 68099); (68101, 68102);
   (68108, 68111); (68152, 68154); (68159, 68159); (68325, 68326);
   (68900, 68903); (69291, 69292); (69446, 69456); (69506, 69509);
   (69633, 69633); (69688, 69702); (69744, 69744); (69747, 69748);
   (69759, 69761); (69811, 69814); (69817, 69818); (69821, 69821);
   (69826, 69826); (69837, 69837); (69888, 69890); (69927, 69931);
   (69933, 69940); (70003, 70003); (70016, 70017); (70070, 70078);
   (70089, 70092); (70095, 70095); (70191, 70193); (70196, 70196);
   (70198, 70199); (70206, 70206); (70367, 70367); (70371, 70378);
   (70400, 70401); (70459, 70460); (70464, 70464); (70502, 70508);
   (70512, 70516); (70712, 70719); (70722, 70724); (70726, 70726);
   (70750, 70750); (70835, 70840); (70842, 70842); (70847, 70848);
   (70850, 70851); (71090, 71093); (71100, 71101); (71103, 71104);
   (71132, 71133); (71219, 71226); (71229, 71229); (71231, 71232);
   (71339, 71339); (71341, 71341); (71344, 71349); (71351, 71351);
   (71453, 71455); (71458, 71461); (71463, 71467); (71727, 71735);
   (71737, 71738); (71995, 71996); (71998, 71998); (72003, 72003);
   (72148, 72151); (72154, 72155); (72160, 72160); (72193, 72202);
   (72243, 72248); (72251, 72254); (72263, 72263); (72273, 72278);
   (72281, 72283); (72330, 72342); (72344, 72345); (72752, 72758);
   (72760, 72765); (72767, 72767); (72850, 72871); (72874, 72880);
   (72882, 72883); (72885, 72886); (73009, 73014); (73018, 73018);
   (73020, 73021); (73023, 73029); (73031, 73031); (73104, 73105);
   (73109, 73109); (73111, 73111); (73459, 73460); (78896, 78904);
   (92912, 92916); (92976, 92982); (92992, 92995); (94031, 94031);
   (94095, 94111); (94176, 94177); (94179, 94180); (110576, 110579);
   (110581, 110587); (110589, 110590); (113821, 113822); (113824, 113827);
   (118528, 118573); (118576, 118598); (119143, 119145); (119155, 119170);
   (119173, 119179); (119210, 119213); (119362, 119364); (121344, 121398);
   (121403, 121452); (121461, 121461); (121476, 121476); (121499, 121503);
   (121505, 121519); (122880, 122886); (122888, 122904); (122907, 122913);
   (122915, 122916); (122918, 122922); (123184, 123197); (123566, 123566);
   (123628, 123631); (125136, 125142); (125252, 125259); (127995, 127999);
   (917505, 917505); (917536, 917631); (917760, 917999)]%N.

Definition isalnum (c : N) : bool := in_table alnum_table c.

Definition cased (c : N) : bool := in_table cased_table c.

Definition case_ignorable (c : N) : bool := in_table case_ignorable_table c.

(** The lowercase of one code point; only U+0130 has one of two code
    points, a small i and a combining dot above. *)
Definition lower_cp (c : N) : list N :=
  if (c =? 304)%N then [105; 775]%N
  else
    match List.find (fun r => let '(first, last, step, _) := r in
                       (first <=? c)%N && (c <=? last)%N
                       && ((c - first) mod step =? 0)%N) lower_table with
    | Some (first, _, _, target) => [(target + (c - first))%N]
    | None => [c]
    end.

Fixpoint first_not_ignorable (s : list N) : option N :=
  match s with
  | [] => None
  | c :: rest => if case_ignorable c then first_not_ignorable rest else Some c
  end.

(** A capital sigma is final when a cased letter comes before it and none
    comes after it, case-ignorable code points apart. *)
Definition final_sigma (before_reversed after : list N) : bool :=
  match first_not_ignorable before_reversed with
  | Some c =>
      cased c && match first_not_ignorable after with
                 | Some c' => negb (cased c')
                 | None => true
                 end
  | None => false
  end.

(** [str.lower()] *)
Fixpoint lower_from (before_reversed s : list N) : list N :=
  match s with
  | [] => []
  | c :: rest =>
      (if (c =? 931)%N
       then [if final_sigma before_reversed rest then 962%N else 963%N]
       else lower_cp c) ++ lower_from (c :: before_reversed) rest
  end.

Definition lower (s : list N) : list N := lower_from [] s.

(** [''.join(c if c.isalnum() else '_' for c in name).lower()] *)
Definition safe_name (name : list N) : list N :=
  lower (map (fun c => if isalnum c then c else 95%N) name).

End Unicode.

(** The code points of a name over U+0000..U+00FF. *)
Definition codes (name : string) : list N := map code (String.list_ascii_of_string name).

(** An element of the list the translator returns, when it is an object
    whose name, type and description are strings and whose bounding box is a
    list of integers; any of the keys may be absent.  (An item of another
    shape is outside this record: an item that is not an object has no
    [get], and makes the loops over the elements raise.) *)
Record element : Type := Element {
  e_name : option string;
  e_type : option string;
  e_bounding_box : option (list Z);
  e_description : option string
}.

(** [x1, y1, x2, y2 = element['bounding_box']] *)
Definition unpack4 (xs : list Z) : outcome (Z * Z * Z * Z) :=
  match xs with
  | [x1; y1; x2; y2] => Return (x1, y1, x2, y2)
  | _ => Raise "ValueError: wrong number of values to unpack"
  end.

(** A reference model of the two PIL calls.  [crop] rejects a box whose right
    edge is left of its left edge, or lower edge above its upper edge, and
    otherwise cuts the box out, with 0 where the box leaves the image.
    [save] opens the file for writing, which empties a file that is there,
    and then encodes: the encoder cannot write a raster without pixels
    (SystemError: tile cannot extend outside image), and when it raises, a
    file that was there stays, emptied, while a file that [save] has
    created is removed. *)
Module PIL.

Definition getpixel (img : gray) (x y : Z) : Z :=
  if ((0 <=? x) && (0 <=? y))%Z
  then match img !! Z.to_nat y with
       | Some row => default 0%Z (row !! Z.to_nat x)
       | None => 0%Z
       end
  else 0%Z.

Definition crop (img : gray) (box : Z * Z * Z * Z) : outcome gray :=
  let '(x1, y1, x2, y2) := box in
  if (x2 <? x1)%Z then Raise "ValueError: Coordinate 'right' is less than 'left'"
  else if (y2 <? y1)%Z then Raise "ValueError: Coordinate 'lower' is less than 'upper'"
  else Return (map (fun y => map (fun x => getpixel img x y)
                                 (seqZ x1 (x2 - x1)))
                   (seqZ y1 (y2 - y1))).

(** The directory after the call, and how the call ended. *)
Definition save (img : gray) (file : string) (files : gmap string gray)
    : gmap string gray * outcome unit :=
  if empty_raster img
  then (match files !! file with
        | Some _ => <[file := []]> files
        | None => files
        end,
        Raise "SystemError: tile cannot extend outside image")
  else (<[file := img]> files, Return tt).

End PIL.
Arguments PIL.crop : simpl never.
Arguments PIL.save : simpl never.

(** The state of an extraction: the mapping built so far, the template
    directory, and what was printed. *)
Record store : Type := Store {
  templates : pydict template_info;
  directory : gmap string gray;
  printed : list string
}.

(** The body of [for element in elements]; [announce] is the [print] that
    [extract_element_templates] adds after a successful extraction.  The
    handler of the [try] finds the directory as the failed statement left
    it. *)
Definition extract_one (template_dir : string) (announce : bool) (screenshot : gray)
    (st : store) (element : element) : store :=
  match e_bounding_box element, e_name element with
  | Some bbox, Some name =>
      let handler (files : gmap string gray) (e : string) :=
        {| templates := templates st;
           directory := files;
           printed := printed st ++ ["Error extracting template for "
                                     +:+ name +:+ ": " +:+ e] |} in
      match (b ← unpack4 bbox; PIL.crop screenshot b) with
      | Raise e => handler (directory st) e
      | Return element_img =>
          let file := template_dir +:+ "/" +:+ safe_name name +:+ ".png" in
          match PIL.save element_img file (directory st) with
          | (directory', Raise e) => handler directory' e
          | (directory', Return _) =>
              {| templates :=
                   dict_set (templates st) name
                     {| filename := file;
                        bounding_box := bbox;
                        type_ := default "unknown" (e_type element);
                        description := default "" (e_description element) |};
                 directory := directory';
                 printed :=
                   if announce
                   then printed st ++ ["Extracted template for '" +:+ name
                                       +:+ "' at " +:+ file]
                   else printed st |}
          end
      end
  | _, _ => st
  end.

(** [ElementExtractor.extract_templates] (utils/element_extraction.py). *)
Definition extract_templates (template_dir : string) (screenshot : gray)
    (elements : list element) (files : gmap string gray) : store :=
  foldl (extract_one template_dir false screenshot)
        {| templates := []; directory := files; printed := [] |} elements.

(** [extract_element_templates] (vision_automation.py). *)
Definition extract_element_templates (screenshot : gray)
    (elements : list element) (files : gmap string gray) : store :=
  foldl (extract_one "templates" true screenshot)
        {| templates := []; directory := files; printed := [] |} elements.

(** A bounding box that lies within an image. *)
Definition within (img : gray) (bbox : list Z) : Prop :=
  match bbox with
  | [x1; y1; x2; y2] =>
      (0 <= x1 /\ x2 <= Z.of_nat (shape img).2 /\
       0 <= y1 /\ y2 <= Z.of_nat (shape img).1)%Z
  | _ => False
  end.

(** ** The translator's reply (process_user_request) *)

(** [str.find] and [str.rfind] for one character: the index, or -1. *)
Fixpoint find_from (c : ascii) (s : string) (i : Z) : Z :=
  match s with
  | EmptyString => (-1)%Z
  | String c' rest => if decide (c' = c) then i else find_from c rest (i + 1)%Z
  end.

Definition find (c : ascii) (s : string) : Z := find_from c s 0.

Fixpoint rfind_from (c : ascii) (s : string) (i : Z) : Z :=
  match s with
  | EmptyString => (-1)%Z
  | String c' rest =>
      let later := rfind_from c rest (i + 1)%Z in
      if decide (later = (-1)%Z) then (if decide (c' = c) then i else (-1)%Z)
      else later
  end.

Definition rfind (c : ascii) (s : string) : Z := rfind_from c s 0.

Fixpoint drop_chars (n : nat) (s : string) : string :=
  match n, s with
  | O, _ => s
  | S n', String _ rest => drop_chars n' rest
  | S _, EmptyString => EmptyString
  end.

Fixpoint take_chars (n : nat) (s : string) : string :=
  match n, s with
  | S n', String c rest => String c (take_chars n' rest)
  | _, _ => EmptyString
  end.

(** [s[start:stop]]: a negative index counts from the end, indices are
    clipped to the string, and the slice is empty when stop <= start. *)
Definition slice (s : string) (start stop : Z) : string :=
  let len := Z.of_nat (String.length s) in
  let clip i := if (i <? 0)%Z then Z.max (i + len) 0 else Z.min i len in
  take_chars (Z.to_nat (clip stop - clip start))
             (drop_chars (Z.to_nat (clip start)) s).

(** A JSON value, as [json.loads] returns it. *)
Inductive json : Type :=
| JNull
| JBool (b : bool)
| JNumber (z : Z)
| JString (s : string)
| JArray (items : list json)
| JObject (fields : list (string * json)).

(** ["error" in action] *)
Definition has_error_key (action : json) : bool :=
  match action with
  | JObject fields => bool_decide ("error" ∈ map fst fields)
  | _ => false
  end.

Section Translator.

(** [json.loads]: the value, or a JSONDecodeError. *)
Variable json_loads : string -> outcome json.

(** The substring handed to [json.loads], when the [if] of line 71 holds. *)
Definition payload (response_text : string) : option string :=
  let start_idx := find "{" response_text in
  let end_idx := (rfind "}" response_text + 1)%Z in
  if bool_decide (start_idx <> (-1)%Z) && bool_decide (end_idx <> (-1)%Z)
  then Some (slice response_text start_idx end_idx)
  else None.

(** [process_user_request] from the reply on (lines 64-80 of
    template_automation.py, 84-100 of desktop_automation.py): the action and
    what is printed. *)
Definition process_user_request (response_text : string) : json * list string :=
  try_except
    (match payload response_text with
     | Some json_str =>
         action ← json_loads json_str;
         Return (action, [])
     | None =>
         Return (JObject [("error", JString "Could not parse response")], [])
     end)
    (fun e => (JObject [("error", JString ("Parse error: " +:+ e))],
               ["Error parsing action: " +:+ e])).

End Translator.

(** The extraction the spec describes: the first balanced bracketed
    substring, from the first '{' to the '}' that closes it. *)
Fixpoint balanced_prefix (s : string) (depth : nat) : option string :=
  match s with
  | EmptyString => None
  | String c rest =>
      if decide (c = "{"%char)
      then String c <$> balanced_prefix rest (S depth)
      else if decide (c = "}"%char)
      then match depth with
           | 0 => None
           | 1 => Some (String c EmptyString)
           | S d => String c <$> balanced_prefix rest d
           end
      else String c <$> balanced_prefix rest depth
  end.

Definition first_balanced_object (s : string) : option string :=
  let start_idx := find "{" s in
  if decide (start_idx = (-1)%Z) then None
  else balanced_prefix (drop_chars (Z.to_nat start_idx) s) 0.

(** ** The action executor (utils/action_execution.py) *)

(** The calls [execute_action] makes into [time], the builtins and
    pyautogui, in the order it makes them. *)
Inductive call : Type :=
| Time
| Sleep (seconds : Q)
| Print (line : string)
| Input (prompt : string)
| Click (x y : Z)
| DoubleClick (x y : Z)
| RightClick (x y : Z)
| MoveTo (x y : Z)
| DragTo (x y : Z) (duration : Z)
| Typewrite (text : string)
| Hotkey (keys : list string)
| Scroll (clicks x y : Z)
| HScroll (clicks x y : Z).

(** The calls that inject input events, and [input] that blocks on the
    user: what an action dispatches. *)
Definition dispatches (c : call) : bool :=
  match c with
  | Time | Sleep _ | Print _ => false
  | _ => true
  end.

(** [**kwargs]: the parameters an action may carry. *)
Record kwargs : Type := Kwargs {
  kw_end_location : option (Z * Z);
  kw_text : option string;
  kw_keys : option (list string);
  kw_direction : option string;
  kw_clicks : option Z;
  kw_seconds : option Q;
  kw_message : option string
}.

Record action_record : Type := ActionRecord {
  r_type : string;
  r_target : option string;
  r_location : option (Z * Z);
  r_params : kwargs;
  r_timestamp : Q
}.

Record executor : Type := Executor {
  safety_level : string;
  last_action_time : Q;
  actions_per_minute : nat;
  action_history : list action_record
}.

(** A computation that makes calls: from the calls made so far to its
    outcome and the calls made then. *)
Definition M (A : Type) : Type := list call -> outcome A * list call.

#[global] Instance M_ret : MRet M := fun A a tr => (Return a, tr).

#[global] Instance M_bind : MBind M := fun A B k m tr =>
  match m tr with
  | (Return a, tr') => k a tr'
  | (Raise e, tr') => (Raise e, tr')
  end.

(** [try: m except Exception as e: handler e] *)
Definition catch {A : Type} (m : M A) (handler : string -> M A) : M A :=
  fun tr =>
    match m tr with
    | (Return a, tr') => (Return a, tr')
    | (Raise e, tr') => handler e tr'
    end.

Definition Qlt_bool (a b : Q) : bool := negb (Qle_bool b a).

Section Executor.

(** What [time.time()] returns after the calls made so far. *)
Variable clock : list call -> Q.

(** Whether a pyautogui call or [input] raises after the calls made so far,
    and with what. *)
Variable fails : list call -> call -> option string.

(** The exception a call raises, if any: [time.time] and [print] raise
    none, [time.sleep] a ValueError on a negative length. *)
Definition call_error (tr : list call) (c : call) : option string :=
  match c with
  | Time | Print _ => None
  | Sleep seconds =>
      if Qlt_bool seconds 0
      then Some "ValueError: sleep length must be non-negative"
      else None
  | _ => fails tr c
  end.

Definition perform (c : call) : M unit := fun tr =>
  match call_error tr c with
  | Some e => (Raise e, tr ++ [c])
  | None => (Return tt, tr ++ [c])
  end.

Definition time_time : M Q := fun tr => (Return (clock tr), tr ++ [Time]).

(** None of the calls [new], made one after the other from [tr] on, raises. *)
Fixpoint all_ok (tr new : list call) : Prop :=
  match new with
  | [] => True
  | c :: rest => call_error tr c = None /\ all_ok (tr ++ [c]) rest
  end.

(** Lines 38-52: the rate limit of the safety level "high". *)
Definition rate_limit (self : executor) : M executor :=
  if decide (safety_level self = "high") then
    current_time ← time_time;
    _ ← (if Qlt_bool (current_time - last_action_time self) (1 # 2)
         then perform (Sleep ((1 # 2) - (current_time - last_action_time self)))
         else mret tt);
    now ← time_time;
    let count := S (actions_per_minute self) in
    if (30 <? count)%nat then
      _ ← perform (Print "Too many actions! Slowing down for safety...");
      _ ← perform (Sleep 2);
      mret {| safety_level := safety_level self; last_action_time := now;
              actions_per_minute := 0; action_history := action_history self |}
    else
      mret {| safety_level := safety_level self; last_action_time := now;
              actions_per_minute := count; action_history := action_history self |}
  else mret self.

(** Lines 66-131: the body of the [try]. *)
Definition dispatch (action_type : string) (location : option (Z * Z))
    (kw : kwargs) : M bool :=
  if decide (action_type = "click") then
    match location with
    | Some (x, y) => _ ← perform (Click x y); mret true
    | None => mret false
    end
  else if decide (action_type = "double_click") then
    match location with
    | Some (x, y) => _ ← perform (DoubleClick x y); mret true
    | None => mret false
    end
  else if decide (action_type = "right_click") then
    match location with
    | Some (x, y) => _ ← perform (RightClick x y); mret true
    | None => mret false
    end
  else if decide (action_type = "drag") then
    match location, kw_end_location kw with
    | Some (sx, sy), Some (ex, ey) =>
        _ ← perform (MoveTo sx sy); _ ← perform (DragTo ex ey 1); mret true
    | _, _ => mret false
    end
  else if decide (action_type = "type") then
    let text := default "" (kw_text kw) in
    match location with
    | Some (x, y) => _ ← perform (Click x y); _ ← perform (Typewrite text); mret true
    | None => mret false
    end
  else if decide (action_type = "hotkey") then
    let keys := default [] (kw_keys kw) in
    match keys with
    | [] => mret false
    | _ => _ ← perform (Hotkey keys); mret true
    end
  else if decide (action_type = "scroll") then
    let direction := default "down" (kw_direction kw) in
    let clicks := default 3%Z (kw_clicks kw) in
    match location with
    | Some (x, y) =>
        _ ← (if decide (direction = "down") then perform (Scroll (- clicks) x y)
             else if decide (direction = "up") then perform (Scroll clicks x y)
             else if decide (direction = "left") then perform (HScroll (- clicks) x y)
             else if decide (direction = "right") then perform (HScroll clicks x y)
             else mret tt);
        mret true
    | None => mret false
    end
  else if decide (action_type = "wait") then
    let seconds := default 5%Q (kw_seconds kw) in
    _ ← perform (Sleep seconds); mret true
  else if decide (action_type = "finished") then
    _ ← perform (Print "Task completed successfully!"); mret true
  else if decide (action_type = "call_user") then
    let message := default "Attention required" (kw_message kw) in
    _ ← perform (Print (String "010"%char "!!! " +:+ message +:+ " !!!"));
    _ ← perform (Input "Press Enter to continue...");
    mret true
  else mret false.

(** [ActionExecutor.execute_action]: the boolean returned and the executor
    after the call. *)
Definition execute_action (self : executor) (action_type : string)
    (target : option string) (location : option (Z * Z)) (kw : kwargs)
    : M (bool * executor) :=
  self ← rate_limit self;
  timestamp ← time_time;
  let action_record :=
    {| r_type := action_type; r_target := target; r_location := location;
       r_params := kw; r_timestamp := timestamp |} in
  let self :=
    {| safety_level := safety_level self;
       last_action_time := last_action_time self;
       actions_per_minute := actions_per_minute self;
       action_history := action_history self ++ [action_record] |} in
  result ← catch (dispatch action_type location kw)
                 (fun e => _ ← perform (Print ("Error executing action: " +:+ e));
                           mret false);
  mret (result, self).

End Executor.

(** The action kinds that need a location. *)
Definition needs_location (action_type : string) : bool :=
  bool_decide (action_type ∈ ["click"; "double_click"; "right_click"; "drag";
                               "type"; "scroll"]).

Definition recognized (action_type : string) : bool :=
  bool_decide (action_type ∈ ["click"; "double_click"; "right_click"; "drag";
                               "type"; "hotkey"; "scroll"; "wait"; "finished";
                               "call_user"]).

(** The cases in which [execute_action] is asked for something it cannot
    do: a location is needed and there is none, a drag has no end, a hotkey
    has no keys, the action kind is not known. *)
Definition refused (action_type : string) (location : option (Z * Z))
    (kw : kwargs) : Prop :=
  (needs_location action_type = true /\ location = None) \/
  (action_type = "drag" /\ kw_end_location kw = None) \/
  (action_type = "hotkey" /\ default [] (kw_keys kw) = []) \/
  recognized action_type = false.

(** ** The similarity check (utils/screen_capture.py) *)

(** A reference model of [skimage.metrics.structural_similarity] with its
    defaults on 8-bit images: 7 x 7 windows, means and sample covariances
    over a window ([NP = 49], [cov_norm = NP / (NP - 1)]),
    [C1 = (0.01 * 255)^2], [C2 = (0.03 * 255)^2], the mean of the local
    values over the windows that lie within the image, and a ValueError when
    the image is smaller than a window.  The value is computed in exact
    rational arithmetic and rounded to binary64 at the end. *)
Module Skimage.

Definition float_of_Q (q : Q) : float :=
  PrimFloat.div (Cv2.float_of_Z (Qnum (Qred q)))
                (Cv2.float_of_Z (Zpos (Qden (Qred q)))).

Definition C1 : Q := (((1 # 100) * 255) * ((1 # 100) * 255))%Q.
Definition C2 : Q := (((3 # 100) * 255) * ((3 # 100) * 255))%Q.

Definition local_ssim (X Y : list Z) : Q :=
  (let ux := inject_Z (Cv2.sum X) / 49 in
   let uy := inject_Z (Cv2.sum Y) / 49 in
   let uxx := inject_Z (Cv2.dot X X) / 49 in
   let uyy := inject_Z (Cv2.dot Y Y) / 49 in
   let uxy := inject_Z (Cv2.dot X Y) / 49 in
   let vx := (49 # 48) * (uxx - ux * ux) in
   let vy := (49 # 48) * (uyy - uy * uy) in
   let vxy := (49 # 48) * (uxy - ux * uy) in
   ((2 * ux * uy + C1) * (2 * vxy + C2))
   / ((ux * ux + uy * uy + C1) * (vx + vy + C2)))%Q.

Definition local_values (im1 im2 : gray) : list Q :=
  let '(h, w) := shape im1 in
  flat_map (fun y =>
              map (fun x => local_ssim (Cv2.window im1 y x 7 7)
                                       (Cv2.window im2 y x 7 7))
                  (seq 0 (w - 6)))
           (seq 0 (h - 6)).

Definition mean (qs : list Q) : Q :=
  (foldr Qplus 0 qs / inject_Z (Z.of_nat (length qs)))%Q.

Definition structural_similarity (im1 im2 : gray) : outcome float :=
  let '(h, w) := shape im1 in
  if ((h <? 7) || (w <? 7))%nat
  then Raise "ValueError: win_size exceeds image extent"
  else Return (float_of_Q (mean (local_values im1 im2))).

End Skimage.
Arguments Skimage.structural_similarity : simpl never.

(** [cv2.minMaxLoc(result)[1]]: the largest cell of the score map. *)
Definition max_val (result : score_map) : float :=
  foldr (fun s acc => if PrimFloat.ltb acc s then s else acc)
        neg_infinity (concat result).

(** [compare_screenshots] on two grayscale arrays (the [isinstance] branches
    convert PIL images to such arrays first).  [skimage_installed] tells
    whether the import of line 69 succeeds; [resize] is [cv2.resize], called
    with [(width, height)]. *)
Definition compare_screenshots (skimage_installed : bool)
    (resize : gray -> nat * nat -> gray) (image1 image2 : gray) : outcome float :=
  let image2 :=
    if decide (shape image1 = shape image2) then image2
    else resize image2 ((shape image1).2, (shape image1).1) in
  if skimage_installed
  then Skimage.structural_similarity image1 image2
  else result ← Cv2.matchTemplate image1 image2; Return (max_val result).

(** ** Sample frames and templates for the examples *)
Module Demo.

(** A 2 x 2 icon, stored as the template of the element "Save Icon". *)
Definition icon : gray := [[0; 255]; [255; 0]]%Z.

Definition icon_info : template_info :=
  {| filename := "templates/save_icon.png";
     bounding_box := [0; 0; 2; 2]%Z;
     type_ := "icon";
     description := "saves the document" |}.

Definition files : gmap string gray := {[ "templates/save_icon.png" := icon ]}.

Definition batch : pydict template_info := [("Save Icon", icon_info)].

(** A frame that holds the icon twice, at x = 0 and at x = 2. *)
Definition two_copies : gray := [[0; 255; 0; 255]; [255; 0; 255; 0]]%Z.

(** A frame that holds the icon at x = 2 and a near copy of it at x = 0. *)
Definition near_then_exact : gray := [[0; 255; 0; 255]; [255; 60; 255; 0]]%Z.

(** A 3 x 3 template whose top-left 2 x 2 corner is [icon], and a 3 x 1
    template. *)
Definition large_icon : gray := [[0; 255; 9]; [255; 0; 9]; [9; 9; 9]]%Z.

Definition large_files : gmap string gray :=
  {[ "templates/save_icon.png" := large_icon ]}.

Definition tall_files : gmap string gray :=
  {[ "templates/save_icon.png" := [[0]; [255]; [0]]%Z ]}.

(** A batch of three templates; the file of the second one is not there. *)
Definition batch3 : pydict template_info :=
  [("Save Icon", icon_info);
   ("Ghost", {| filename := "templates/ghost.png"; bounding_box := [5; 5; 9; 9]%Z;
                type_ := "button"; description := "" |});
   ("Open Icon", {| filename := "templates/open_icon.png";
                    bounding_box := [2; 0; 4; 2]%Z;
                    type_ := "icon"; description := "" |})].

Definition files3 : gmap string gray :=
  {[ "templates/save_icon.png" := icon;
     "templates/open_icon.png" := [[255; 0]; [0; 255]]%Z ]}.

(** A 2 x 2 template and a frame whose first window correlates with it with
    coefficient 84 / 120, and whose last window is the template itself. *)
Definition corner : gray := [[0; 1]; [4; 7]]%Z.

Definition seven_tenths : gray := [[0; 1; 0; 1]; [7; 4; 4; 7]]%Z.

Definition corner_files : gmap string gray := {[ "templates/corner.png" := corner ]}.

Definition corner_batch : pydict template_info :=
  [("Corner", {| filename := "templates/corner.png"; bounding_box := [2; 0; 4; 2]%Z;
                 type_ := "icon"; description := "" |})].

(** A 7 x 7 board of two colours, and the board with the colours swapped. *)
Definition board : gray :=
  map (fun y => map (fun x => if Nat.even (x + y) then 0%Z else 255%Z) (seq 0 7))
      (seq 0 7).

Definition inverted_board : gray := map (map (fun v => (255 - v)%Z)) board.

(** A reply that holds two objects, with [q] the double quote:
    [First {"action": "click"} then {"action": "type"}]. *)
Definition two_objects_reply : string :=
  let q := String (ascii_of_nat 34) EmptyString in
  "First {" +:+ q +:+ "action" +:+ q +:+ ": " +:+ q +:+ "click" +:+ q
  +:+ "} then {" +:+ q +:+ "action" +:+ q +:+ ": " +:+ q +:+ "type" +:+ q +:+ "}".

Definition no_kwargs : kwargs :=
  {| kw_end_location := None; kw_text := None; kw_keys := None;
     kw_direction := None; kw_clicks := None; kw_seconds := None;
     kw_message := None |}.

Definition idle_executor : executor :=
  {| safety_level := "low"; last_action_time := 0; actions_per_minute := 0;
     action_history := [] |}.

End Demo.

(** The claim of the spec on re-embedded templates, in its words: the
    template's pixels sit unmodified in the frame at offset [(dx, dy)], and
    the reported center is within [tolerance] of [(dx + w/2, dy + h/2)]. *)
Definition embedded_at (frame template : gray) (dx dy : nat) : Prop :=
  dy + (shape template).1 <= (shape frame).1 /\
  dx + (shape template).2 <= (shape frame).2 /\
  Cv2.window frame dy dx (shape template).1 (shape template).2 = concat template.

Definition center_within (tolerance : Z) (m : match_result) (template : gray)
    (dx dy : nat) : Prop :=
  (Z.abs ((center m).1 - (Z.of_nat dx + Z.of_nat (shape template).2 / 2)) <= tolerance)%Z /\
  (Z.abs ((center m).2 - (Z.of_nat dy + Z.of_nat (shape template).1 / 2)) <= tolerance)%Z.

(** ** Runs of the executor, call by call *)

Section ExecutorRuns.

Variable clock : list call -> Q.
Variable fails : list call -> call -> option string.

(** The calls made by a run: all of them returned, or the last one
    raised. *)
Inductive run_shape {A : Type} (tr : list call) : outcome A -> list call -> Prop :=
| run_returned a new :
    all_ok fails tr new -> run_shape tr (Return a) new
| run_raised pre c e :
    all_ok fails tr pre -> call_error fails (tr ++ pre) c = Some e ->
    run_shape tr (Raise e) (pre ++ [c]).

(** The sleep of line 42, when less than half a second has passed since
    the last action. *)
Definition pause_before (self : executor) (tr : list call) : list call :=
  if Qlt_bool (clock tr - last_action_time self) (1 # 2)
  then [Sleep ((1 # 2) - (clock tr - last_action_time self))]
  else [].

(** Lines 49-52: the warning and the sleep after more than 30 actions. *)
Definition slow_down (self : executor) : list call :=
  if (30 <? S (actions_per_minute self))%nat
  then [Print "Too many actions! Slowing down for safety..."; Sleep 2]
  else [].

End ExecutorRuns.

Section Elements.

Variable json_loads : string -> outcome json.

Definition elements_payload (response_text : string) : option string :=
  let start_idx := find "[" response_text in
  let end_idx := (rfind "]" response_text + 1)%Z in
  if bool_decide (start_idx <> (-1)%Z) && bool_decide (end_idx <> (-1)%Z)
  then Some (slice response_text start_idx end_idx)
  else None.

Definition parse_elements (response_text : string) : outcome (json * list string) :=
  match elements_payload response_text with
  | Some json_str =>
      elements ← json_loads json_str;
      Return (elements, [])
  | None =>
      Return (JArray [],
              ["Couldn't parse JSON response, using empty elements list"])
  end.

Definition identify_elements (reply : outcome string) : json * list string :=
  try_except
    (response_text ← reply; parse_elements response_text)
    (fun e => (JArray [], ["Error identifying elements: " +:+ e])).

Definition identify_desktop_elements (response : outcome (outcome string))
    : outcome (json * list string) :=
  text ← response;
  Return (try_except
            (response_text ← text; parse_elements response_text)
            (fun e => (JArray [], ["Error parsing elements: " +:+ e]))).

End Elements.

(** An element that has both keys the loop of [extract_templates] asks for. *)
Definition usable (e : element) : bool :=
  match e_bounding_box e, e_name e with
  | Some _, Some _ => true
  | _, _ => false
  end.

(** ** Advanced actions (ActionExecutor.execute_advanced_action) *)

(** [s.split(sep)] for a separator of one character: the pieces between the
    separators, at least one piece. *)
Fixpoint split_on (sep : ascii) (s : string) : list string :=
  match s with
  | EmptyString => [EmptyString]
  | String c rest =>
      if decide (c = sep) then EmptyString :: split_on sep rest
      else match split_on sep rest with
           | piece :: pieces => String c piece :: pieces
           | [] => [String c EmptyString]
           end
  end.

(** [sep.join(pieces)] *)
Fixpoint join_with (sep : string) (pieces : list string) : string :=
  match pieces with
  | [] => EmptyString
  | [piece] => piece
  | piece :: rest => piece +:+ sep +:+ join_with sep rest
  end.

(** Iteration over a value, as unpacking does it: the items of a list, the
    characters of a string, the keys of a dict; other values are not
    iterable. *)
Definition py_iter (v : json) : outcome (list json) :=
  match v with
  | JArray items => Return items
  | JString s =>
      Return (map (fun c => JString (String c EmptyString)) (String.list_ascii_of_string s))
  | JObject fields => Return (map (fun field => JString field.1) fields)
  | _ => Raise "TypeError: cannot unpack non-iterable object"
  end.

(** [a, b, c, d = v] *)
Definition unpack4_values (v : json) : outcome (json * json * json * json) :=
  items ← py_iter v;
  match items with
  | [a; b; c; d] => Return (a, b, c, d)
  | _ => Raise "ValueError: wrong number of values to unpack"
  end.

(** A value as an integer operand: an int, or a bool, which is an int. *)
Definition as_int (v : json) : option Z :=
  match v with
  | JNumber z => Some z
  | JBool b => Some (if b then 1 else 0)%Z
  | _ => None
  end.

(** [(a + b) // 2]: the floor of the mean of two integers.  On other values
    the sum or the division raises a TypeError. *)
Definition midpoint (a b : json) : outcome Z :=
  match as_int a, as_int b with
  | Some x, Some y => Return ((x + y) / 2)%Z
  | _, _ => Raise "TypeError: unsupported operand type(s)"
  end.

(** A call without keyword arguments. *)
Definition no_kwargs : kwargs :=
  {| kw_end_location := None; kw_text := None; kw_keys := None;
     kw_direction := None; kw_clicks := None; kw_seconds := None;
     kw_message := None |}.

(** A step that makes no call. *)
Definition lift {A : Type} (o : outcome A) : M A := fun tr => (o, tr).

Section Advanced.

Variable clock : list call -> Q.
Variable fails : list call -> call -> option string.

(** [eval(s)]: the value of the expression, or the exception it raises.
    The model covers expressions whose value is a JSON value with integer
    numbers (a box is a list of four integers) and that have no effect of
    their own. *)
Variable eval : string -> outcome json.

(** [int(s)] on a string. *)
Variable int_of_string : string -> outcome Z.

(** [x1, y1, x2, y2 = eval(box)] *)
Definition eval_box (box : string) : M (json * json * json * json) :=
  lift (v ← eval box; unpack4_values v).

(** [ActionExecutor.execute_advanced_action], for [params] a dict whose
    values are strings, as template_automation.py describes the parameters
    to the translator. *)
Definition execute_advanced_action (self : executor) (action_name : string)
    (params : pydict string) : M (bool * executor) :=
  catch
    (if decide (action_name = "click") then
       match dict_get params "start_box" with
       | Some start_box =>
           '(x1, y1, x2, y2) ← eval_box start_box;
           center_x ← lift (midpoint x1 x2);
           center_y ← lift (midpoint y1 y2);
           execute_action clock fails self "click" None
             (Some (center_x, center_y)) no_kwargs
       | None => mret (false, self)
       end
     else if decide (action_name = "left_double") then
       match dict_get params "start_box" with
       | Some start_box =>
           '(x1, y1, x2, y2) ← eval_box start_box;
           center_x ← lift (midpoint x1 x2);
           center_y ← lift (midpoint y1 y2);
           execute_action clock fails self "double_click" None
             (Some (center_x, center_y)) no_kwargs
       | None => mret (false, self)
       end
     else if decide (action_name = "right_single") then
       match dict_get params "start_box" with
       | Some start_box =>
           '(x1, y1, x2, y2) ← eval_box start_box;
           center_x ← lift (midpoint x1 x2);
           center_y ← lift (midpoint y1 y2);
           execute_action clock fails self "right_click" None
             (Some (center_x, center_y)) no_kwargs
       | None => mret (false, self)
       end
     else if decide (action_name = "drag") then
       match dict_get params "start_box", dict_get params "end_box" with
       | Some start_box, Some end_box =>
           '(x1, y1, x2, y2) ← eval_box start_box;
           '(x3, y3, x4, y4) ← eval_box end_box;
           start_x ← lift (midpoint x1 x2);
           start_y ← lift (midpoint y1 y2);
           end_x ← lift (midpoint x3 x4);
           end_y ← lift (midpoint y3 y4);
           execute_action clock fails self "drag" None (Some (start_x, start_y))
             {| kw_end_location := Some (end_x, end_y); kw_text := None;
                kw_keys := None; kw_direction := None; kw_clicks := None;
                kw_seconds := None; kw_message := None |}
       | _, _ => mret (false, self)
       end
     else if decide (action_name = "hotkey") then
       match dict_get params "key" with
       | Some key =>
           let keys := split_on "+" key in
           execute_action clock fails self "hotkey" None None
             {| kw_end_location := None; kw_text := None; kw_keys := Some keys;
                kw_direction := None; kw_clicks := None; kw_seconds := None;
                kw_message := None |}
       | None => mret (false, self)
       end
     else if decide (action_name = "type") then
       match dict_get params "content" with
       | Some content =>
           match dict_get params "start_box" with
           | Some start_box =>
               '(x1, y1, x2, y2) ← eval_box start_box;
               center_x ← lift (midpoint x1 x2);
               center_y ← lift (midpoint y1 y2);
               execute_action clock fails self "type" None
                 (Some (center_x, center_y))
                 {| kw_end_location := None; kw_text := Some content;
                    kw_keys := None; kw_direction := None; kw_clicks := None;
                    kw_seconds := None; kw_message := None |}
           | None =>
               execute_action clock fails self "type" None None
                 {| kw_end_location := None; kw_text := Some content;
                    kw_keys := None; kw_direction := None; kw_clicks := None;
                    kw_seconds := None; kw_message := None |}
           end
       | None => mret (false, self)
       end
     else if decide (action_name = "scroll") then
       match dict_get params "start_box", dict_get params "direction" with
       | Some start_box, Some direction =>
           let direction := lower direction in
           '(x1, y1, x2, y2) ← eval_box start_box;
           center_x ← lift (midpoint x1 x2);
           center_y ← lift (midpoint y1 y2);
           execute_action clock fails self "scroll" None
             (Some (center_x, center_y))
             {| kw_end_location := None; kw_text := None; kw_keys := None;
                kw_direction := Some direction; kw_clicks := None;
                kw_seconds := None; kw_message := None |}
       | _, _ => mret (false, self)
       end
     else if decide (action_name = "wait") then
       seconds ← lift (match dict_get params "seconds" with
                       | Some s => int_of_string s
                       | None => Return 5%Z
                       end);
       execute_action clock fails self "wait" None None
         {| kw_end_location := None; kw_text := None; kw_keys := None;
            kw_direction := None; kw_clicks := None;
            kw_seconds := Some (inject_Z seconds); kw_message := None |}
     else if decide (action_name = "finished") then
       execute_action clock fails self "finished" None None no_kwargs
     else if decide (action_name = "call_user") then
       let message := default "Assistance needed" (dict_get params "message") in
       execute_action clock fails self "call_user" None None
         {| kw_end_location := None; kw_text := None; kw_keys := None;
            kw_direction := None; kw_clicks := None; kw_seconds := None;
            kw_message := Some message |}
     else mret (false, self))
    (fun e => _ ← perform fails (Print ("Error executing advanced action: " +:+ e));
              mret (false, self)).

End Advanced.

(** ** Python's operations on the values of a parsed reply *)

(** [bool(v)] *)
Definition truthy (v : json) : bool :=
  match v with
  | JNull => false
  | JBool b => b
  | JNumber z => negb (z =? 0)%Z
  | JString s => match s with EmptyString => false | _ => true end
  | JArray items => match items with [] => false | _ => true end
  | JObject fields => match fields with [] => false | _ => true end
  end.

(** [v == s] for a string [s] *)
Definition is_str (v : json) (s : string) : bool :=
  match v with
  | JString s' => bool_decide (s' = s)
  | _ => false
  end.

Fixpoint is_substring (p s : string) : bool :=
  String.prefix p s
  || match s with
     | EmptyString => false
     | String _ rest => is_substring p rest
     end.

(** [k in v]: a key of a dict, an item of a list, a part of a string. *)
Definition py_in (k : string) (v : json) : outcome bool :=
  match v with
  | JObject fields => Return (bool_decide (k ∈ map fst fields))
  | JArray items => Return (existsb (fun item => is_str item k) items)
  | JString s => Return (is_substring k s)
  | _ => Raise "TypeError: argument is not iterable"
  end.

(** [v[k]] for a string [k] *)
Definition py_getitem (v : json) (k : string) : outcome json :=
  match v with
  | JObject fields =>
      match dict_get fields k with
      | Some x => Return x
      | None => Raise ("KeyError: '" +:+ k +:+ "'")
      end
  | JArray _ | JString _ => Raise "TypeError: indices must be integers"
  | _ => Raise "TypeError: object is not subscriptable"
  end.

(** [v.get(k, d)] *)
Definition py_get (v : json) (k : string) (d : json) : outcome json :=
  match v with
  | JObject fields => Return (default d (dict_get fields k))
  | _ => Raise "AttributeError: object has no attribute 'get'"
  end.

(** [v.lower()] *)
Definition py_lower (v : json) : outcome string :=
  match v with
  | JString s => Return (lower s)
  | _ => Raise "AttributeError: object has no attribute 'lower'"
  end.

(** [-v] *)
Definition py_neg (v : json) : outcome json :=
  match as_int v with
  | Some z => Return (JNumber (- z))
  | None => Raise "TypeError: bad operand type for unary -"
  end.

(** [sep.join(v)]: the items must be strings. *)
Definition py_join (sep : string) (v : json) : outcome string :=
  items ← py_iter v;
  if forallb (fun item => match item with JString _ => true | _ => false end) items
  then Return (join_with sep (omap (fun item => match item with
                                                 | JString s => Some s
                                                 | _ => None
                                                 end) items))
  else Raise "TypeError: sequence item: expected str instance".

(** [target in templates], for a dict keyed by names: a value that cannot
    be hashed raises. *)
Definition key_in {V : Type} (target : json) (templates : pydict V) : outcome bool :=
  match target with
  | JString name => Return (bool_decide (is_Some (dict_get templates name)))
  | JArray _ | JObject _ => Raise "TypeError: unhashable type"
  | _ => Return false
  end.

(** [templates[target]] *)
Definition key_lookup {V : Type} (target : json) (templates : pydict V) : outcome V :=
  match target with
  | JString name =>
      match dict_get templates name with
      | Some v => Return v
      | None => Raise ("KeyError: '" +:+ name +:+ "'")
      end
  | JArray _ | JObject _ => Raise "TypeError: unhashable type"
  | _ => Raise "KeyError"
  end.

(** ** The requests to the translator (template_automation.py) *)

(** What the prompt of [process_user_request] says of an element, an item
    of the list that [identify_elements] has parsed: its name, type and
    description.  [e['name']] raises a KeyError when the element is an
    object without a name, and a TypeError when it is not an object. *)
Definition describe (e : json) : outcome json :=
  name ← py_getitem e "name";
  ty ← py_get e "type" (JString "unknown");
  desc ← py_get e "description" (JString "");
  Return (JObject [("name", name); ("type", ty); ("description", desc)]).

(** The list comprehension over the elements, in their order. *)
Fixpoint describe_all (elements : list json) : outcome (list json) :=
  match elements with
  | [] => Return []
  | e :: rest =>
      d ← describe e;
      ds ← describe_all rest;
      Return (d :: ds)
  end.

(** What the prompt of [process_advanced_action_request] says of an
    element: every key has a default, and [e.get] is asked of every
    element. *)
Definition format_element (e : json) : outcome json :=
  name ← py_get e "name" (JString "unnamed");
  ty ← py_get e "type" (JString "unknown");
  desc ← py_get e "description" (JString "");
  bbox ← py_get e "bounding_box"
           (JArray [JNumber 0; JNumber 0; JNumber 0; JNumber 0]);
  Return (JObject [("name", name); ("type", ty); ("description", desc);
                   ("bounding_box", bbox)]).

(** The loop [for e in elements] that fills [elements_formatted]. *)
Fixpoint format_all (elements : list json) : outcome (list json) :=
  match elements with
  | [] => Return []
  | e :: rest =>
      d ← format_element e;
      ds ← format_all rest;
      Return (d :: ds)
  end.

Definition is_object (e : json) : bool :=
  match e with
  | JObject _ => true
  | _ => false
  end.

Definition has_name (e : json) : bool :=
  match e with
  | JObject fields => bool_decide (is_Some (dict_get fields "name"))
  | _ => false
  end.

Module Template.
Section Requests.

Variable json_loads : string -> outcome json.

(** [model.generate_content(prompt)] for the prompt built from the request
    and the elements as described: it raises, or gives a response whose
    [.text] is a string or raises. *)
Variable generate_content : string -> list json -> outcome (outcome string).

(** The [try] of lines 65-78, from [response.text] on. *)
Definition parse_action (response : outcome string) : json * list string :=
  match response with
  | Return response_text => process_user_request json_loads response_text
  | Raise e => (JObject [("error", JString ("Parse error: " +:+ e))],
                ["Error parsing action: " +:+ e])
  end.

(** [process_user_request(request, elements, templates)] of
    template_automation.py and vision_automation.py. *)
Definition process_user_request (request : string) (elements : list json)
    : outcome (json * list string) :=
  described ← describe_all elements;
  response ← generate_content request described;
  Return (parse_action response).

(** [process_advanced_action_request(request, elements)]. *)
Definition process_advanced_action_request (request : string)
    (elements : list json) : outcome (json * list string) :=
  formatted ← format_all elements;
  response ← generate_content request formatted;
  Return (parse_action response).

End Requests.
End Template.

(** ** The executors of the scripts (desktop_automation.py,
    vision_automation.py) *)

(** The calls the two scripts make into pyautogui and [print]. *)
Inductive gui_call : Type :=
| GPrint (line : string)
| GLocate (file : string)
| GMoveTo (x y : json)
| GClickHere
| GDoubleClickHere
| GClick (x y : Z)
| GDoubleClick (x y : Z)
| GRightClick (x y : Z)
| GDragTo (x y : Z)
| GTypewrite (content : json)
| GHotkey (keys : list json)
| GScroll (clicks : json) (x y : Z)
| GHScroll (clicks : json) (x y : Z).

(** The calls that move the pointer or press keys. *)
Definition injects (c : gui_call) : bool :=
  match c with
  | GPrint _ | GLocate _ => false
  | _ => true
  end.

Definition G (A : Type) : Type := list gui_call -> outcome A * list gui_call.

#[global] Instance G_ret : MRet G := fun A a tr => (Return a, tr).

#[global] Instance G_bind : MBind G := fun A B k m tr =>
  match m tr with
  | (Return a, tr') => k a tr'
  | (Raise e, tr') => (Raise e, tr')
  end.

Definition gcatch {A : Type} (m : G A) (handler : string -> G A) : G A :=
  fun tr =>
    match m tr with
    | (Return a, tr') => (Return a, tr')
    | (Raise e, tr') => handler e tr'
    end.

Definition glift {A : Type} (o : outcome A) : G A := fun tr => (o, tr).

Section Scripts.

(** [str(v)], as an f-string renders a value. *)
Variable str_of : json -> string.

(** Whether a pyautogui call raises after the calls made so far. *)
Variable gfails : list gui_call -> gui_call -> option string.

(** [pyautogui.locateCenterOnScreen(file, confidence=0.8)] after the calls
    made so far: the center of the match, [None], or an exception. *)
Variable locate : list gui_call -> string -> outcome (option (Z * Z)).

Definition gcall_error (tr : list gui_call) (c : gui_call) : option string :=
  match c with
  | GPrint _ | GLocate _ => None
  | _ => gfails tr c
  end.

Definition gperform (c : gui_call) : G unit := fun tr =>
  match gcall_error tr c with
  | Some e => (Raise e, tr ++ [c])
  | None => (Return tt, tr ++ [c])
  end.

Definition locateCenterOnScreen (file : string) : G (option (Z * Z)) := fun tr =>
  (locate tr file, tr ++ [GLocate file]).

Fixpoint gall_ok (tr new : list gui_call) : Prop :=
  match new with
  | [] => True
  | c :: rest =>
      gcall_error tr c = None /\
      (forall file e, c = GLocate file -> locate tr file <> Raise e) /\
      gall_ok (tr ++ [c]) rest
  end.

End Scripts.

(** [x, y = v] *)
Definition unpack2_values (v : json) : outcome (json * json) :=
  items ← py_iter v;
  match items with
  | [x; y] => Return (x, y)
  | _ => Raise "ValueError: wrong number of values to unpack"
  end.

Module Desktop.
Section Run.

Variable str_of : json -> string.
Variable gfails : list gui_call -> gui_call -> option string.

(** [execute_action] of desktop_automation.py. *)
Definition execute_action (action : json) : G bool :=
  has_error ← glift (py_in "error" action);
  if has_error : bool then
    e ← glift (py_getitem action "error");
    _ ← gperform gfails (GPrint ("Cannot execute: " +:+ str_of e));
    mret false
  else
    has_coordinates ← glift (py_in "coordinates" action);
    if negb has_coordinates then
      _ ← gperform gfails (GPrint "No coordinates provided in action");
      mret false
    else
      gcatch
        (coordinates ← glift (py_getitem action "coordinates");
         '(x, y) ← glift (unpack2_values coordinates);
         _ ← gperform gfails (GMoveTo x y);
         click_type ← glift (py_get action "click_type" (JString "single"));
         _ ← (if is_str click_type "double"
              then gperform gfails GDoubleClickHere
              else gperform gfails GClickHere);
         _ ← gperform gfails (GPrint ("Clicked at coordinates (" +:+ str_of x
                                      +:+ ", " +:+ str_of y +:+ ")"));
         mret true)
        (fun e => _ ← gperform gfails (GPrint ("Error executing action: " +:+ e));
                  mret false).

End Run.
End Desktop.

Module Vision.
Section Run.

Variable str_of : json -> string.
Variable gfails : list gui_call -> gui_call -> option string.
Variable locate : list gui_call -> string -> outcome (option (Z * Z)).

(** [action.get("action_parameters", {})] *)
Definition action_parameters (action : json) : outcome json :=
  py_get action "action_parameters" (JObject []).

(** [target and target in templates] *)
Definition names_template (target : json) (templates : pydict template_info)
    : outcome bool :=
  if truthy target then key_in target templates else Return false.

(** Lines 176-228: the action at the point [(x, y)]; [True] when the branch
    falls through to [return True]. *)
Definition act (action : json) (templates : pydict template_info)
    (action_type : string) (x y : Z) : G bool :=
  if decide (action_type = "click") then
    _ ← gperform gfails (GClick x y);
    _ ← gperform gfails (GPrint "Performed click");
    mret true
  else if decide (action_type = "double_click") then
    _ ← gperform gfails (GDoubleClick x y);
    _ ← gperform gfails (GPrint "Performed double-click");
    mret true
  else if decide (action_type = "right_click") then
    _ ← gperform gfails (GRightClick x y);
    _ ← gperform gfails (GPrint "Performed right-click");
    mret true
  else if decide (action_type = "drag") then
    parameters ← glift (action_parameters action);
    end_target ← glift (py_get parameters "end_target" JNull);
    valid ← glift (names_template end_target templates);
    if valid : bool then
      end_template ← glift (key_lookup end_target templates);
      end_location ← locateCenterOnScreen locate (filename end_template);
      match end_location with
      | Some (end_x, end_y) =>
          _ ← gperform gfails (GDragTo end_x end_y);
          _ ← gperform gfails
                (GPrint ("Dragged from (" +:+ str_of (JNumber x) +:+ ", "
                         +:+ str_of (JNumber y) +:+ ") to ("
                         +:+ str_of (JNumber end_x) +:+ ", "
                         +:+ str_of (JNumber end_y) +:+ ")"));
          mret true
      | None =>
          _ ← gperform gfails
                (GPrint ("Could not find drag destination '"
                         +:+ str_of end_target +:+ "'"));
          mret false
      end
    else
      _ ← gperform gfails (GPrint "Drag operation requires valid end_target");
      mret false
  else if decide (action_type = "type") then
    parameters ← glift (action_parameters action);
    content ← glift (py_get parameters "content" (JString ""));
    _ ← gperform gfails (GClick x y);
    _ ← gperform gfails (GTypewrite content);
    _ ← gperform gfails (GPrint ("Typed: '" +:+ str_of content +:+ "'"));
    mret true
  else if decide (action_type = "hotkey") then
    parameters ← glift (action_parameters action);
    keys ← glift (py_get parameters "keys" (JArray []));
    if truthy keys then
      args ← glift (py_iter keys);
      _ ← gperform gfails (GHotkey args);
      joined ← glift (py_join "+" keys);
      _ ← gperform gfails (GPrint ("Pressed hotkey: " +:+ joined));
      mret true
    else
      _ ← gperform gfails (GPrint "Hotkey operation requires valid keys parameter");
      mret false
  else if decide (action_type = "scroll") then
    parameters ← glift (action_parameters action);
    direction ← glift (py_get parameters "direction" (JString "down"));
    parameters' ← glift (action_parameters action);
    clicks ← glift (py_get parameters' "clicks" (JNumber 3));
    _ ← (if is_str direction "down" then
           n ← glift (py_neg clicks); gperform gfails (GScroll n x y)
         else if is_str direction "up" then gperform gfails (GScroll clicks x y)
         else if is_str direction "left" then
           n ← glift (py_neg clicks); gperform gfails (GHScroll n x y)
         else if is_str direction "right" then gperform gfails (GHScroll clicks x y)
         else mret tt);
    _ ← gperform gfails
          (GPrint ("Scrolled " +:+ str_of direction +:+ " at ("
                   +:+ str_of (JNumber x) +:+ ", " +:+ str_of (JNumber y) +:+ ")"));
    mret true
  else
    _ ← gperform gfails (GPrint ("Unsupported action type: " +:+ action_type));
    mret false.

(** Lines 163-236: the [try] and its handler. *)
Definition locate_and_act (action : json) (templates : pydict template_info)
    (template_file : string) : G bool :=
  gcatch
    (_ ← gperform gfails (GPrint ("Looking for template '" +:+ template_file
                                  +:+ "' on screen..."));
     location ← locateCenterOnScreen locate template_file;
     match location with
     | Some (x, y) =>
         _ ← gperform gfails
               (GPrint ("Found template at coordinates (" +:+ str_of (JNumber x)
                        +:+ ", " +:+ str_of (JNumber y) +:+ ")"));
         action_type ← glift (a ← py_get action "action" (JString "click");
                              py_lower a);
         act action templates action_type x y
     | None =>
         _ ← gperform gfails (GPrint ("Could not locate template '"
                                      +:+ template_file +:+ "' on screen"));
         mret false
     end)
    (fun e => _ ← gperform gfails (GPrint ("Error executing action: " +:+ e));
              mret false).

(** [execute_action_with_template] of vision_automation.py. *)
Definition execute_action_with_template (action : json)
    (templates : pydict template_info) : G bool :=
  has_error ← glift (py_in "error" action);
  if has_error : bool then
    e ← glift (py_getitem action "error");
    _ ← gperform gfails (GPrint ("Cannot execute: " +:+ str_of e));
    mret false
  else
    target ← glift (py_get action "target_element" JNull);
    known ← glift (names_template target templates);
    if negb known then
      _ ← gperform gfails (GPrint ("Target element '" +:+ str_of target
                                   +:+ "' not found in templates"));
      mret false
    else
      template_info ← glift (key_lookup target templates);
      locate_and_act action templates (filename template_info).

End Run.
End Vision.

(** * Properties *)

(** ** The scan of the score map *)

Lemma where_row_spec thr r row : forall c0,
  match where_row thr r c0 row with
  | [] => forall i s, row !! i = Some s -> float_ge s thr = false
  | (r', c') :: _ =>
      r' = r /\ c0 <= c' /\
      (exists s, row !! (c' - c0) = Some s /\ float_ge s thr = true) /\
      (forall i s, i < c' - c0 -> row !! i = Some s -> float_ge s thr = false)
  end.
Proof.
  induction row as [|s rest IH]; intros c0; simpl.
  - intros i s Hs. by rewrite lookup_nil in Hs.
  - destruct (float_ge s thr) eqn:Hge; simpl.
    + split; [done|]. split; [lia|]. rewrite Nat.sub_diag. split.
      * exists s. done.
      * intros i s' Hi. lia.
    + specialize (IH (S c0)).
      destruct (where_row thr r (S c0) rest) as [|[r' c'] tl].
      * intros [|i] s' Hs; simpl in Hs; [by simplify_eq | eauto].
      * destruct IH as (-> & Hle & (s' & Hs' & Hq) & Hbefore).
        split; [done|]. split; [lia|].
        replace (c' - c0) with (S (c' - S c0)) by lia. split.
        -- exists s'. done.
        -- intros [|i] s'' Hi Hs''; simpl in Hs''; [by simplify_eq|].
           apply (Hbefore i); [lia | done].
Qed.

Lemma where_rows_spec thr result : forall r0,
  match where_rows thr r0 result with
  | [] => forall i j s, cell result i j = Some s -> float_ge s thr = false
  | (r, c) :: _ =>
      r0 <= r /\
      (exists s, cell result (r - r0) c = Some s /\ float_ge s thr = true) /\
      (forall i j s, cell result i j = Some s -> float_ge s thr = true ->
                     ~ scanned_before (i, j) (r - r0, c))
  end.
Proof.
  induction result as [|row rest IH]; intros r0; simpl.
  - intros i j s Hs. unfold cell in Hs. by rewrite lookup_nil in Hs.
  - pose proof (where_row_spec thr r0 row 0) as Hrow.
    destruct (where_row thr r0 0 row) as [|[r c] tl]; simpl.
    + specialize (IH (S r0)).
      destruct (where_rows thr (S r0) rest) as [|[r c] tl].
      * intros [|i] j s Hs; unfold cell in *; simpl in Hs; [eauto|].
        apply (IH i j s). done.
      * destruct IH as (Hle & (s & Hs & Hq) & Hfirst).
        split; [lia|].
        replace (r - r0) with (S (r - S r0)) by lia. split.
        -- exists s. done.
        -- intros [|i] j s' Hs' Hq' Hb; unfold cell in Hs'; simpl in Hs'.
           ++ rewrite (Hrow j s' Hs') in Hq'. done.
           ++ apply (Hfirst i j s'); [done | done |].
              unfold scanned_before in *; simpl in *. lia.
    + destruct Hrow as (-> & _ & (s & Hs & Hq) & Hbefore).
      rewrite Nat.sub_0_r in Hs, Hbefore.
      split; [lia|]. rewrite Nat.sub_diag. split.
      * exists s. done.
      * intros i j s' Hs' Hq' Hb. unfold scanned_before in Hb; simpl in Hb.
        destruct Hb as [Hb | [-> Hb]]; [lia|].
        unfold cell in Hs'; simpl in Hs'.
        rewrite (Hbefore j s' Hb Hs') in Hq'. done.
Qed.

Lemma zip_reversed_where result thr :
  zip_reversed (np_where_ge result thr)
  = map (fun p => (p.2, p.1)) (where_rows thr 0 result).
Proof.
  unfold zip_reversed, np_where_ge; simpl.
  induction (where_rows thr 0 result) as [|[r c] l IH]; simpl; [done|].
  by rewrite IH.
Qed.

(** The points the loop visits: empty exactly when no cell reaches the
    threshold, and otherwise headed by the first qualifying cell. *)
Lemma scan_head result thr :
  match zip_reversed (np_where_ge result thr) with
  | [] => forall r c, ~ qualifies result thr r c
  | (px, py) :: _ => first_qualifying result thr py px
  end.
Proof.
  rewrite zip_reversed_where.
  pose proof (where_rows_spec thr result 0) as H.
  destruct (where_rows thr 0 result) as [|[r c] tl]; simpl.
  - intros r c (s & Hs & Hq). pose proof (H r c s Hs) as Hn.
    unfold float_ge in Hn. congruence.
  - destruct H as (_ & Hq & Hfirst). rewrite Nat.sub_0_r in Hq, Hfirst.
    split; [exact Hq|]. intros i j (s & Hs & Hs'). eauto.
Qed.

Lemma first_qualifying_unique result thr r1 c1 r2 c2 :
  first_qualifying result thr r1 c1 -> first_qualifying result thr r2 c2 ->
  (r1, c1) = (r2, c2).
Proof.
  intros [Hq1 H1] [Hq2 H2].
  specialize (H1 _ _ Hq2). specialize (H2 _ _ Hq1).
  unfold scanned_before in *; simpl in *.
  f_equal; lia.
Qed.

(** ** One template, then the batch *)

Section MatcherFacts.

Variable imread_gray : string -> option gray.
Variable matchTemplate : gray -> gray -> outcome score_map.

Local Abbreviation step := (match_one imread_gray matchTemplate).
Local Abbreviation find_all := (find_templates_on_screen imread_gray matchTemplate).

(** What one iteration of the outer loop does to [locations] when [name]
    has no entry yet. *)
Inductive step_result (shot : gray) (thr : float) (name : string)
    (info : template_info) (locations : gmap string match_result)
    : gmap string match_result -> Prop :=
| step_unloadable :
    imread_gray (filename info) = None ->
    step_result shot thr name info locations locations
| step_match_raises template e :
    imread_gray (filename info) = Some template ->
    matchTemplate shot template = Raise e ->
    step_result shot thr name info locations locations
| step_not_found template result :
    imread_gray (filename info) = Some template ->
    matchTemplate shot template = Return result ->
    (forall r c, ~ qualifies result thr r c) ->
    step_result shot thr name info locations locations
| step_found template result px py s :
    imread_gray (filename info) = Some template ->
    matchTemplate shot template = Return result ->
    first_qualifying result thr py px ->
    cell result py px = Some s ->
    step_result shot thr name info locations
      (<[name := entry_at template px py s]> locations).

Lemma match_one_fresh shot thr name info locations log :
  locations !! name = None ->
  step_result shot thr name info locations
    (step shot thr (locations, log) (name, info)).1.
Proof.
  intros Hfresh. unfold match_one.
  destruct (imread_gray (filename info)) as [template|] eqn:Hread; simpl.
  2: { by apply step_unloadable. }
  destruct (matchTemplate shot template) as [result|e] eqn:Hmatch; simpl.
  2: { by eapply step_match_raises. }
  pose proof (scan_head result thr) as Hhead.
  destruct (zip_reversed (np_where_ge result thr)) as [|[px py] rest].
  - simpl. by eapply step_not_found.
  - destruct Hhead as [(s & Hs & Hq) Hfirst].
    assert (scan_points ((px, py) :: rest) name template result locations
            = Return (<[name := entry_at template px py s]> locations)) as ->.
    { unfold entry_at, shape. simpl. rewrite Hfresh, Hs. done. }
    simpl. eapply step_found; eauto. split; [exists s|]; done.
Qed.

(** An iteration never touches the entry of another name, and never
    replaces an entry that is already there. *)
Lemma match_one_other shot thr name info locations log name' :
  name' <> name \/ is_Some (locations !! name) ->
  (step shot thr (locations, log) (name, info)).1 !! name'
  = locations !! name'.
Proof.
  intros Hother. unfold match_one.
  destruct (imread_gray (filename info)) as [template|]; simpl; [|done].
  destruct (matchTemplate shot template) as [result|e]; simpl; [|done].
  assert (forall pts,
    match scan_points pts name template result locations with
    | Return l => l !! name' = locations !! name'
    | Raise _ => True
    end) as Hscan.
  { induction pts as [|pt rest IH]; simpl; [done|].
    destruct (shape template) as [h w].
    destruct (locations !! name) eqn:Hl; [exact IH|].
    destruct (cell result pt.2 pt.1); [|done].
    destruct Hother as [Hne | [? ?]]; [|congruence].
    by rewrite lookup_insert_ne. }
  specialize (Hscan (zip_reversed (np_where_ge result thr))).
  destruct (scan_points _ _ _ _ _); simpl; done.
Qed.

Lemma find_templates_snoc shot thr templates item :
  find_all shot (templates ++ [item]) thr
  = step shot thr (find_all shot templates thr) item.
Proof. unfold find_templates_on_screen. by rewrite foldl_app. Qed.

(** Only names of the batch get an entry. *)
Lemma find_templates_dom shot thr templates name :
  is_Some ((find_all shot templates thr).1 !! name) ->
  name ∈ map fst templates.
Proof.
  induction templates as [|[n info] templates IH] using rev_ind.
  - simpl. rewrite lookup_empty. by intros [? ?].
  - rewrite find_templates_snoc, map_app, elem_of_app. simpl.
    destruct (find_all shot templates thr) as [locs log] eqn:Hrun.
    destruct (decide (name = n)) as [->|Hne].
    + intros _. right. by apply list_elem_of_singleton.
    + rewrite match_one_other by (by left). simpl in IH. auto.
Qed.

(** With distinct keys, as in a dict, the entry of a name is decided by its
    own template alone: it is what one iteration makes of it, starting from
    a mapping without that name. *)
Lemma find_templates_independent shot thr templates name info :
  NoDup (map fst templates) ->
  (name, info) ∈ templates ->
  exists locations locations',
    locations !! name = None /\
    step_result shot thr name info locations locations' /\
    (find_all shot templates thr).1 !! name = locations' !! name.
Proof.
  induction templates as [|[n i] templates IH] using rev_ind.
  - intros _ Hin. by apply elem_of_nil in Hin.
  - rewrite map_app, find_templates_snoc. simpl.
    intros Hnd Hin. apply NoDup_app in Hnd as (Hnd & Hdisj & _).
    destruct (find_all shot templates thr) as [locs log] eqn:Hrun.
    apply elem_of_app in Hin as [Hin | Hin].
    + destruct (IH Hnd Hin) as (l & l' & Hl & Hstep & Heq).
      exists l, l'. split; [done|]. split; [done|].
      rewrite match_one_other; [done|]. left. intros ->.
      apply (Hdisj n); [|by apply list_elem_of_singleton].
      apply list_elem_of_fmap. exists (n, info). done.
    + apply list_elem_of_singleton in Hin. injection Hin as -> ->.
      assert (locs !! n = None) as Hfresh.
      { destruct (locs !! n) eqn:Hl; [|done]. exfalso.
        apply (Hdisj n); [|by apply list_elem_of_singleton].
        pose proof (find_templates_dom shot thr templates n) as Hdom.
        rewrite Hrun in Hdom. apply Hdom. simpl. by rewrite Hl. }
      exists locs, (step shot thr (locs, log) (n, i)).1.
      split; [done|]. split; [|done]. by apply match_one_fresh.
Qed.

(** The entry of a name of the batch, when its template loads and is
    matched: the first qualifying cell, or nothing when no cell qualifies. *)
Lemma find_templates_entry shot thr templates name info template result :
  NoDup (map fst templates) ->
  (name, info) ∈ templates ->
  imread_gray (filename info) = Some template ->
  matchTemplate shot template = Return result ->
  match (find_all shot templates thr).1 !! name with
  | Some m => exists px py s,
      first_qualifying result thr py px /\ cell result py px = Some s /\
      m = entry_at template px py s
  | None => forall r c, ~ qualifies result thr r c
  end.
Proof.
  intros Hnd Hin Hread Hmatch.
  destruct (find_templates_independent shot thr templates name info Hnd Hin)
    as (l & l' & Hl & Hstep & ->).
  destruct Hstep as [Hr | t e Hr Hm | t res Hr Hm Hnone | t res px py s Hr Hm Hfirst Hs];
    try congruence.
  - assert (t = template) as -> by congruence.
    assert (res = result) as -> by congruence.
    by rewrite Hl.
  - assert (t = template) as -> by congruence.
    assert (res = result) as -> by congruence.
    rewrite lookup_insert_eq. by exists px, py, s.
Qed.

(** A template that does not load, or whose match raises, gets no entry. *)
Lemma find_templates_skipped shot thr templates name info :
  NoDup (map fst templates) ->
  (name, info) ∈ templates ->
  (imread_gray (filename info) = None \/
   exists template e, imread_gray (filename info) = Some template /\
                      matchTemplate shot template = Raise e) ->
  (find_all shot templates thr).1 !! name = None.
Proof.
  intros Hnd Hin Hskip.
  destruct (find_templates_independent shot thr templates name info Hnd Hin)
    as (l & l' & Hl & Hstep & ->).
  destruct Hstep as [Hr | t e Hr Hm | t res Hr Hm Hnone | t res px py s Hr Hm Hfirst Hs];
    try done; destruct Hskip as [? | (t' & e' & ? & ?)]; congruence.
Qed.

(** An iteration leaves the mapping as it is when the name has an entry. *)
Lemma match_one_present shot thr name info locations log :
  is_Some (locations !! name) ->
  (step shot thr (locations, log) (name, info)).1 = locations.
Proof.
  intros Hsome. apply map_eq. intros name'.
  apply match_one_other. by right.
Qed.

(** What is printed only grows, and a template that does not load adds the
    message of line 129. *)
Lemma match_one_log shot thr acc name info :
  exists printed,
    (step shot thr acc (name, info)).2 = acc.2 ++ printed /\
    (imread_gray (filename info) = None ->
     printed = ["Could not load template '" +:+ filename info +:+ "'"]) /\
    (forall template e, imread_gray (filename info) = Some template ->
       matchTemplate shot template = Raise e ->
       printed = ["Error finding template " +:+ name +:+ ": " +:+ e]).
Proof.
  destruct acc as [locations log]. unfold match_one.
  destruct (imread_gray (filename info)) as [template|] eqn:Hread; simpl.
  - destruct (matchTemplate shot template) as [result|e] eqn:Hmatch; simpl.
    + destruct (scan_points _ _ _ _ _); simpl.
      * exists []. rewrite app_nil_r. split; [done|]. split; [done|].
        intros t e [= <-]. congruence.
      * eexists. split; [done|]. split; [done|].
        intros t e' [= <-]. congruence.
    + eexists. split; [done|]. split; [done|].
      intros t e' [= <-]. congruence.
  - eexists. split; [done|]. split; [done|]. done.
Qed.

Lemma match_one_size shot thr locations log item :
  size (step shot thr (locations, log) item).1
  <= size locations + (if missing imread_gray item then 0 else 1).
Proof.
  destruct item as [name info].
  destruct (locations !! name) as [m|] eqn:Hl.
  - rewrite match_one_present by (by rewrite Hl). lia.
  - pose proof (match_one_fresh shot thr name info locations log Hl) as Hstep.
    remember (step shot thr (locations, log) (name, info)).1 as l' eqn:El'.
    clear El'. unfold missing; simpl.
    destruct Hstep as [Hr | t e Hr Hm | t res Hr Hm Hnone | t res px py s Hr Hm Hfirst Hs];
      rewrite Hr; try lia.
    rewrite map_size_insert_None by done. lia.
Qed.

Lemma find_templates_size shot thr templates :
  size (find_all shot templates thr).1 + length (List.filter (missing imread_gray) templates)
  <= length templates.
Proof.
  induction templates as [|item templates IH] using rev_ind.
  - simpl. rewrite map_size_empty. lia.
  - rewrite find_templates_snoc, List.filter_app, !length_app. simpl.
    destruct (find_all shot templates thr) as [locs log].
    pose proof (match_one_size shot thr locs log item) as Hsize.
    simpl in IH. revert Hsize. destruct (missing imread_gray item); simpl; lia.
Qed.

Lemma find_templates_log shot thr templates name info :
  (name, info) ∈ templates ->
  (imread_gray (filename info) = None ->
   "Could not load template '" +:+ filename info +:+ "'"
     ∈ (find_all shot templates thr).2) /\
  (forall template e, imread_gray (filename info) = Some template ->
     matchTemplate shot template = Raise e ->
     "Error finding template " +:+ name +:+ ": " +:+ e
       ∈ (find_all shot templates thr).2).
Proof.
  induction templates as [|[n i] templates IH] using rev_ind.
  - intros Hin. by apply elem_of_nil in Hin.
  - rewrite find_templates_snoc. intros Hin.
    destruct (match_one_log shot thr (find_all shot templates thr) n i)
      as (printed & -> & Hmissing & Hraise).
    apply elem_of_app in Hin as [Hin | Hin].
    + destruct (IH Hin) as [IH1 IH2]. split.
      * intros Hnone. apply elem_of_app. left. auto.
      * intros t e Hr Hm. apply elem_of_app. left. eauto.
    + apply list_elem_of_singleton in Hin. injection Hin as -> ->. split.
      * intros Hnone. apply elem_of_app. right. rewrite (Hmissing Hnone).
        by apply list_elem_of_singleton.
      * intros t e Hr Hm. apply elem_of_app. right. rewrite (Hraise t e Hr Hm).
        by apply list_elem_of_singleton.
Qed.

(** Every entry comes from a template of the batch that loaded and was
    matched, at the first qualifying cell of its score map. *)
Lemma find_templates_entries shot thr templates name m :
  (find_all shot templates thr).1 !! name = Some m ->
  exists info template result px py s,
    (name, info) ∈ templates /\
    imread_gray (filename info) = Some template /\
    matchTemplate shot template = Return result /\
    first_qualifying result thr py px /\
    cell result py px = Some s /\
    m = entry_at template px py s.
Proof.
  revert m. induction templates as [|[n i] templates IH] using rev_ind; intros m.
  - simpl. by rewrite lookup_empty.
  - rewrite find_templates_snoc.
    destruct (find_all shot templates thr) as [locs log] eqn:Hrun. simpl in IH.
    assert (locs !! name = Some m ->
            exists info template result px py s,
              (name, info) ∈ templates ++ [(n, i)] /\
              imread_gray (filename info) = Some template /\
              matchTemplate shot template = Return result /\
              first_qualifying result thr py px /\
              cell result py px = Some s /\ m = entry_at template px py s) as Hold.
    { intros Hm. destruct (IH m Hm) as (info & t & res & px & py & s & Hin & Hrest).
      exists info, t, res, px, py, s. split; [|done].
      apply elem_of_app. by left. }
    destruct (decide (name = n)) as [->|Hne].
    2: { rewrite match_one_other by (by left). exact Hold. }
    destruct (locs !! n) as [m0|] eqn:Hl.
    { rewrite match_one_present by (by rewrite Hl). rewrite Hl. exact Hold. }
    pose proof (match_one_fresh shot thr n i locs log Hl) as Hstep.
    destruct Hstep as [Hr | t e Hr Hm | t res Hr Hm Hnone | t res px py s Hr Hm Hfirst Hs];
      try (rewrite Hl; done).
    rewrite lookup_insert_eq. intros [= <-].
    exists i, t, res, px, py, s. split; [|done].
    apply elem_of_app. right. by apply list_elem_of_singleton.
Qed.

End MatcherFacts.


(** ** The matcher: scan order, geometry, batches *)

Lemma scan_first result thr px py :
  head (zip_reversed (np_where_ge result thr)) = Some (px, py) ->
  first_qualifying result thr py px.
Proof.
  pose proof (scan_head result thr) as H.
  destruct (zip_reversed (np_where_ge result thr)) as [|[x y] rest]; [done|].
  by intros [= -> ->].
Qed.

(** The order of binary64 values is transitive (no value is above or below
    a NaN). *)
Lemma SFleb_trans (a b c : spec_float) :
  SFleb a b = true -> SFleb b c = true -> SFleb a c = true.
Proof.
  unfold SFleb, SFcompare.
  destruct a as [sa|sa| |sa ma ea], b as [sb|sb| |sb mb eb], c as [sc|sc| |sc mc ec];
    try done;
    repeat match goal with s : bool |- _ => destruct s end; try done.
  - destruct (Z.compare_spec ea eb), (Z.compare_spec eb ec), (Z.compare_spec ea ec);
      try done; try lia; subst.
    change (PosDef.Pos.compare_cont Eq) with Pos.compare.
    destruct (Pos.compare_spec ma mb), (Pos.compare_spec mb mc),
      (Pos.compare_spec ma mc); simpl; try done; lia.
  - destruct (Z.compare_spec ea eb), (Z.compare_spec eb ec), (Z.compare_spec ea ec);
      try done; try lia; subst.
    change (PosDef.Pos.compare_cont Eq) with Pos.compare.
    destruct (Pos.compare_spec ma mb), (Pos.compare_spec mb mc),
      (Pos.compare_spec ma mc); simpl; try done; lia.
Qed.

Lemma float_leb_trans (a b c : float) :
  PrimFloat.leb a b = true -> PrimFloat.leb b c = true -> PrimFloat.leb a c = true.
Proof. rewrite !leb_spec. apply SFleb_trans. Qed.

(** The cells scanned before the first qualifying one are below the
    threshold, as numpy compares them. *)
Lemma first_qualifying_cells result thr py px :
  first_qualifying result thr py px ->
  forall r c s', cell result r c = Some s' -> scanned_before (r, c) (py, px) ->
                 PrimFloat.leb (to_float32 thr) s' = false.
Proof.
  intros [_ Hfirst] r c s' Hs' Hb.
  destruct (PrimFloat.leb (to_float32 thr) s') eqn:Hq; [|done].
  exfalso. apply (Hfirst r c); [by exists s' | done].
Qed.

Lemma none_qualifies_cells result thr :
  (forall r c, ~ qualifies result thr r c) ->
  forall r c s', cell result r c = Some s' ->
                 PrimFloat.leb (to_float32 thr) s' = false.
Proof.
  intros Hnone r c s' Hs'.
  destruct (PrimFloat.leb (to_float32 thr) s') eqn:Hq; [|done].
  exfalso. apply (Hnone r c). by exists s'.
Qed.

(** The entry of a template that loads and is matched, cell by cell. *)
Lemma find_templates_entry_cells
    (imread_gray : string -> option gray)
    (matchTemplate : gray -> gray -> outcome score_map)
    shot thr templates name info template result :
  NoDup (map fst templates) ->
  (name, info) ∈ templates ->
  imread_gray (filename info) = Some template ->
  matchTemplate shot template = Return result ->
  match (find_templates_on_screen imread_gray matchTemplate shot templates thr).1
        !! name with
  | Some m => exists px py s,
      cell result py px = Some s /\
      PrimFloat.leb (to_float32 thr) s = true /\
      (forall r c s', cell result r c = Some s' -> scanned_before (r, c) (py, px) ->
                      PrimFloat.leb (to_float32 thr) s' = false) /\
      m = entry_at template px py s /\
      first_qualifying result thr py px
  | None => forall r c s', cell result r c = Some s' ->
                           PrimFloat.leb (to_float32 thr) s' = false
  end.
Proof.
  intros Hnd Hin Hread Hmatch.
  pose proof (find_templates_entry imread_gray matchTemplate shot thr templates
                name info template result Hnd Hin Hread Hmatch) as H.
  destruct (_ !! name) as [m|]; [|by apply none_qualifies_cells].
  destruct H as (px & py & s & Hfirst & Hs & ->).
  exists px, py, s. split; [done|]. split.
  - destruct Hfirst as [(s' & Hs' & Hq) _]. congruence.
  - split; [by apply first_qualifying_cells|]. done.
Qed.

(** C2, as amended.  A cell reaches the threshold when its score, a float32
    value, is at least the threshold converted to float32, which is how
    numpy compares them.  When cells of the score map of a template reach
    the threshold, the entry [find_templates_on_screen] returns for it is
    built from the first such cell in row-major order (rows top to bottom,
    columns left to right within a row): every cell scanned before it is
    below; no other cell is the first to reach the threshold, so the choice
    is the same on every run with the same input.  It need not be the cell of maximal score: on the frame
    [near_then_exact] the entry has a confidence below the score 1 of a later
    cell. *)
Theorem find_templates_first_in_scan_order
    (imread_gray : string -> option gray)
    (matchTemplate : gray -> gray -> outcome score_map)
    (shot : gray) (templates : pydict template_info) (thr : float)
    (name : string) (info : template_info) (template : gray) (result : score_map) :
  NoDup (map fst templates) ->
  (name, info) ∈ templates ->
  imread_gray (filename info) = Some template ->
  matchTemplate shot template = Return result ->
  match (find_templates_on_screen imread_gray matchTemplate shot templates thr).1
        !! name with
  | Some m => exists px py s,
      cell result py px = Some s /\
      PrimFloat.leb (to_float32 thr) s = true /\
      (forall r c s', cell result r c = Some s' -> (r < py \/ (r = py /\ c < px)) ->
                      PrimFloat.leb (to_float32 thr) s' = false) /\
      m = entry_at template px py s /\
      (forall r c s', cell result r c = Some s' ->
         PrimFloat.leb (to_float32 thr) s' = true ->
         (forall r' c' s'', cell result r' c' = Some s'' ->
            (r' < r \/ (r' = r /\ c' < c)) ->
            PrimFloat.leb (to_float32 thr) s'' = false) ->
         (r, c) = (py, px))
  | None => forall r c s', cell result r c = Some s' ->
                           PrimFloat.leb (to_float32 thr) s' = false
  end /\
  (exists m result' r c s',
     (find_templates_on_screen (Cv2.imread Demo.files) Cv2.matchTemplate
        Demo.near_then_exact Demo.batch 0.8).1 !! "Save Icon" = Some m /\
     box m = (0, 0, 2, 2)%Z /\
     Cv2.matchTemplate Demo.near_then_exact Demo.icon = Return result' /\
     cell result' r c = Some s' /\
     PrimFloat.ltb (confidence m) s' = true) /\
  (find_templates_on_screen (Cv2.imread Demo.corner_files) Cv2.matchTemplate
     Demo.seven_tenths Demo.corner_batch 0.7).1 !! "Corner"
  = Some {| center := (1, 1)%Z; box := (0, 0, 2, 2)%Z;
            confidence := 0x1.666666p-1 |} /\
  (find_templates_on_screen (Cv2.imread Demo.files) Cv2.matchTemplate
     Demo.near_then_exact Demo.batch 0.99).1 !! "Save Icon"
  = Some {| center := (3, 1)%Z; box := (2, 0, 4, 2)%Z; confidence := 1 |}.
Proof.
  intros Hnd Hin Hread Hmatch. split; [|split].
  - pose proof (find_templates_entry_cells imread_gray matchTemplate shot thr
                  templates name info template result Hnd Hin Hread Hmatch) as H.
    destruct (_ !! name) as [m|]; [|exact H].
    destruct H as (px & py & s & Hs & Hq & Hbefore & -> & Hfirst).
    exists px, py, s. repeat (split; [done|]).
    intros r c s' Hs' Hq' Hbefore'.
    apply (first_qualifying_unique result thr); [|done].
    split; [by exists s'|]. intros r' c' (s'' & Hs'' & Hq'') Hb.
    rewrite (Hbefore' r' c' s'' Hs'' Hb) in Hq''. done.
  - eexists _, _, 0, 2, _.
    split; [vm_compute; reflexivity|]. split; [vm_compute; reflexivity|].
    split; [vm_compute; reflexivity|]. split; vm_compute; reflexivity.
  - split; vm_compute; reflexivity.
Qed.

Lemma find_templates_first_in_scan_order_witness :
  match (find_templates_on_screen (Cv2.imread Demo.files) Cv2.matchTemplate
           Demo.two_copies Demo.batch 0.8).1 !! "Save Icon" with
  | Some m => exists px py s,
      cell [[1; -1; 1]]%float py px = Some s /\
      PrimFloat.leb (to_float32 0.8) s = true /\
      (forall r c s', cell [[1; -1; 1]]%float r c = Some s' ->
                      (r < py \/ (r = py /\ c < px)) ->
                      PrimFloat.leb (to_float32 0.8) s' = false) /\
      m = entry_at Demo.icon px py s /\
      (forall r c s', cell [[1; -1; 1]]%float r c = Some s' ->
         PrimFloat.leb (to_float32 0.8) s' = true ->
         (forall r' c' s'', cell [[1; -1; 1]]%float r' c' = Some s'' ->
            (r' < r \/ (r' = r /\ c' < c)) ->
            PrimFloat.leb (to_float32 0.8) s'' = false) ->
         (r, c) = (py, px))
  | None => forall r c s', cell [[1; -1; 1]]%float r c = Some s' ->
                           PrimFloat.leb (to_float32 0.8) s' = false
  end.
Proof.
  apply (find_templates_first_in_scan_order (Cv2.imread Demo.files)
           Cv2.matchTemplate Demo.two_copies Demo.batch 0.8 "Save Icon"
           Demo.icon_info Demo.icon [[1; -1; 1]]%float).
  - apply NoDup_singleton.
  - apply list_elem_of_here.
  - reflexivity.
  - vm_compute. reflexivity.
Defined.

(** C2 as the spec states it fails: at the threshold 0.7, on a score map
    whose first cell holds the float32 value nearest to 0.7, which is below
    0.7, and whose second cell holds 1, the entry is built from the first
    cell, although the first cell that meets or exceeds 0.7 is the second
    one. *)
Lemma first_cell_below_threshold_wins :
  let result := [[0x1.666666p-1; 1]]%float in
  PrimFloat.ltb 0x1.666666p-1 0.7 = true /\
  PrimFloat.leb 0.7 1 = true /\
  (find_templates_on_screen (Cv2.imread Demo.files) (fun _ _ => Return result)
     Demo.two_copies Demo.batch 0.7).1 !! "Save Icon"
  = Some (entry_at Demo.icon 0 0 0x1.666666p-1).
Proof. vm_compute. repeat split; reflexivity. Qed.

(** C3, as amended.  Every entry [find_templates_on_screen] returns is built
    from the winning cell's top-left pixel [(px, py)] and the template's
    shape [(h, w)]: center [(px + w // 2, py + h // 2)], box
    [(px, py, px + w, py + h)], and as confidence the value of the score map
    at that cell, read and not recomputed.  That value is at least the
    threshold converted to float32, and the winning cell is the first of
    which this holds. *)
Theorem match_entry_center_box_confidence
    (imread_gray : string -> option gray)
    (matchTemplate : gray -> gray -> outcome score_map)
    (shot : gray) (templates : pydict template_info) (thr : float)
    (name : string) (m : match_result) :
  (find_templates_on_screen imread_gray matchTemplate shot templates thr).1
    !! name = Some m ->
  (exists info template result px py,
    (name, info) ∈ templates /\
    imread_gray (filename info) = Some template /\
    matchTemplate shot template = Return result /\
    center m = ((Z.of_nat px + Z.of_nat (shape template).2 / 2)%Z,
                (Z.of_nat py + Z.of_nat (shape template).1 / 2)%Z) /\
    box m = (Z.of_nat px, Z.of_nat py,
             (Z.of_nat px + Z.of_nat (shape template).2)%Z,
             (Z.of_nat py + Z.of_nat (shape template).1)%Z) /\
    cell result py px = Some (confidence m) /\
    PrimFloat.leb (to_float32 thr) (confidence m) = true /\
    (forall r c s', cell result r c = Some s' -> (r < py \/ (r = py /\ c < px)) ->
                    PrimFloat.leb (to_float32 thr) s' = false)) /\
  (find_templates_on_screen (Cv2.imread Demo.corner_files) Cv2.matchTemplate
     Demo.seven_tenths Demo.corner_batch 0.7).1 !! "Corner"
  = Some {| center := (1, 1)%Z; box := (0, 0, 2, 2)%Z;
            confidence := 0x1.666666p-1 |} /\
  (find_templates_on_screen (Cv2.imread Demo.files) Cv2.matchTemplate
     Demo.near_then_exact Demo.batch 0.99).1 !! "Save Icon"
  = Some {| center := (3, 1)%Z; box := (2, 0, 4, 2)%Z; confidence := 1 |}.
Proof.
  intros Hm. split; [|split; vm_compute; reflexivity].
  destruct (find_templates_entries imread_gray matchTemplate shot thr templates
              name m Hm)
    as (info & template & result & px & py & s & Hin & Hread & Hmatch & Hfirst & Hs & ->).
  exists info, template, result, px, py. simpl.
  repeat (split; [done|]). split.
  - destruct Hfirst as [(s' & Hs' & Hq) _]. congruence.
  - by apply first_qualifying_cells.
Qed.

Lemma match_entry_center_box_confidence_witness :
  exists info template result px py,
    ("Save Icon", info) ∈ Demo.batch /\
    Cv2.imread Demo.files (filename info) = Some template /\
    Cv2.matchTemplate Demo.two_copies template = Return result /\
    (1, 1)%Z = ((Z.of_nat px + Z.of_nat (shape template).2 / 2)%Z,
                (Z.of_nat py + Z.of_nat (shape template).1 / 2)%Z) /\
    (0, 0, 2, 2)%Z = (Z.of_nat px, Z.of_nat py,
                      (Z.of_nat px + Z.of_nat (shape template).2)%Z,
                      (Z.of_nat py + Z.of_nat (shape template).1)%Z) /\
    cell result py px = Some 1%float /\
    PrimFloat.leb (to_float32 0.8) 1 = true /\
    (forall r c s', cell result r c = Some s' -> (r < py \/ (r = py /\ c < px)) ->
                    PrimFloat.leb (to_float32 0.8) s' = false).
Proof.
  apply (match_entry_center_box_confidence (Cv2.imread Demo.files)
           Cv2.matchTemplate Demo.two_copies Demo.batch 0.8 "Save Icon"
           {| center := (1, 1)%Z; box := (0, 0, 2, 2)%Z; confidence := 1 |}).
  vm_compute. reflexivity.
Defined.

(** C3 as the spec states it fails: at the threshold 0.7 the frame
    [seven_tenths], whose first window correlates with the template [corner]
    with coefficient 84 / 120, gives an entry whose confidence, the float32
    value nearest to 0.7, is below the threshold. *)
Lemma returned_confidence_below_threshold :
  exists m,
    (find_templates_on_screen (Cv2.imread Demo.corner_files) Cv2.matchTemplate
       Demo.seven_tenths Demo.corner_batch 0.7).1 !! "Corner" = Some m /\
    box m = (0, 0, 2, 2)%Z /\
    PrimFloat.ltb (confidence m) 0.7 = true.
Proof. eexists. vm_compute. repeat split; reflexivity. Qed.

(** C5. In a batch of N templates of which M do not load, the mapping
    returned has at most N - M entries; a template that does not load gets no
    entry and its message is printed; every template that loads is still
    matched, whatever the others do: it has an entry exactly when a cell of
    its own score map reaches the threshold (converted to float32, as numpy
    compares), and the entry is built from the first such cell. *)
Theorem batch_skips_missing_templates
    (imread_gray : string -> option gray)
    (matchTemplate : gray -> gray -> outcome score_map)
    (shot : gray) (templates : pydict template_info) (thr : float) :
  NoDup (map fst templates) ->
  let run := find_templates_on_screen imread_gray matchTemplate shot templates thr in
  (size run.1
    <= length templates - length (List.filter (missing imread_gray) templates) /\
  (forall name info,
     (name, info) ∈ templates -> imread_gray (filename info) = None ->
     run.1 !! name = None /\
     "Could not load template '" +:+ filename info +:+ "'" ∈ run.2) /\
  (forall name info template result,
     (name, info) ∈ templates ->
     imread_gray (filename info) = Some template ->
     matchTemplate shot template = Return result ->
     (is_Some (run.1 !! name) <->
      exists r c s, cell result r c = Some s /\
                    PrimFloat.leb (to_float32 thr) s = true) /\
     forall m, run.1 !! name = Some m ->
       exists px py s,
         cell result py px = Some s /\
         PrimFloat.leb (to_float32 thr) s = true /\
         (forall r c s', cell result r c = Some s' ->
                         (r < py \/ (r = py /\ c < px)) ->
                         PrimFloat.leb (to_float32 thr) s' = false) /\
         m = entry_at template px py s)) /\
  (forall item, missing imread_gray item = true
                <-> imread_gray (filename item.2) = None) /\
  (let run3 := find_templates_on_screen (Cv2.imread Demo.files3) Cv2.matchTemplate
                 Demo.two_copies Demo.batch3 0.8 in
   map_to_list run3.1
   = [("Open Icon", {| center := (2, 1)%Z; box := (1, 0, 3, 2)%Z; confidence := 1 |});
      ("Save Icon", {| center := (1, 1)%Z; box := (0, 0, 2, 2)%Z; confidence := 1 |})]
   /\ run3.2 = ["Could not load template 'templates/ghost.png'"]) /\
  (find_templates_on_screen (Cv2.imread Demo.corner_files) Cv2.matchTemplate
     Demo.seven_tenths Demo.corner_batch 0.7).1 !! "Corner"
  = Some {| center := (1, 1)%Z; box := (0, 0, 2, 2)%Z;
            confidence := 0x1.666666p-1 |} /\
  (find_templates_on_screen (Cv2.imread Demo.files) Cv2.matchTemplate
     Demo.near_then_exact Demo.batch 0.99).1 !! "Save Icon"
  = Some {| center := (3, 1)%Z; box := (2, 0, 4, 2)%Z; confidence := 1 |}.
Proof.
  intros Hnd run. split; [|split; [|split]].
  4: { split; vm_compute; reflexivity. }
  3: { vm_compute. split; reflexivity. }
  2: { intros item. unfold missing. destruct (imread_gray _); split; done. }
  split; [|split].
  - pose proof (find_templates_size imread_gray matchTemplate shot thr templates).
    subst run. lia.
  - intros name info Hin Hnone. split.
    + apply find_templates_skipped with (info := info); auto.
    + by apply (find_templates_log imread_gray matchTemplate shot thr templates
                  name info Hin).
  - intros name info template result Hin Hread Hmatch.
    pose proof (find_templates_entry_cells imread_gray matchTemplate shot thr
                  templates name info template result Hnd Hin Hread Hmatch) as H.
    fold run in H. destruct (run.1 !! name) as [m|].
    + split; [split|].
      * intros _. destruct H as (px & py & s & Hs & Hq & _). by exists py, px, s.
      * intros _. by eexists.
      * intros m' [= <-]. destruct H as (px & py & s & Hs & Hq & Hbefore & -> & _).
        by exists px, py, s.
    + split; [split|].
      * by intros [? ?].
      * intros (r & c & s & Hs & Hq). rewrite (H r c s Hs) in Hq. done.
      * done.
Qed.

Lemma batch_skips_missing_templates_witness :
  let run := find_templates_on_screen (Cv2.imread Demo.files3) Cv2.matchTemplate
               Demo.two_copies Demo.batch3 0.8 in
  size run.1
    <= length Demo.batch3
       - length (List.filter (missing (Cv2.imread Demo.files3)) Demo.batch3) /\
  (forall name info,
     (name, info) ∈ Demo.batch3 -> Cv2.imread Demo.files3 (filename info) = None ->
     run.1 !! name = None /\
     "Could not load template '" +:+ filename info +:+ "'" ∈ run.2) /\
  (forall name info template result,
     (name, info) ∈ Demo.batch3 ->
     Cv2.imread Demo.files3 (filename info) = Some template ->
     Cv2.matchTemplate Demo.two_copies template = Return result ->
     (is_Some (run.1 !! name) <->
      exists r c s, cell result r c = Some s /\
                    PrimFloat.leb (to_float32 0.8) s = true) /\
     forall m, run.1 !! name = Some m ->
       exists px py s,
         cell result py px = Some s /\
         PrimFloat.leb (to_float32 0.8) s = true /\
         (forall r c s', cell result r c = Some s' ->
                         (r < py \/ (r = py /\ c < px)) ->
                         PrimFloat.leb (to_float32 0.8) s' = false) /\
         m = entry_at template px py s).
Proof.
  refine (proj1 (batch_skips_missing_templates (Cv2.imread Demo.files3)
                   Cv2.matchTemplate Demo.two_copies Demo.batch3 0.8 _)).
  refine (bool_decide_unpack _ _). vm_compute. exact I.
Defined.

(** The batch of the witness: three templates, one missing file, two entries,
    one line printed. *)
Example batch3_run :
  let run := find_templates_on_screen (Cv2.imread Demo.files3) Cv2.matchTemplate
               Demo.two_copies Demo.batch3 0.8 in
  map_to_list run.1
  = [("Open Icon", {| center := (2, 1)%Z; box := (1, 0, 3, 2)%Z; confidence := 1 |});
     ("Save Icon", {| center := (1, 1)%Z; box := (0, 0, 2, 2)%Z; confidence := 1 |})]
  /\ run.2 = ["Could not load template 'templates/ghost.png'"].
Proof. vm_compute. split; reflexivity. Qed.

(** ** Re-embedded templates and small frames *)

Lemma sum_sq_le_aux (x s q n : Z) :
  (0 <= n)%Z -> (0 <= q)%Z -> (s * s <= n * q)%Z ->
  ((x + s) * (x + s) <= (n + 1) * (x * x + q))%Z.
Proof.
  intros Hn Hq IH.
  destruct (decide (n = 0%Z)) as [-> | Hn0].
  - assert (s * s = 0)%Z as Hs by (pose proof (Z.square_nonneg s); lia).
    apply Z.mul_eq_0 in Hs. assert (s = 0)%Z as -> by (destruct Hs; assumption).
    nia.
  - pose proof (Z.square_nonneg (s - n * x)) as Hsq.
    assert (0 <= n * (n * q - s * s))%Z as Hprod
      by (apply Z.mul_nonneg_nonneg; lia).
    apply (Z.mul_le_mono_pos_l _ _ n); [lia|].
    replace (n * ((n + 1) * (x * x + q)))%Z
      with (n * ((x + s) * (x + s)) + (s - n * x) * (s - n * x)
            + n * (n * q - s * s) + n * q - s * s)%Z by ring.
    lia.
Qed.

Lemma sum_sq_le (xs : list Z) :
  (Cv2.sum xs * Cv2.sum xs <= Z.of_nat (length xs) * Cv2.dot xs xs)%Z /\ (0 <= Cv2.dot xs xs)%Z.
Proof.
  unfold Cv2.dot, Cv2.sum.
  induction xs as [|x xs [IH Hpos]]; simpl; [lia|].
  split; [|nia].
  replace (Z.of_nat (S (length xs))) with (Z.of_nat (length xs) + 1)%Z by lia.
  apply sum_sq_le_aux; [lia | done | done].
Qed.

(** The quotient of a positive number and the square root of its square is
    1, also after rounding. *)
Lemma ratio_sqrt32_square (v : Z) :
  (0 < v)%Z -> Cv2.ratio_sqrt32 v (v * v) = 1%float.
Proof.
  intros Hv. unfold Cv2.ratio_sqrt32.
  assert (v * v <> 0)%Z as Hvv by nia.
  rewrite (Z.mul_comm (v * v) (4 ^ 128)), Z.div_mul, Z.mod_mul by done.
  change (Z.sqrt (4 ^ 128)) with (2 ^ 128)%Z.
  replace (v <? 0)%Z with false by (symmetry; apply Z.ltb_ge; lia).
  vm_compute. reflexivity.
Qed.

(** The reference matcher scores a window that equals the template 1. *)
Lemma ccoeff_normed_same (templ : list Z) : Cv2.ccoeff_normed templ templ = 1%float.
Proof.
  unfold Cv2.ccoeff_normed.
  destruct (decide _) as [|Hvt]; [done|].
  apply ratio_sqrt32_square.
  pose proof (sum_sq_le templ) as [Hle _]. lia.
Qed.

Lemma cv2_scores_embedding (shot template : gray) (x y : nat) :
  embedded_at shot template x y ->
  exists result s,
    Cv2.matchTemplate shot template = Return result /\
    cell result y x = Some s /\ PrimFloat.leb 1 s = true.
Proof.
  intros (Hy & Hx & Hwin). exists (Cv2.correlate shot template), 1%float.
  unfold Cv2.matchTemplate, Cv2.correlate, cell.
  destruct (shape shot) as [ih iw], (shape template) as [th tw].
  cbn [fst snd] in *.
  replace ((ih <? th)%nat || (iw <? tw)%nat) with false.
  2: { symmetry. apply orb_false_iff. split; apply Nat.ltb_ge; lia. }
  split; [reflexivity|]. split; [|reflexivity].
  rewrite list_lookup_fmap.
  rewrite (lookup_seq_lt 0 (S (ih - th)) y) by lia.
  cbn [fmap option_fmap option_map]. rewrite list_lookup_fmap.
  rewrite (lookup_seq_lt 0 (S (iw - tw)) x) by lia.
  cbn [fmap option_fmap option_map plus]. f_equal.
  rewrite Hwin. apply ccoeff_normed_same.
Qed.

(** C1, as amended.  Take a matcher that scores every exact copy of a
    template at least [near_one], a threshold that is at most [near_one]
    once converted to float32, and a template whose pixels sit unmodified in
    the frame at offset [(dx, dy)].  Then [find_templates_on_screen] has an
    entry for the template, built from the cell of the copy or from a cell
    scanned before it, with a confidence that reaches the threshold; and
    when no cell scanned before the copy reaches the threshold, the center is
    [(dx + w // 2, dy + h // 2)] exactly and the confidence is at least
    [near_one].  The reference matcher is such a matcher, with [near_one]
    equal to 1. *)
Theorem embedded_template_found_when_first
    (imread_gray : string -> option gray)
    (matchTemplate : gray -> gray -> outcome score_map) (near_one : float)
    (shot : gray) (templates : pydict template_info) (thr : float)
    (name : string) (info : template_info) (template : gray) (dx dy : nat) :
  (forall x y, embedded_at shot template x y ->
     exists result s,
       matchTemplate shot template = Return result /\
       cell result y x = Some s /\ PrimFloat.leb near_one s = true) ->
  NoDup (map fst templates) ->
  (name, info) ∈ templates ->
  imread_gray (filename info) = Some template ->
  embedded_at shot template dx dy ->
  PrimFloat.leb (to_float32 thr) near_one = true ->
  (exists m result px py,
    (find_templates_on_screen imread_gray matchTemplate shot templates thr).1
      !! name = Some m /\
    matchTemplate shot template = Return result /\
    cell result py px = Some (confidence m) /\
    PrimFloat.leb (to_float32 thr) (confidence m) = true /\
    center m = ((Z.of_nat px + Z.of_nat (shape template).2 / 2)%Z,
                (Z.of_nat py + Z.of_nat (shape template).1 / 2)%Z) /\
    ~ (dy < py \/ (dy = py /\ dx < px)) /\
    ((forall r c s', cell result r c = Some s' -> (r < dy \/ (r = dy /\ c < dx)) ->
                     PrimFloat.leb (to_float32 thr) s' = false) ->
     center m = ((Z.of_nat dx + Z.of_nat (shape template).2 / 2)%Z,
                 (Z.of_nat dy + Z.of_nat (shape template).1 / 2)%Z) /\
     PrimFloat.leb near_one (confidence m) = true)) /\
  (find_templates_on_screen (Cv2.imread Demo.corner_files) Cv2.matchTemplate
     Demo.seven_tenths Demo.corner_batch 0.7).1 !! "Corner"
  = Some {| center := (1, 1)%Z; box := (0, 0, 2, 2)%Z;
            confidence := 0x1.666666p-1 |} /\
  (find_templates_on_screen (Cv2.imread Demo.files) Cv2.matchTemplate
     Demo.near_then_exact Demo.batch 0.99).1 !! "Save Icon"
  = Some {| center := (3, 1)%Z; box := (2, 0, 4, 2)%Z; confidence := 1 |}.
Proof.
  intros Haccurate Hnd Hin Hread Hemb Hthr.
  split; [|split; vm_compute; reflexivity].
  destruct (Haccurate dx dy Hemb) as (result & s & Hmatch & Hs & Hnear).
  assert (qualifies result thr dy dx) as Hq.
  { exists s. split; [done|]. by apply (float_leb_trans _ near_one). }
  pose proof (find_templates_entry imread_gray matchTemplate shot thr templates
                name info template result Hnd Hin Hread Hmatch) as H.
  destruct (_ !! name) as [m|]; [|by destruct (H dy dx)].
  destruct H as (px & py & s' & Hfirst & Hs' & ->).
  exists (entry_at template px py s'), result, px, py. simpl.
  split; [done|]. split; [done|]. split; [done|]. split.
  { destruct Hfirst as [(s'' & Hs'' & Hq'') _]. congruence. }
  split; [done|]. split.
  { destruct Hfirst as [_ Hfirst]. by apply Hfirst. }
  intros Hbefore.
  assert (first_qualifying result thr dy dx) as Hfirst'.
  { split; [done|]. intros r c (s'' & Hs'' & Hq'') Hb.
    rewrite (Hbefore r c s'' Hs'' Hb) in Hq''. done. }
  pose proof (first_qualifying_unique _ _ _ _ _ _ Hfirst Hfirst') as [= -> ->].
  split; [done|]. congruence.
Qed.

Lemma embedded_template_found_when_first_witness :
  exists m result px py,
    (find_templates_on_screen (Cv2.imread Demo.files) Cv2.matchTemplate
       Demo.near_then_exact Demo.batch 0.99).1 !! "Save Icon" = Some m /\
    Cv2.matchTemplate Demo.near_then_exact Demo.icon = Return result /\
    cell result py px = Some (confidence m) /\
    PrimFloat.leb (to_float32 0.99) (confidence m) = true /\
    center m = ((Z.of_nat px + Z.of_nat (shape Demo.icon).2 / 2)%Z,
                (Z.of_nat py + Z.of_nat (shape Demo.icon).1 / 2)%Z) /\
    ~ (0 < py \/ (0 = py /\ 2 < px)) /\
    ((forall r c s', cell result r c = Some s' -> (r < 0 \/ (r = 0 /\ c < 2)) ->
                     PrimFloat.leb (to_float32 0.99) s' = false) ->
     center m = ((Z.of_nat 2 + Z.of_nat (shape Demo.icon).2 / 2)%Z,
                 (Z.of_nat 0 + Z.of_nat (shape Demo.icon).1 / 2)%Z) /\
     PrimFloat.leb 1 (confidence m) = true).
Proof.
  apply (embedded_template_found_when_first (Cv2.imread Demo.files)
           Cv2.matchTemplate 1 Demo.near_then_exact Demo.batch 0.99 "Save Icon"
           Demo.icon_info Demo.icon 2 0).
  - intros x y. apply cv2_scores_embedding.
  - apply NoDup_singleton.
  - apply list_elem_of_here.
  - reflexivity.
  - vm_compute. repeat split; lia.
  - vm_compute. reflexivity.
Defined.

(** The scenario of the spec, scaled down: the icon is cut from a first
    frame at the box (2, 0, 4, 2) and stored; in a second frame, where it has
    moved by (1, 0), it is found with center (2 + 1 + 1, 0 + 1). *)
Example extract_then_match_shifted :
  let first_frame := [[9; 9; 0; 255; 9]; [9; 9; 255; 0; 9]]%Z in
  let second_frame := [[9; 9; 9; 0; 255]; [9; 9; 9; 255; 0]]%Z in
  let st := extract_templates "templates" first_frame
              [ {| e_name := Some "Save Icon"; e_type := Some "icon";
                   e_bounding_box := Some [2; 0; 4; 2]%Z;
                   e_description := None |} ] ∅ in
  (find_templates_on_screen (Cv2.imread (directory st)) Cv2.matchTemplate
     second_frame (templates st) 0.8).1 !! "Save Icon"
  = Some {| center := (4, 1)%Z; box := (3, 0, 5, 2)%Z; confidence := 1 |}.
Proof. vm_compute. reflexivity. Qed.

(** C1 as the spec states it fails: the frame [near_then_exact] holds the
    icon unmodified at offset (2, 0), where the matcher scores it 1, and a
    near copy at offset (0, 0), which reaches the threshold 0.8 first.  The
    entry reports the near copy: a center two pixels away from the one of the
    embedding, and a confidence below 0.99. *)
Lemma earlier_near_copy_is_reported :
  embedded_at Demo.near_then_exact Demo.icon 2 0 /\
  cell (Cv2.correlate Demo.near_then_exact Demo.icon) 0 2 = Some 1%float /\
  exists m,
    (find_templates_on_screen (Cv2.imread Demo.files) Cv2.matchTemplate
       Demo.near_then_exact Demo.batch 0.8).1 !! "Save Icon" = Some m /\
    PrimFloat.ltb (confidence m) 0.99 = true /\
    ~ center_within 1 m Demo.icon 2 0.
Proof.
  split; [vm_compute; repeat split; lia|]. split; [vm_compute; reflexivity|].
  eexists. split; [vm_compute; reflexivity|]. split; [vm_compute; reflexivity|].
  intros [Hx _]. vm_compute in Hx. by apply Hx.
Qed.

Lemma cv2_rejects_mixed_sizes (img templ : gray) :
  ((shape img).1 < (shape templ).1 /\ (shape templ).2 < (shape img).2) \/
  ((shape img).2 < (shape templ).2 /\ (shape templ).1 < (shape img).1) ->
  exists e, Cv2.matchTemplate img templ = Raise e.
Proof.
  unfold Cv2.matchTemplate.
  destruct (shape img) as [ih iw], (shape templ) as [th tw]; simpl.
  intros Hmixed.
  assert (((ih <? th)%nat || (iw <? tw)%nat)
          && negb ((ih <=? th)%nat && (iw <=? tw)%nat) = true) as ->.
  { destruct Hmixed as [[H1 H2] | [H1 H2]].
    - apply Nat.ltb_lt in H1 as ->. simpl.
      apply negb_true_iff, andb_false_iff. right. apply Nat.leb_gt. lia.
    - apply andb_true_iff. split.
      + apply orb_true_iff. right. by apply Nat.ltb_lt.
      + apply negb_true_iff, andb_false_iff. left. apply Nat.leb_gt. lia. }
  eauto.
Qed.

(** C4, as amended.  When the live image is smaller than a template in one
    dimension and larger in the other, OpenCV's size assertion fails inside
    the [try]: the template gets no entry and the error is printed, not
    raised.  (A live image that is no larger in either dimension is matched
    with the roles of image and template swapped.) *)
Theorem smaller_frame_in_one_dimension_no_entry
    (imread_gray : string -> option gray)
    (shot : gray) (templates : pydict template_info) (thr : float)
    (name : string) (info : template_info) (template : gray) :
  NoDup (map fst templates) ->
  (name, info) ∈ templates ->
  imread_gray (filename info) = Some template ->
  ((shape shot).1 < (shape template).1 /\ (shape template).2 < (shape shot).2) \/
  ((shape shot).2 < (shape template).2 /\ (shape template).1 < (shape shot).1) ->
  let run := find_templates_on_screen imread_gray Cv2.matchTemplate shot templates thr in
  run.1 !! name = None /\
  exists e, "Error finding template " +:+ name +:+ ": " +:+ e ∈ run.2.
Proof.
  intros Hnd Hin Hread Hmixed run.
  destruct (cv2_rejects_mixed_sizes shot template Hmixed) as [e He].
  split.
  - apply find_templates_skipped with (info := info); eauto.
  - exists e.
    destruct (find_templates_log imread_gray Cv2.matchTemplate shot thr templates
                name info Hin) as [_ Hraise].
    by apply Hraise with (template := template).
Qed.

Lemma smaller_frame_in_one_dimension_no_entry_witness :
  let run := find_templates_on_screen (Cv2.imread Demo.tall_files) Cv2.matchTemplate
               Demo.two_copies Demo.batch 0.8 in
  run.1 !! "Save Icon" = None /\
  exists e, "Error finding template " +:+ "Save Icon" +:+ ": " +:+ e ∈ run.2.
Proof.
  apply (smaller_frame_in_one_dimension_no_entry (Cv2.imread Demo.tall_files)
           Demo.two_copies Demo.batch 0.8 "Save Icon" Demo.icon_info
           [[0]; [255]; [0]]%Z).
  - apply NoDup_singleton.
  - apply list_elem_of_here.
  - reflexivity.
  - left. vm_compute. lia.
Defined.

(** C4 as the spec states it fails: the live image [icon] is smaller than the
    template [large_icon] in both dimensions, and the template gets an
    entry. *)
Lemma smaller_frame_in_both_dimensions_matches :
  (shape Demo.icon).1 < (shape Demo.large_icon).1 /\
  (shape Demo.icon).2 < (shape Demo.large_icon).2 /\
  (find_templates_on_screen (Cv2.imread Demo.large_files) Cv2.matchTemplate
     Demo.icon Demo.batch 0.8).1 !! "Save Icon"
  = Some {| center := (1, 1)%Z; box := (0, 0, 3, 3)%Z; confidence := 1 |}.
Proof. split; [vm_compute; lia|]. split; [vm_compute; lia|]. vm_compute. reflexivity. Qed.

(** ** The template store: keys, collisions, entries *)

Lemma dict_get_set_eq {V : Type} (d : pydict V) k v :
  dict_get (dict_set d k v) k = Some v.
Proof.
  induction d as [|[k' v'] d IH]; simpl.
  - by rewrite decide_True.
  - destruct (decide (k' = k)) as [->|Hne]; simpl.
    + by rewrite decide_True.
    + by rewrite decide_False.
Qed.

Lemma dict_get_set_ne {V : Type} (d : pydict V) k k' v :
  k <> k' -> dict_get (dict_set d k v) k' = dict_get d k'.
Proof.
  intros Hne. induction d as [|[k0 v0] d IH]; simpl.
  - by rewrite decide_False.
  - destruct (decide (k0 = k)) as [->|Hne0]; simpl.
    + by rewrite !decide_False.
    + destruct (decide (k0 = k')); [done | exact IH].
Qed.

Lemma lower_char_key (c : ascii) :
  key_char (lower_char (if isalnum c then c else "_"%char)) = true.
Proof. destruct c as [[] [] [] [] [] [] [] []]; vm_compute; reflexivity. Qed.

Lemma safe_name_pointwise (name : string) :
  safe_name name
  = map_chars (fun c => if isalnum c then lower_char c else "_"%char) name.
Proof.
  unfold safe_name, lower.
  induction name as [|c rest IH]; simpl; [done|].
  rewrite IH. f_equal. by destruct (isalnum c).
Qed.

Lemma safe_name_key_chars (name : string) :
  all_chars key_char (safe_name name) = true.
Proof.
  unfold safe_name, lower.
  induction name as [|c rest IH]; simpl; [done|].
  by rewrite lower_char_key, IH.
Qed.

Lemma map_chars_length f (s : string) :
  String.length (map_chars f s) = String.length s.
Proof. induction s as [|c s IH]; simpl; [done | by rewrite IH]. Qed.

Lemma map_chars_get f (s : string) : forall i,
  String.get i (map_chars f s) = f <$> String.get i s.
Proof.
  induction s as [|c s IH]; intros i; simpl; [done|].
  destruct i as [|i]; [done | apply IH].
Qed.

Lemma all_chars_get P (s : string) :
  all_chars P s = true ->
  forall i c, String.get i s = Some c -> P c = true.
Proof.
  induction s as [|c' s IH]; simpl; [done|].
  intros [Hc Hs]%andb_true_iff [|i] c; [by intros [= <-] | by apply IH].
Qed.

(** On a name of one-byte code points the key is the one Python computes
    on the [str]: the tables of the two models agree there, and no capital
    sigma occurs. *)
Lemma latin1_char (c : ascii) :
  let c' := if Unicode.isalnum (code c) then code c else 95%N in
  Unicode.isalnum (code c) = isalnum c /\
  (c' =? 931)%N = false /\
  Unicode.lower_cp c' = [code (lower_char (if isalnum c then c else "_"%char))].
Proof. destruct c as [[] [] [] [] [] [] [] []]; vm_compute; done. Qed.

Lemma safe_name_codes (name : string) :
  Unicode.safe_name (codes name) = codes (safe_name name).
Proof.
  unfold Unicode.safe_name, Unicode.lower, safe_name, lower, codes.
  generalize (@nil N) as before.
  induction name as [|c rest IH]; intros before; [done|].
  destruct (latin1_char c) as (Halnum & Hsigma & Hlower).
  cbn [String.list_ascii_of_string map map_chars Unicode.lower_from].
  rewrite Hsigma, Hlower, IH. reflexivity.
Qed.

Lemma crop_shape shot x1 y1 x2 y2 img :
  PIL.crop shot (x1, y1, x2, y2) = Return img ->
  (x1 <= x2)%Z /\ (y1 <= y2)%Z /\
  length img = Z.to_nat (y2 - y1) /\
  (shape img).2 = (if decide (y1 = y2) then 0 else Z.to_nat (x2 - x1)).
Proof.
  unfold PIL.crop.
  destruct (x2 <? x1)%Z eqn:Hx; [done|]. destruct (y2 <? y1)%Z eqn:Hy; [done|].
  apply Z.ltb_ge in Hx, Hy. intros [= <-].
  split; [done|]. split; [done|]. split.
  - by rewrite length_map, length_seqZ.
  - unfold shape; simpl. destruct (decide (y1 = y2)) as [->|Hne].
    + by rewrite Z.sub_diag.
    + destruct (seqZ y1 (y2 - y1)) as [|y ys] eqn:Hseq; simpl.
      * apply (f_equal length) in Hseq. rewrite length_seqZ in Hseq.
        simpl in Hseq. lia.
      * by rewrite length_map, length_seqZ.
Qed.

(** The raster cut for a box is without pixels exactly when the box is. *)
Lemma crop_empty shot x1 y1 x2 y2 img :
  PIL.crop shot (x1, y1, x2, y2) = Return img ->
  (x1 <= x2)%Z /\ (y1 <= y2)%Z /\
  shape img = (Z.to_nat (y2 - y1), if decide (y1 = y2) then 0 else Z.to_nat (x2 - x1)) /\
  (empty_raster img = true <-> x1 = x2 \/ y1 = y2).
Proof.
  intros Hcrop.
  pose proof (crop_shape _ _ _ _ _ _ Hcrop) as (Hx & Hy & Hlen & Hw).
  split; [done|]. split; [done|].
  assert (shape img = (Z.to_nat (y2 - y1),
                       if decide (y1 = y2) then 0 else Z.to_nat (x2 - x1))) as Hshape.
  { rewrite <- Hw, <- Hlen. by destruct img. }
  split; [done|]. unfold empty_raster. rewrite Hshape. cbn [fst snd].
  rewrite orb_true_iff, !Nat.eqb_eq.
  destruct (decide (y1 = y2)); lia.
Qed.

(** The body of the loop, with what it prints: an element that lacks a key
    is passed over in silence; a failure prints one line, leaves the mapping
    as it is and, when it is the write of a raster without pixels that
    fails, empties the file of that key if it is there; a success sets the
    entry, writes the file, and prints only the announcement. *)
Lemma extract_one_outcome dir announce shot st e :
  let st' := extract_one dir announce shot st e in
  (usable e = false /\ st' = st) \/
  (usable e = true /\ templates st' = templates st /\
   (exists line, printed st' = printed st ++ [line]) /\
   (directory st' = directory st \/
    exists name x1 y1 x2 y2,
      e_name e = Some name /\ e_bounding_box e = Some [x1; y1; x2; y2] /\
      (x1 <= x2)%Z /\ (y1 <= y2)%Z /\ (x1 = x2 \/ y1 = y2) /\
      is_Some (directory st !! (dir +:+ "/" +:+ safe_name name +:+ ".png")) /\
      directory st'
      = <[dir +:+ "/" +:+ safe_name name +:+ ".png" := []]> (directory st))) \/
  (usable e = true /\
   exists name x1 y1 x2 y2 img,
     e_name e = Some name /\ e_bounding_box e = Some [x1; y1; x2; y2] /\
     (x1 < x2)%Z /\ (y1 < y2)%Z /\
     PIL.crop shot (x1, y1, x2, y2) = Return img /\
     shape img = (Z.to_nat (y2 - y1), Z.to_nat (x2 - x1)) /\
     0 < (shape img).1 /\ 0 < (shape img).2 /\
     templates st'
     = dict_set (templates st) name
         {| filename := dir +:+ "/" +:+ safe_name name +:+ ".png";
            bounding_box := [x1; y1; x2; y2];
            type_ := default "unknown" (e_type e);
            description := default "" (e_description e) |} /\
     directory st'
     = <[dir +:+ "/" +:+ safe_name name +:+ ".png" := img]> (directory st) /\
     printed st'
     = if announce
       then printed st ++ ["Extracted template for '" +:+ name +:+ "' at "
                           +:+ dir +:+ "/" +:+ safe_name name +:+ ".png"]
       else printed st).
Proof.
  unfold extract_one, usable.
  destruct (e_bounding_box e) as [bbox|]; [|by left].
  destruct (e_name e) as [name|]; [|by left].
  right.
  destruct (unpack4 bbox) as [[[[x1 y1] x2] y2]|err] eqn:Hbox; simpl.
  2: { left. split; [done|]. split; [done|]. split; [by eexists | by left]. }
  assert (bbox = [x1; y1; x2; y2]) as ->.
  { destruct bbox as [|a [|b [|c [|d [|? ?]]]]]; simpl in Hbox; try done.
    by injection Hbox as -> -> -> ->. }
  destruct (PIL.crop shot (x1, y1, x2, y2)) as [img|err] eqn:Hcrop; simpl.
  2: { left. split; [done|]. split; [done|]. split; [by eexists | by left]. }
  destruct (crop_empty _ _ _ _ _ _ Hcrop) as (Hx & Hy & Hshape & Hempty).
  unfold PIL.save.
  destruct (empty_raster img) eqn:Hraster.
  - left. split; [done|]. split; [done|]. split; [by eexists|].
    destruct (directory st !! _) as [old|] eqn:Hold; simpl; [|by left].
    right. exists name, x1, y1, x2, y2.
    repeat (split; [done|]). split; [by apply Hempty|].
    split; [by rewrite Hold | done].
  - right. split; [done|]. exists name, x1, y1, x2, y2, img.
    assert (x1 <> x2 /\ y1 <> y2) as [Hx' Hy'].
    { split; intros Heq;
        assert (false = true) by (apply Hempty; auto); done. }
    rewrite decide_False in Hshape by done. clear Hempty.
    assert (0 < (shape img).1 /\ 0 < (shape img).2) as [Hh Hw]
      by (rewrite Hshape; cbn [fst snd]; lia).
    split; [done|]. split; [done|]. split; [lia|]. split; [lia|].
    split; [done|]. split; [done|]. split; [done|]. split; [done|]. done.
Qed.

Lemma crop_nonempty shot x1 y1 x2 y2 :
  (x1 < x2)%Z -> (y1 < y2)%Z ->
  exists img,
    PIL.crop shot (x1, y1, x2, y2) = Return img /\
    shape img = (Z.to_nat (y2 - y1), Z.to_nat (x2 - x1)) /\
    empty_raster img = false.
Proof.
  intros Hx Hy.
  destruct (PIL.crop shot (x1, y1, x2, y2)) as [img|err] eqn:Hcrop.
  - exists img. split; [done|].
    destruct (crop_empty _ _ _ _ _ _ Hcrop) as (_ & _ & Hshape & Hempty).
    rewrite decide_False in Hshape by lia. split; [done|].
    destruct (empty_raster img); [|done].
    destruct Hempty as [Hempty _]. destruct Hempty; [done | lia | lia].
  - unfold PIL.crop in Hcrop.
    destruct (x2 <? x1)%Z eqn:Hx'; [apply Z.ltb_lt in Hx'; lia|].
    destruct (y2 <? y1)%Z eqn:Hy'; [apply Z.ltb_lt in Hy'; lia|]. done.
Qed.

(** An element with a name and a box that is not empty is stored. *)
Lemma extract_one_success dir announce shot st name ty desc x1 y1 x2 y2 img :
  PIL.crop shot (x1, y1, x2, y2) = Return img ->
  (x1 < x2)%Z -> (y1 < y2)%Z ->
  let e := {| e_name := Some name; e_type := ty;
              e_bounding_box := Some [x1; y1; x2; y2]; e_description := desc |} in
  let file := dir +:+ "/" +:+ safe_name name +:+ ".png" in
  templates (extract_one dir announce shot st e)
  = dict_set (templates st) name
      {| filename := file; bounding_box := [x1; y1; x2; y2];
         type_ := default "unknown" ty; description := default "" desc |} /\
  directory (extract_one dir announce shot st e) = <[file := img]> (directory st) /\
  (announce = false -> printed (extract_one dir announce shot st e) = printed st).
Proof.
  intros Hcrop Hx Hy e file.
  destruct (crop_nonempty shot x1 y1 x2 y2 Hx Hy) as (img' & Hcrop' & _ & Hraster).
  assert (img' = img) as -> by congruence.
  unfold extract_one; simpl. rewrite Hcrop; simpl.
  unfold PIL.save. rewrite Hraster.
  split; [done|]. split; [done|]. by intros ->.
Qed.

Lemma extract_fold_entries dir announce shot elements files name info :
  dict_get (templates (foldl (extract_one dir announce shot)
                         {| templates := []; directory := files; printed := [] |}
                         elements)) name = Some info ->
  exists e x1 y1 x2 y2 img,
    e ∈ elements /\ e_name e = Some name /\
    e_bounding_box e = Some [x1; y1; x2; y2] /\
    bounding_box info = [x1; y1; x2; y2] /\
    filename info = dir +:+ "/" +:+ safe_name name +:+ ".png" /\
    PIL.crop shot (x1, y1, x2, y2) = Return img /\
    shape img = (Z.to_nat (y2 - y1), Z.to_nat (x2 - x1)) /\
    (x1 < x2)%Z /\ (y1 < y2)%Z.
Proof.
  revert info. induction elements as [|e elements IH] using rev_ind; intros info.
  - done.
  - rewrite foldl_app. simpl.
    set (st := foldl _ _ elements) in *.
    assert (dict_get (templates st) name = Some info ->
            exists e0 x1 y1 x2 y2 img,
              e0 ∈ elements ++ [e] /\ e_name e0 = Some name /\
              e_bounding_box e0 = Some [x1; y1; x2; y2] /\
              bounding_box info = [x1; y1; x2; y2] /\
              filename info = dir +:+ "/" +:+ safe_name name +:+ ".png" /\
              PIL.crop shot (x1, y1, x2, y2) = Return img /\
              shape img = (Z.to_nat (y2 - y1), Z.to_nat (x2 - x1)) /\
              (x1 < x2)%Z /\ (y1 < y2)%Z) as Hold.
    { intros Hget. destruct (IH info Hget) as (e0 & x1 & y1 & x2 & y2 & img & Hin & Hrest).
      exists e0, x1, y1, x2, y2, img. split; [|done]. apply elem_of_app. by left. }
    destruct (extract_one_outcome dir announce shot st e)
      as [[_ ->] | [(_ & -> & _) |
          (_ & n & x1 & y1 & x2 & y2 & img & Hn & Hb & Hx & Hy & Hcrop & Hshape
             & _ & _ & -> & _)]];
      [exact Hold | exact Hold |].
    destruct (decide (n = name)) as [->|Hne].
    + rewrite dict_get_set_eq. intros [= <-]. simpl.
      exists e, x1, y1, x2, y2, img. split; [|done].
      apply elem_of_app. right. by apply list_elem_of_singleton.
    + rewrite dict_get_set_ne by done. exact Hold.
Qed.



(** The two elements of the witness, run: one file, holding the raster of
    the second element. *)
Example colliding_names_run :
  let st := extract_templates "templates" Demo.two_copies
              [ {| e_name := Some "Save Icon"; e_type := Some "icon";
                   e_bounding_box := Some [0; 0; 2; 2]%Z; e_description := None |};
                {| e_name := Some "save_icon"; e_type := None;
                   e_bounding_box := Some [1; 0; 3; 2]%Z; e_description := None |} ]
              ∅ in
  map fst (templates st) = ["Save Icon"; "save_icon"] /\
  map_to_list (directory st)
  = [("templates/save_icon.png", [[255; 0]; [0; 255]]%Z)].
Proof. vm_compute. split; reflexivity. Qed.


(** C9, as amended.  Every entry of the mapping [extract_templates] returns
    comes from an element of that name whose box [x1, y1, x2, y2] has
    [x1 < x2] and [y1 < y2]: the raster cut for it has non-zero width and
    height.  The box is recorded as the element gives it and is not compared
    with the size of the screenshot.  An element whose box is empty leaves
    the mapping as it is, and when it has a name its rejection is
    printed; so it is for the element "Bar" of the batch run at the end. *)
Theorem extract_templates_entries_nonempty
    (dir : string) (shot : gray) (elements : list element)
    (files : gmap string gray) (name : string) (info : template_info) :
  dict_get (templates (extract_templates dir shot elements files)) name = Some info ->
  (exists e x1 y1 x2 y2 img,
     e ∈ elements /\ e_name e = Some name /\
     e_bounding_box e = Some [x1; y1; x2; y2] /\
     bounding_box info = [x1; y1; x2; y2] /\
     PIL.crop shot (x1, y1, x2, y2) = Return img /\
     0 < (shape img).1 /\ 0 < (shape img).2) /\
  (forall announce st e x1 y1 x2 y2,
     e_bounding_box e = Some [x1; y1; x2; y2] ->
     (x2 <= x1 \/ y2 <= y1)%Z ->
     templates (extract_one dir announce shot st e) = templates st /\
     (is_Some (e_name e) ->
      exists line, printed (extract_one dir announce shot st e) = printed st ++ [line])) /\
  (let st := extract_templates "templates" [[0; 255; 0; 255]; [255; 0; 255; 0]]%Z
               [ {| e_name := Some "Save Icon"; e_type := Some "icon";
                    e_bounding_box := Some [2; 0; 4; 2]%Z; e_description := None |};
                 {| e_name := Some "Bar"; e_type := None;
                    e_bounding_box := Some [3; 1; 3; 2]%Z; e_description := None |} ]
               ∅ in
   map (fun item => (item.1, bounding_box item.2)) (templates st)
   = [("Save Icon", [2; 0; 4; 2]%Z)] /\
   directory st !! "templates/save_icon.png" = Some [[0; 255]; [255; 0]]%Z /\
   printed st = ["Error extracting template for Bar: SystemError: tile cannot extend outside image"]).
Proof.
  intros Hget. split; [|split]; [| |by vm_compute].
  - destruct (extract_fold_entries dir false shot elements files name info Hget)
      as (e & x1 & y1 & x2 & y2 & img & Hin & Hn & Hb & Hbox & _ & Hcrop & Hshape & Hx & Hy).
    exists e, x1, y1, x2, y2, img. rewrite Hshape. simpl.
    repeat (split; [done|]). lia.
  - intros announce st e x1 y1 x2 y2 Hb Hempty.
    destruct (extract_one_outcome dir announce shot st e)
      as [[Hun ->] | [(_ & Ht & Hp & _) |
          (_ & n & a1 & b1 & a2 & b2 & img & _ & Hb' & Hx & Hy & _)]].
    + split; [done|]. intros [n Hn]. unfold usable in Hun. by rewrite Hb, Hn in Hun.
    + done.
    + rewrite Hb in Hb'. injection Hb' as -> -> -> ->. lia.
Qed.

Lemma extract_templates_entries_nonempty_witness :
  exists e x1 y1 x2 y2 img,
    e ∈ [ {| e_name := Some "Save Icon"; e_type := Some "icon";
             e_bounding_box := Some [2; 0; 4; 2]%Z; e_description := None |};
          {| e_name := Some "Bar"; e_type := None;
             e_bounding_box := Some [3; 1; 3; 2]%Z; e_description := None |} ] /\
    e_name e = Some "Save Icon" /\
    e_bounding_box e = Some [x1; y1; x2; y2] /\
    [2; 0; 4; 2]%Z = [x1; y1; x2; y2] /\
    PIL.crop Demo.two_copies (x1, y1, x2, y2) = Return img /\
    0 < (shape img).1 /\ 0 < (shape img).2.
Proof.
  apply (extract_templates_entries_nonempty "templates" Demo.two_copies
           [ {| e_name := Some "Save Icon"; e_type := Some "icon";
                e_bounding_box := Some [2; 0; 4; 2]%Z; e_description := None |};
             {| e_name := Some "Bar"; e_type := None;
                e_bounding_box := Some [3; 1; 3; 2]%Z; e_description := None |} ]
           ∅ "Save Icon"
           {| filename := "templates/save_icon.png"; bounding_box := [2; 0; 4; 2]%Z;
              type_ := "icon"; description := "" |}).
  vm_compute. reflexivity.
Defined.

(** The batch of the witness, run: the element with the empty box is
    reported and gets no entry. *)
Example empty_box_run :
  let st := extract_templates "templates" Demo.two_copies
              [ {| e_name := Some "Save Icon"; e_type := Some "icon";
                   e_bounding_box := Some [2; 0; 4; 2]%Z; e_description := None |};
                {| e_name := Some "Bar"; e_type := None;
                   e_bounding_box := Some [3; 1; 3; 2]%Z; e_description := None |} ]
              ∅ in
  map fst (templates st) = ["Save Icon"] /\
  directory st !! "templates/save_icon.png" = Some Demo.icon /\
  printed st = ["Error extracting template for Bar: SystemError: tile cannot extend outside image"].
Proof. vm_compute. repeat split; reflexivity. Qed.

(** C9 as the spec states it fails: on the 2 x 4 screenshot [two_copies], an
    element with the box (100, 100, 140, 140) gets an entry, and the box
    recorded does not lie within the screenshot. *)
Lemma entry_recorded_outside_screenshot :
  exists info,
    dict_get (templates (extract_templates "templates" Demo.two_copies
                [ {| e_name := Some "Save Icon"; e_type := Some "icon";
                     e_bounding_box := Some [100; 100; 140; 140]%Z;
                     e_description := None |} ] ∅)) "Save Icon" = Some info /\
    shape Demo.two_copies = (2, 4) /\
    ~ within Demo.two_copies (bounding_box info).
Proof.
  eexists. split; [vm_compute; reflexivity|]. split; [reflexivity|].
  vm_compute. intros (_ & H & _). by apply H.
Qed.

(** ** The translator's reply *)

Lemma find_from_range c s : forall i,
  (0 <= i)%Z -> find_from c s i = (-1)%Z \/ (i <= find_from c s i)%Z.
Proof.
  induction s as [|c' rest IH]; intros i Hi; simpl; [by left|].
  destruct (decide (c' = c)); [right; lia|].
  destruct (IH (i + 1)%Z) as [H | H]; [lia | by left | right; lia].
Qed.

Lemma rfind_from_range c s : forall i,
  (0 <= i)%Z -> rfind_from c s i = (-1)%Z \/ (i <= rfind_from c s i)%Z.
Proof.
  induction s as [|c' rest IH]; intros i Hi; simpl; [by left|].
  destruct (decide (rfind_from c rest (i + 1) = (-1)%Z)) as [Hnone | Hsome].
  - destruct (decide (c' = c)); [right; lia | by left].
  - destruct (IH (i + 1)%Z) as [H | H]; [lia | done | right; lia].
Qed.

Lemma payload_none text :
  payload text = None <-> find "{" text = (-1)%Z.
Proof.
  unfold payload.
  assert (rfind "}" text + 1 <> -1)%Z as Hend.
  { destruct (rfind_from_range "}" text 0) as [H | H]; unfold rfind; lia. }
  rewrite (bool_decide_eq_true_2 _ Hend), andb_true_r.
  destruct (decide (find "{" text = (-1)%Z)) as [Heq | Hne].
  - rewrite bool_decide_eq_false_2 by (intros H; by apply H). done.
  - rewrite bool_decide_eq_true_2 by done. split; [done | by intros ?].
Qed.

(** C6, as amended.  [process_user_request] hands to [json.loads] the text
    from the first '{' to the last '}' of the reply.  When the reply has no
    '{', and when that text is not valid JSON, the result is an object with
    the key "error"; no exception leaves the function.  Otherwise the result
    is the value parsed. *)
Theorem process_user_request_error_on_bad_payload
    (json_loads : string -> outcome json) (text : string) :
  let result := process_user_request json_loads text in
  (payload text = None <-> find "{" text = (-1)%Z) /\
  (forall json_str, payload text = Some json_str ->
     json_str = slice text (find "{" text) (rfind "}" text + 1)) /\
  (payload text = None ->
     result = (JObject [("error", JString "Could not parse response")], []) /\
     has_error_key result.1 = true) /\
  (forall json_str e,
     payload text = Some json_str -> json_loads json_str = Raise e ->
     result = (JObject [("error", JString ("Parse error: " +:+ e))],
               ["Error parsing action: " +:+ e]) /\
     has_error_key result.1 = true) /\
  (forall json_str action,
     payload text = Some json_str -> json_loads json_str = Return action ->
     result = (action, [])).
Proof.
  intros result. subst result. unfold process_user_request.
  split; [apply payload_none|]. split.
  - unfold payload. intros json_str.
    destruct (_ && _); [|done]. by intros [= <-].
  - split; [|split].
    + intros ->. simpl. done.
    + intros json_str e -> ->. simpl. done.
    + intros json_str action -> ->. simpl. done.
Qed.

(** C6 as the spec states it fails: on a reply with two objects the text
    handed to [json.loads] runs from the first '{' to the last '}', across
    both objects, and is not the first balanced substring. *)
Lemma payload_is_not_first_balanced :
  payload Demo.two_objects_reply = Some (drop_chars 6 Demo.two_objects_reply) /\
  first_balanced_object Demo.two_objects_reply
  = Some (take_chars 19 (drop_chars 6 Demo.two_objects_reply)) /\
  payload Demo.two_objects_reply <> first_balanced_object Demo.two_objects_reply.
Proof.
  split; [vm_compute; reflexivity|]. split; [vm_compute; reflexivity|].
  vm_compute. discriminate.
Qed.

(** ** The action executor *)

Section ExecutorFacts.

Variable clock : list call -> Q.
Variable fails : list call -> call -> option string.

Lemma all_ok_app tr new1 new2 :
  all_ok fails tr (new1 ++ new2) <-> all_ok fails tr new1 /\ all_ok fails (tr ++ new1) new2.
Proof.
  clear clock.
  revert tr. induction new1 as [|c new1 IH]; intros tr; simpl.
  - rewrite app_nil_r. tauto.
  - rewrite IH, <- app_assoc. simpl. tauto.
Qed.

Lemma sleep_remainder_ok (current_time last : Q) :
  Qlt_bool (current_time - last) (1 # 2) = true ->
  Qlt_bool ((1 # 2) - (current_time - last)) 0 = false.
Proof.
  unfold Qlt_bool. intros H.
  apply negb_true_iff in H. apply negb_false_iff.
  apply Qle_bool_iff.
  assert (~ (1 # 2 <= current_time - last)%Q) as Hlt.
  { intros Hle. apply Qle_bool_iff in Hle. congruence. }
  lra.
Qed.

(** The rate limit raises nothing and dispatches nothing. *)
Lemma rate_limit_ok self tr :
  exists self' new,
    rate_limit clock fails self tr = (Return self', tr ++ new) /\
    all_ok fails tr new /\
    Forall (fun c => dispatches c = false) new /\
    action_history self' = action_history self.
Proof.
  unfold rate_limit.
  destruct (decide (safety_level self = "high")) as [Hhigh | Hlow].
  2: { exists self, []. rewrite app_nil_r. by repeat split. }
  unfold mbind, M_bind, time_time, mret, M_ret, perform; simpl.
  destruct (Qlt_bool (clock tr - last_action_time self) (1 # 2)) eqn:Hsoon; simpl.
  - rewrite (sleep_remainder_ok _ _ Hsoon).
    destruct (30 <? S (actions_per_minute self))%nat; simpl.
    + eexists _, [Time; Sleep _; Time; Print _; Sleep 2].
      rewrite <- !app_assoc. simpl. split; [reflexivity|]. split.
      * simpl. rewrite (sleep_remainder_ok _ _ Hsoon). by repeat split.
      * split; [by repeat constructor | done].
    + eexists _, [Time; Sleep _; Time].
      rewrite <- !app_assoc. simpl. split; [reflexivity|]. split.
      * simpl. rewrite (sleep_remainder_ok _ _ Hsoon). by repeat split.
      * split; [by repeat constructor | done].
  - destruct (30 <? S (actions_per_minute self))%nat; simpl.
    + eexists _, [Time; Time; Print _; Sleep 2].
      rewrite <- !app_assoc. simpl. split; [reflexivity|]. split.
      * simpl. by repeat split.
      * split; [by repeat constructor | done].
    + eexists _, [Time; Time].
      rewrite <- !app_assoc. simpl. split; [reflexivity|]. split.
      * simpl. by repeat split.
      * split; [by repeat constructor | done].
Qed.

Ltac run_calls :=
  unfold mbind, M_bind, mret, M_ret, perform; simpl;
  repeat match goal with
         | |- context [fails ?t ?c] => destruct (fails t c) eqn:?; simpl
         | |- context [Qlt_bool ?a ?b] => destruct (Qlt_bool a b) eqn:?; simpl
         end.

Ltac not_refused :=
  let H := fresh in
  intros H; exfalso;
  destruct H as [[H ?] | [[H ?] | [[H ?] | H]]];
  first [ discriminate | by vm_compute in H | congruence ].

Ltac no_call_raised :=
  intros _; simpl; repeat split;
  first [ assumption | match goal with H : _ = _ |- _ => by rewrite H end ].

Ltac close_trace :=
  first [ exists []; rewrite app_nil_r; split; [reflexivity|]
        | eexists; split; [rewrite <- ?app_assoc; simpl; reflexivity|] ];
  simpl; rewrite <- ?app_assoc; simpl;
  split; [first [ discriminate | no_call_raised | done ]|];
  split; [first [ discriminate | done ]|];
  first [ done | not_refused ].

(** The body of the [try]: it returns [True] only when no call raised, it
    returns [False] only without a call, and that is what it does when the
    action is refused. *)
Lemma dispatch_spec action_type location kw tr :
  exists new,
    (dispatch fails action_type location kw tr).2 = tr ++ new /\
    ((dispatch fails action_type location kw tr).1 = Return true -> all_ok fails tr new) /\
    ((dispatch fails action_type location kw tr).1 = Return false -> new = []) /\
    (refused action_type location kw ->
     (dispatch fails action_type location kw tr).1 = Return false).
Proof.
  clear clock. unfold dispatch.
  repeat (case_decide; [subst action_type|]).
  - destruct location as [[x y]|]; run_calls; close_trace.
  - destruct location as [[x y]|]; run_calls; close_trace.
  - destruct location as [[x y]|]; run_calls; close_trace.
  - destruct location as [[x y]|], (kw_end_location kw) as [[ex ey]|] eqn:Hend;
      run_calls; close_trace.
  - destruct location as [[x y]|]; run_calls; close_trace.
  - destruct (default [] (kw_keys kw)) as [|k ks] eqn:Hkeys; run_calls; close_trace.
  - destruct location as [[x y]|]; [|run_calls; close_trace].
    repeat case_decide; run_calls; close_trace.
  - run_calls; close_trace.
  - run_calls; close_trace.
  - run_calls; close_trace.
  - run_calls. exists []. rewrite app_nil_r. by repeat split.
Qed.

(** After the [try]: a boolean, whatever the calls did. *)
Lemma execute_action_spec self action_type target location kw tr :
  exists b self' new,
    execute_action clock fails self action_type target location kw tr
    = (Return (b, self'), tr ++ new) /\
    (b = true -> all_ok fails tr new) /\
    (refused action_type location kw ->
     b = false /\ Forall (fun c => dispatches c = false) new) /\
    length (action_history self') = S (length (action_history self)).
Proof.
  unfold execute_action.
  destruct (rate_limit_ok self tr) as (self1 & new1 & Hrate & Hok1 & Hquiet1 & Hhist).
  unfold mbind at 1, M_bind at 1. rewrite Hrate.
  unfold mbind at 1, M_bind at 1, time_time.
  destruct (dispatch_spec action_type location kw ((tr ++ new1) ++ [Time]))
    as (new2 & Htrace & Htrue & Hfalse & Hrefused).
  unfold mbind, M_bind, catch, mret, M_ret.
  destruct (dispatch fails action_type location kw ((tr ++ new1) ++ [Time]))
    as [[b|e] tr2] eqn:Hdispatch; simpl in *; subst tr2.
  - eexists b, _, (new1 ++ [Time] ++ new2).
    split; [rewrite <- !app_assoc; reflexivity|]. split; [|split].
    + intros ->. apply all_ok_app. split; [done|].
      apply (all_ok_app _ [Time]). split; [done|]. by apply Htrue.
    + intros Href. specialize (Hrefused Href). injection Hrefused as ->.
      split; [done|]. rewrite (Hfalse eq_refl), app_nil_r.
      apply Forall_app. split; [done | by repeat constructor].
    + simpl. rewrite length_app, Hhist. simpl. lia.
  - eexists false, _, (new1 ++ [Time] ++ new2 ++ [Print ("Error executing action: " +:+ e)]).
    unfold perform; simpl. split; [rewrite <- !app_assoc; reflexivity|].
    split; [done|]. split.
    + intros Href. by specialize (Hrefused Href).
    + simpl. rewrite length_app, Hhist. simpl. lia.
Qed.

End ExecutorFacts.

(** C10.  [execute_action] returns a boolean and raises nothing: it returns
    [True] only when none of the calls it made raised, so an exception raised
    while dispatching yields [False]; and when a location is needed and there
    is none, when a drag has no end, when a hotkey has no keys, or when the
    action kind is not known, it returns [False] and dispatches nothing. *)
Theorem execute_action_returns_bool
    (clock : list call -> Q) (fails : list call -> call -> option string)
    (self : executor) (action_type : string) (target : option string)
    (location : option (Z * Z)) (kw : kwargs) (tr : list call) :
  exists (b : bool) (self' : executor) (new : list call),
    execute_action clock fails self action_type target location kw tr
    = (Return (b, self'), tr ++ new) /\
    (b = true -> all_ok fails tr new) /\
    ((needs_location action_type = true /\ location = None) \/
     (action_type = "drag" /\ kw_end_location kw = None) \/
     (action_type = "hotkey" /\ default [] (kw_keys kw) = []) \/
     recognized action_type = false ->
     b = false /\ Forall (fun c => dispatches c = false) new).
Proof.
  destruct (execute_action_spec clock fails self action_type target location kw tr)
    as (b & self' & new & Hrun & Hok & Hrefused & _).
  exists b, self', new. split; [done|]. split; [done|]. exact Hrefused.
Qed.

(** ** The similarity check *)

Lemma window_length img y x h w : length (Cv2.window img y x h w) <= h * w.
Proof.
  unfold Cv2.window.
  assert (forall rows : list (list Z), length (concat (map (fun row => take w (drop x row)) rows)) <= length rows * w) as H.
  { induction rows as [|r rows IH]; simpl; [lia|].
    rewrite length_app, length_take. lia. }
  etransitivity; [apply H|]. rewrite length_take. nia.
Qed.

Lemma variance_nonneg (s q : Z) :
  (s * s <= 49 * q)%Z ->
  (0 <= inject_Z q / 49 - (inject_Z s / 49) * (inject_Z s / 49))%Q.
Proof.
  intros H.
  assert (inject_Z q / 49 - (inject_Z s / 49) * (inject_Z s / 49)
          == inject_Z (49 * q - s * s) * (1 # 2401))%Q as ->.
  { unfold Z.sub. rewrite inject_Z_plus, inject_Z_opp, !inject_Z_mult. field. }
  apply Qmult_le_0_compat; [|done].
  change 0%Q with (inject_Z 0). rewrite <- Zle_Qle. lia.
Qed.

Lemma local_ssim_same X : length X <= 49 -> (Skimage.local_ssim X X == 1)%Q.
Proof.
  intros Hlen. unfold Skimage.local_ssim.
  destruct (sum_sq_le X) as [Hcs Hpos].
  set (s := Cv2.sum X) in *. set (q := Cv2.dot X X) in *.
  assert (s * s <= 49 * q)%Z as Hcs' by nia.
  pose proof (variance_nonneg s q Hcs') as Hvar.
  set (u := (inject_Z s / 49)%Q) in *.
  set (v := (inject_Z q / 49 - u * u)%Q) in *.
  assert (0 <= u * u)%Q as Hsq by nra.
  assert (0 < Skimage.C1)%Q as HC1 by reflexivity.
  assert (0 < Skimage.C2)%Q as HC2 by reflexivity.
  field. split; nra.
Qed.

Lemma sum_ones (qs : list Q) :
  Forall (fun q => q == 1)%Q qs ->
  (foldr Qplus 0 qs == inject_Z (Z.of_nat (length qs)))%Q.
Proof.
  induction 1 as [|q qs Hq _ IH]; cbn [foldr length]; [reflexivity|].
  rewrite Hq, IH. rewrite Nat2Z.inj_succ. unfold Z.succ. rewrite inject_Z_plus. ring.
Qed.

Lemma mean_ones (qs : list Q) :
  qs <> [] -> Forall (fun q => q == 1)%Q qs -> (Skimage.mean qs == 1)%Q.
Proof.
  intros Hne Hall. unfold Skimage.mean. rewrite (sum_ones qs Hall).
  field. destruct qs; [done|]. simpl length. rewrite Nat2Z.inj_succ.
  intros H. change 0%Q with (inject_Z 0) in H.
  apply (proj1 (inject_Z_injective _ _)) in H. lia.
Qed.

Lemma float_of_one (q : Q) : (q == 1)%Q -> Skimage.float_of_Q q = 1%float.
Proof.
  intros H. unfold Skimage.float_of_Q.
  rewrite (Qred_complete q 1 H). reflexivity.
Qed.

Lemma local_values_same img :
  Forall (fun q => q == 1)%Q (Skimage.local_values img img).
Proof.
  unfold Skimage.local_values. destruct (shape img) as [h w].
  apply Forall_flat_map, Forall_forall. intros y _.
  apply Forall_map, Forall_forall. intros x _. simpl.
  apply local_ssim_same. apply (window_length img y x 7 7).
Qed.

Lemma local_values_nonempty img :
  7 <= (shape img).1 -> 7 <= (shape img).2 -> Skimage.local_values img img <> [].
Proof.
  unfold Skimage.local_values. destruct (shape img) as [h w]; simpl.
  intros Hh Hw.
  replace (h - 6) with (S (h - 7)) by lia. replace (w - 6) with (S (w - 7)) by lia.
  simpl. discriminate.
Qed.

Lemma ssim_same img :
  7 <= (shape img).1 -> 7 <= (shape img).2 ->
  Skimage.structural_similarity img img = Return 1%float.
Proof.
  intros Hh Hw. unfold Skimage.structural_similarity.
  destruct (shape img) as [h w] eqn:Hshape; simpl in Hh, Hw.
  replace ((h <? 7)%nat || (w <? 7)%nat) with false.
  2: { symmetry. apply orb_false_iff. split; apply Nat.ltb_ge; lia. }
  f_equal. apply float_of_one, mean_ones.
  - apply local_values_nonempty; rewrite Hshape; simpl; lia.
  - apply local_values_same.
Qed.




(** ** The action executor, run *)

(** A click whose pyautogui call raises (the fail-safe corner): the error is
    printed and the result is [False]. *)
Example click_that_raises :
  let fails := fun (_ : list call) (c : call) =>
                 match c with
                 | Click _ _ => Some "FailSafeException"
                 | _ => None
                 end in
  let run := execute_action (fun _ => 0%Q) fails Demo.idle_executor "click"
               (Some "Save Icon") (Some (140, 120)%Z) Demo.no_kwargs [] in
  (exists self', run.1 = Return (false, self')) /\
  run.2 = [Time; Click 140 120;
           Print "Error executing action: FailSafeException"].
Proof. split; [eexists|]; reflexivity. Qed.

(** A drag without an end: [False], and only the clock was read. *)
Example drag_without_end :
  let run := execute_action (fun _ => 0%Q) (fun _ _ => None) Demo.idle_executor "drag"
               None (Some (1, 2)%Z) Demo.no_kwargs [] in
  (exists self', run.1 = Return (false, self')) /\ run.2 = [Time].
Proof. split; [eexists|]; reflexivity. Qed.

(** ** The action executor, call by call *)

Section ExecutorTraces.

Variable clock : list call -> Q.
Variable fails : list call -> call -> option string.

Local Abbreviation run_shape := (run_shape fails).
Local Abbreviation run_returned := (run_returned fails).
Local Abbreviation run_raised := (run_raised fails).
Local Abbreviation pause_before := (pause_before clock).

Lemma all_ok_snoc tr pre c :
  all_ok fails tr pre -> call_error fails (tr ++ pre) c = None ->
  all_ok fails tr (pre ++ [c]).
Proof.
  clear clock. revert tr. induction pre as [|c0 pre IH]; intros tr; simpl.
  - rewrite app_nil_r. done.
  - intros [H0 Hrest] Hc. split; [done|]. apply IH; [done|].
    by rewrite <- app_assoc.
Qed.

Lemma perform_shape c tr :
  exists o, perform fails c tr = (o, tr ++ [c]) /\ run_shape tr o [c].
Proof.
  clear clock. unfold perform.
  destruct (call_error fails tr c) as [e|] eqn:Hc.
  - eexists. split; [done|]. apply (run_raised tr [] c e); [done|].
    by rewrite app_nil_r.
  - eexists. split; [done|]. apply run_returned. simpl. done.
Qed.


Ltac run_calls :=
  unfold mbind, M_bind, mret, M_ret, perform; simpl;
  repeat match goal with
         | |- context [fails ?t ?c] => destruct (fails t c) eqn:?; simpl
         | |- context [Qlt_bool ?a ?b] => destruct (Qlt_bool a b) eqn:?; simpl
         end.

Ltac is_refused :=
  first [ left; split; [by vm_compute | done]
        | right; left; split; done
        | right; right; left; split; done
        | right; right; right; by vm_compute ].

Ltac isnt_refused :=
  let H := fresh in
  intros H;
  destruct H as [[H ?] | [[H ?] | [[H ?] | H]]];
  first [ discriminate | by vm_compute in H | congruence ].

Ltac shape_done :=
  simpl; rewrite <- ?app_assoc; simpl;
  first [ done | by rewrite ?app_nil_r
        | match goal with H : _ = _ |- _ => by rewrite H end ].

Ltac returned_shape news :=
  eexists _, news; rewrite <- ?app_assoc; simpl; rewrite ?app_nil_r;
  split; [reflexivity|];
  split; [apply run_returned; simpl; rewrite <- ?app_assoc; simpl;
          repeat split; shape_done|].

Ltac close_shape_goal :=
  first [ eexists _, []; rewrite app_nil_r; split; [reflexivity|]
        | eexists _, _; split; [rewrite <- ?app_assoc; simpl; reflexivity|] ];
  split;
  [ first [ apply run_returned; simpl; rewrite <- ?app_assoc; simpl;
            repeat split; shape_done
          | apply (run_raised _ [] _ _); [done | shape_done]
          | apply (run_raised _ [_] _ _);
            [simpl; repeat split; shape_done | shape_done]
          | apply (run_raised _ [_; _] _ _);
            [simpl; repeat split; shape_done | shape_done] ]
  | split; [ first [ discriminate | intros _; isnt_refused ]
           | first [ discriminate | intros _; split; [is_refused | done] ] ] ].

Ltac close_shape := lazymatch goal with |- _ => close_shape_goal end.

Lemma dispatch_shape action_type location kw tr :
  exists o new,
    dispatch fails action_type location kw tr = (o, tr ++ new) /\
    run_shape tr o new /\
    (o = Return true -> ~ refused action_type location kw) /\
    (o = Return false -> refused action_type location kw /\ new = []).
Proof.
  clear clock. unfold dispatch.
  repeat (case_decide; [subst action_type|]).
  - destruct location as [[x y]|]; run_calls; close_shape.
  - destruct location as [[x y]|]; run_calls; close_shape.
  - destruct location as [[x y]|]; run_calls; close_shape.
  - destruct location as [[x y]|], (kw_end_location kw) as [[ex ey]|] eqn:Hend;
      run_calls; close_shape.
  - destruct location as [[x y]|]; run_calls; close_shape.
  - destruct (default [] (kw_keys kw)) as [|k ks] eqn:Hkeys; run_calls; close_shape.
  - destruct location as [[x y]|]; [|run_calls; close_shape].
    repeat case_decide; run_calls; close_shape.
  - run_calls; close_shape.
  - run_calls; close_shape.
  - run_calls; close_shape.
  - exists (Return false), []. rewrite app_nil_r. split; [reflexivity|].
    split; [by apply run_returned|]. split; [done|]. intros _. split; [|done].
    right; right; right. unfold recognized. apply bool_decide_eq_false_2.
    intros Hin. repeat (apply elem_of_cons in Hin as [?|Hin]; [done|]).
    by apply elem_of_nil in Hin.
Qed.


Lemma rate_limit_high self tr :
  safety_level self = "high" ->
  rate_limit clock fails self tr
  = (Return {| safety_level := safety_level self;
               last_action_time := clock (tr ++ Time :: pause_before self tr);
               actions_per_minute :=
                 (if (30 <? S (actions_per_minute self))%nat then 0
                  else S (actions_per_minute self));
               action_history := action_history self |},
     tr ++ Time :: pause_before self tr ++ Time :: slow_down self).
Proof.
  intros Hhigh. unfold rate_limit, pause_before, slow_down.
  rewrite decide_True by done.
  unfold mbind, M_bind, time_time, mret, M_ret, perform; simpl.
  destruct (Qlt_bool (clock tr - last_action_time self) (1 # 2)) eqn:Hsoon; simpl.
  - rewrite (sleep_remainder_ok _ _ Hsoon).
    destruct (30 <? S (actions_per_minute self))%nat; simpl;
      rewrite <- !app_assoc; reflexivity.
  - destruct (30 <? S (actions_per_minute self))%nat; simpl;
      rewrite <- !app_assoc; reflexivity.
Qed.

Lemma rate_limit_other self tr :
  safety_level self <> "high" ->
  rate_limit clock fails self tr = (Return self, tr).
Proof. intros Hlow. unfold rate_limit. by rewrite decide_False. Qed.

Lemma rate_limit_keeps self tr self1 tr1 :
  rate_limit clock fails self tr = (Return self1, tr1) ->
  safety_level self1 = safety_level self /\
  action_history self1 = action_history self.
Proof.
  destruct (decide (safety_level self = "high")) as [Hhigh | Hlow].
  - rewrite (rate_limit_high self tr Hhigh). by intros [= <- _].
  - rewrite (rate_limit_other self tr Hlow). by intros [= <- _].
Qed.

(** [execute_action], step by step: the rate limit, the record, the
    dispatch and its handler. *)
Lemma execute_action_run self action_type target location kw tr :
  exists self1 new1 o new2,
    rate_limit clock fails self tr = (Return self1, tr ++ new1) /\
    all_ok fails tr new1 /\
    Forall (fun c => dispatches c = false) new1 /\
    dispatch fails action_type location kw ((tr ++ new1) ++ [Time])
    = (o, ((tr ++ new1) ++ [Time]) ++ new2) /\
    run_shape ((tr ++ new1) ++ [Time]) o new2 /\
    (o = Return true -> ~ refused action_type location kw) /\
    (o = Return false -> refused action_type location kw /\ new2 = []) /\
    execute_action clock fails self action_type target location kw tr
    = (Return (match o with Return b => b | Raise _ => false end,
               {| safety_level := safety_level self1;
                  last_action_time := last_action_time self1;
                  actions_per_minute := actions_per_minute self1;
                  action_history :=
                    action_history self1 ++
                    [{| r_type := action_type; r_target := target;
                        r_location := location; r_params := kw;
                        r_timestamp := clock (tr ++ new1) |}] |}),
       tr ++ new1 ++ [Time] ++ new2 ++
       match o with
       | Return _ => []
       | Raise e => [Print ("Error executing action: " +:+ e)]
       end).
Proof.
  destruct (rate_limit_ok clock fails self tr) as (self1 & new1 & Hrate & Hok1 & Hquiet1 & _).
  destruct (dispatch_shape action_type location kw ((tr ++ new1) ++ [Time]))
    as (o & new2 & Hdispatch & Hshape & Htrue & Hfalse).
  exists self1, new1, o, new2.
  repeat (split; [done|]).
  unfold execute_action.
  unfold mbind at 1, M_bind at 1. rewrite Hrate.
  unfold mbind at 1, M_bind at 1, time_time.
  unfold mbind, M_bind, catch, mret, M_ret. rewrite Hdispatch.
  destruct o as [b|e]; simpl.
  - rewrite app_nil_r, <- !app_assoc. reflexivity.
  - unfold perform; simpl. rewrite <- !app_assoc. reflexivity.
Qed.

End ExecutorTraces.

(** X1.  Every call of [execute_action] appends one record to the history,
    with the kind, target, location and parameters it was given, stamped
    with the clock read after the rate limit and before anything is
    dispatched; this holds for refused and failing actions too, and the
    earlier records and the safety level are left as they were. *)
Theorem execute_action_records_every_request
    (clock : list call -> Q) (fails : list call -> call -> option string)
    (self : executor) (action_type : string) (target : option string)
    (location : option (Z * Z)) (kw : kwargs) (tr : list call) :
  exists (b : bool) (self' : executor) (pre post : list call),
    execute_action clock fails self action_type target location kw tr
    = (Return (b, self'), tr ++ pre ++ Time :: post) /\
    Forall (fun c => dispatches c = false) pre /\
    action_history self'
    = action_history self ++
      [{| r_type := action_type; r_target := target; r_location := location;
          r_params := kw; r_timestamp := clock (tr ++ pre) |}] /\
    safety_level self' = safety_level self.
Proof.
  destruct (execute_action_run clock fails self action_type target location kw tr)
    as (self1 & new1 & o & new2 & Hrate & _ & Hquiet & _ & _ & _ & _ & Hrun).
  destruct (rate_limit_keeps clock fails _ _ _ _ Hrate) as [Hlevel Hhist].
  eexists _, _, new1, _. split; [exact Hrun|].
  split; [done|]. simpl. by rewrite Hhist, Hlevel.
Qed.

(** X2.  The boolean [execute_action] returns is decided as follows.  When
    no call raised, it is [True] exactly when the request is not refused
    (a location is there when one is needed, a drag has its end, a hotkey
    has keys, the kind is known).  Otherwise exactly one call raised: it is
    the last call made before the error is printed, nothing is dispatched
    after it, and the result is [False]. *)
Theorem execute_action_result_decided
    (clock : list call -> Q) (fails : list call -> call -> option string)
    (self : executor) (action_type : string) (target : option string)
    (location : option (Z * Z)) (kw : kwargs) (tr : list call) :
  exists (b : bool) (self' : executor) (new : list call),
    execute_action clock fails self action_type target location kw tr
    = (Return (b, self'), tr ++ new) /\
    ((all_ok fails tr new /\
      (b = true <-> ~ refused action_type location kw)) \/
     (exists pre c e,
        new = pre ++ [c; Print ("Error executing action: " +:+ e)] /\
        all_ok fails tr pre /\
        call_error fails (tr ++ pre) c = Some e /\
        b = false)).
Proof.
  destruct (execute_action_run clock fails self action_type target location kw tr)
    as (self1 & new1 & o & new2 & _ & Hok1 & _ & _ & Hshape & Htrue & Hfalse & Hrun).
  eexists _, _, _. split; [exact Hrun|].
  inversion Hshape as [b new Hok2 | pre c e Hok2 Hc]; subst.
  - left. rewrite app_nil_r. split.
    + apply all_ok_app. split; [done|].
      apply (all_ok_app fails _ [Time]). split; [done | exact Hok2].
    + destruct b; split; try done.
      * intros _. by apply Htrue.
      * intros Hnot. exfalso. apply Hnot. by apply Hfalse.
  - right. exists (new1 ++ [Time] ++ pre), c, e.
    split; [by rewrite <- !app_assoc|]. split; [|split; [|done]].
    + apply all_ok_app. split; [done|].
      apply (all_ok_app fails _ [Time]). split; [done | exact Hok2].
    + rewrite <- Hc. f_equal. by rewrite <- !app_assoc.
Qed.


(** X3.  Under the safety level "high", [execute_action] first reads the
    clock; when less than half a second has passed since the last action it
    sleeps for the remainder, a positive length; it then reads the clock
    again and keeps that reading as the time of the last action.  The
    counter goes up by one, and when it passes 30 the call prints a
    warning, sleeps two seconds and resets the counter, however much time
    the 31 actions took; so the counter is at most 30 after every call. *)
Theorem execute_action_rate_limited
    (clock : list call -> Q) (fails : list call -> call -> option string)
    (self : executor) (action_type : string) (target : option string)
    (location : option (Z * Z)) (kw : kwargs) (tr : list call) :
  safety_level self = "high" ->
  let elapsed := (clock tr - last_action_time self)%Q in
  let pause := if Qlt_bool elapsed (1 # 2) then [Sleep ((1 # 2) - elapsed)] else [] in
  let count := S (actions_per_minute self) in
  exists (b : bool) (self' : executor) (rest : list call),
    execute_action clock fails self action_type target location kw tr
    = (Return (b, self'), tr ++ Time :: pause ++ Time :: rest) /\
    (Qlt_bool elapsed (1 # 2) = true -> (0 < (1 # 2) - elapsed)%Q) /\
    last_action_time self' = clock (tr ++ Time :: pause) /\
    actions_per_minute self' = (if (30 <? count)%nat then 0 else count) /\
    actions_per_minute self' <= 30 /\
    ((30 < count)%nat ->
     exists rest',
       rest = Print "Too many actions! Slowing down for safety..."
              :: Sleep 2 :: Time :: rest').
Proof.
  intros Hhigh elapsed pause count.
  destruct (execute_action_run clock fails self action_type target location kw tr)
    as (self1 & new1 & o & new2 & Hrate & _ & _ & _ & _ & _ & _ & Hrun).
  rewrite (rate_limit_high clock fails self tr Hhigh) in Hrate.
  injection Hrate as <- Hnew1. apply app_inv_head in Hnew1. subst new1.
  fold elapsed in Hrun. unfold pause_before in Hrun. fold elapsed pause count in Hrun.
  eexists _, _, _. split.
  { rewrite Hrun. f_equal. f_equal. simpl. rewrite <- !app_assoc. simpl. reflexivity. }
  simpl. split; [|split; [done|split; [done|split]]].
  - unfold Qlt_bool. intros Hsoon. apply negb_true_iff in Hsoon.
    assert (~ (1 # 2 <= elapsed)%Q) as Hlt.
    { intros Hle. apply Qle_bool_iff in Hle. congruence. }
    lra.
  - destruct (30 <? count)%nat eqn:Hc; [lia|]. apply Nat.ltb_ge in Hc. lia.
  - intros Hmany. apply Nat.ltb_lt in Hmany.
    unfold slow_down. fold count. rewrite Hmany. simpl. eexists. reflexivity.
Qed.

Lemma execute_action_rate_limited_witness :
  exists (b : bool) (self' : executor) (rest : list call),
    execute_action (fun tr => inject_Z (Z.of_nat (length tr)) / 10)%Q (fun _ _ => None)
      {| safety_level := "high"; last_action_time := 0; actions_per_minute := 30;
         action_history := [] |}
      "click" None (Some (140, 120)%Z) Demo.no_kwargs []
    = (Return (b, self'), [] ++ Time :: [Sleep ((1 # 2) - (0 / 10 - 0))%Q] ++ Time :: rest) /\
    (Qlt_bool (0 / 10 - 0)%Q (1 # 2) = true -> (0 < (1 # 2) - (0 / 10 - 0))%Q) /\
    last_action_time self' = (inject_Z 2 / 10)%Q /\
    actions_per_minute self' = 0 /\
    actions_per_minute self' <= 30 /\
    (30 < 31 ->
     exists rest',
       rest = Print "Too many actions! Slowing down for safety..."
              :: Sleep 2 :: Time :: rest').
Proof.
  apply (execute_action_rate_limited
           (fun tr => inject_Z (Z.of_nat (length tr)) / 10)%Q (fun _ _ => None)
           {| safety_level := "high"; last_action_time := 0; actions_per_minute := 30;
              action_history := [] |}
           "click" None (Some (140, 120)%Z) Demo.no_kwargs []).
  reflexivity.
Defined.

(** X4.  Every safety level other than "high" ("medium", "low", any other
    string) is not rate limited: the first call is the clock read that
    stamps the record, what follows is the dispatch alone, and neither the
    counter nor the time of the last action changes. *)
Theorem execute_action_other_levels_unthrottled
    (clock : list call -> Q) (fails : list call -> call -> option string)
    (self : executor) (action_type : string) (target : option string)
    (location : option (Z * Z)) (kw : kwargs) (tr : list call) :
  safety_level self <> "high" ->
  exists (b : bool) (self' : executor) (o : outcome bool) (dispatched : list call),
    dispatch fails action_type location kw (tr ++ [Time])
    = (o, (tr ++ [Time]) ++ dispatched) /\
    execute_action clock fails self action_type target location kw tr
    = (Return (b, self'),
       tr ++ Time :: dispatched ++
       match o with
       | Return _ => []
       | Raise e => [Print ("Error executing action: " +:+ e)]
       end) /\
    actions_per_minute self' = actions_per_minute self /\
    last_action_time self' = last_action_time self.
Proof.
  intros Hlow.
  destruct (execute_action_run clock fails self action_type target location kw tr)
    as (self1 & new1 & o & new2 & Hrate & _ & _ & Hdispatch & _ & _ & _ & Hrun).
  rewrite (rate_limit_other clock fails self tr Hlow) in Hrate.
  injection Hrate as <- Hnew1.
  rewrite <- (app_nil_r tr) in Hnew1 at 1. apply app_inv_head in Hnew1. subst new1.
  rewrite app_nil_r in Hdispatch. simpl in Hrun.
  eexists _, _, o, new2. split; [exact Hdispatch|]. split; [exact Hrun|]. done.
Qed.

Lemma execute_action_other_levels_unthrottled_witness :
  exists (b : bool) (self' : executor) (o : outcome bool) (dispatched : list call),
    dispatch (fun _ _ => None) "click" (Some (140, 120)%Z) Demo.no_kwargs ([] ++ [Time])
    = (o, ([] ++ [Time]) ++ dispatched) /\
    execute_action (fun _ => 0%Q) (fun _ _ => None)
      {| safety_level := "medium"; last_action_time := 0; actions_per_minute := 7;
         action_history := [] |}
      "click" None (Some (140, 120)%Z) Demo.no_kwargs []
    = (Return (b, self'),
       [] ++ Time :: dispatched ++
       match o with
       | Return _ => []
       | Raise e => [Print ("Error executing action: " +:+ e)]
       end) /\
    actions_per_minute self' = 7 /\
    last_action_time self' = 0%Q.
Proof.
  apply (execute_action_other_levels_unthrottled (fun _ => 0%Q) (fun _ _ => None)
           {| safety_level := "medium"; last_action_time := 0; actions_per_minute := 7;
              action_history := [] |}
           "click" None (Some (140, 120)%Z) Demo.no_kwargs []).
  simpl. discriminate.
Defined.

(** X5.  A scroll with a location and a direction that is none of "down",
    "up", "left" and "right" returns [True] although nothing is scrolled:
    no pyautogui call is made. *)
Theorem scroll_unknown_direction_reports_success
    (clock : list call -> Q) (fails : list call -> call -> option string)
    (self : executor) (target : option string) (x y : Z) (kw : kwargs)
    (direction : string) (tr : list call) :
  kw_direction kw = Some direction ->
  direction ∉ ["down"; "up"; "left"; "right"] ->
  exists (self' : executor) (new : list call),
    execute_action clock fails self "scroll" target (Some (x, y)) kw tr
    = (Return (true, self'), tr ++ new) /\
    Forall (fun c => dispatches c = false) new.
Proof.
  intros Hdir Hnot.
  destruct (execute_action_run clock fails self "scroll" target (Some (x, y)) kw tr)
    as (self1 & new1 & o & new2 & _ & _ & Hquiet & Hdispatch & _ & _ & _ & Hrun).
  assert (dispatch fails "scroll" (Some (x, y)) kw ((tr ++ new1) ++ [Time])
          = (Return true, (tr ++ new1) ++ [Time])) as Hnone.
  { unfold dispatch. simpl. rewrite Hdir. simpl.
    rewrite !decide_False; [reflexivity|..]; intros ->; apply Hnot; set_solver. }
  rewrite Hnone in Hdispatch. injection Hdispatch as <- Hnew2.
  rewrite <- (app_nil_r ((tr ++ new1) ++ [Time])) in Hnew2 at 1.
  apply app_inv_head in Hnew2. subst new2.
  eexists _, _. split; [exact Hrun|].
  simpl. apply Forall_app. split; [done|]. by repeat constructor.
Qed.

Lemma scroll_unknown_direction_reports_success_witness :
  exists (self' : executor) (new : list call),
    execute_action (fun _ => 0%Q) (fun _ _ => None) Demo.idle_executor "scroll"
      None (Some (10, 20)%Z)
      {| kw_end_location := None; kw_text := None; kw_keys := None;
         kw_direction := Some "Down"; kw_clicks := None; kw_seconds := None;
         kw_message := None |} []
    = (Return (true, self'), [] ++ new) /\
    Forall (fun c => dispatches c = false) new.
Proof.
  apply (scroll_unknown_direction_reports_success (fun _ => 0%Q) (fun _ _ => None)
           Demo.idle_executor None 10 20 _ "Down" []).
  - reflexivity.
  - vm_compute. intros H. repeat (apply elem_of_cons in H as [H|H]; [discriminate|]).
    by apply elem_of_nil in H.
Defined.

(** ** The replies of the translator, bracket by bracket *)

Lemma find_from_shift c s : forall k,
  find_from c s k
  = (if decide (find c s = (-1)%Z) then (-1)%Z else find c s + k)%Z.
Proof.
  unfold find. induction s as [|c' rest IH]; intros k; simpl; [done|].
  destruct (decide (c' = c)); [simpl; lia|].
  rewrite (IH (k + 1)%Z), (IH (0 + 1)%Z).
  destruct (decide (find_from c rest 0 = (-1)%Z)) as [H|H].
  - by rewrite decide_True.
  - destruct (find_from_range c rest 0) as [?|?]; [lia|done|].
    rewrite decide_False by lia. lia.
Qed.

Lemma rfind_from_shift c s : forall k,
  (0 <= k)%Z ->
  rfind_from c s k
  = (if decide (rfind c s = (-1)%Z) then (-1)%Z else rfind c s + k)%Z.
Proof.
  unfold rfind. induction s as [|c' rest IH]; intros k Hk; simpl; [done|].
  rewrite (IH (k + 1)%Z), (IH (0 + 1)%Z) by lia.
  destruct (rfind_from_range c rest 0) as [Hr|Hr]; [lia| |].
  - rewrite Hr. simpl. destruct (decide (c' = c)); simpl; [lia | done].
  - repeat case_decide; lia.
Qed.

(** [find] at the head of a string. *)
Lemma find_cons c c' rest :
  find c (String c' rest)
  = if decide (c' = c) then 0%Z
    else if decide (find c rest = (-1)%Z) then (-1)%Z else (find c rest + 1)%Z.
Proof.
  unfold find at 1. simpl. destruct (decide (c' = c)); [done|].
  apply find_from_shift.
Qed.

Lemma rfind_cons c c' rest :
  rfind c (String c' rest)
  = if decide (rfind c rest = (-1)%Z)
    then (if decide (c' = c) then 0%Z else (-1)%Z)
    else (rfind c rest + 1)%Z.
Proof.
  unfold rfind at 1. simpl. rewrite rfind_from_shift by lia.
  destruct (decide (rfind c rest = (-1)%Z)) as [H|H]; [done|].
  destruct (rfind_from_range c rest 0) as [?|?]; [lia|done|].
  unfold rfind in *. rewrite decide_False by lia. done.
Qed.

Lemma find_bounds c s :
  find c s = (-1)%Z \/ (0 <= find c s < Z.of_nat (String.length s))%Z.
Proof.
  induction s as [|c' rest IH]; [by left|].
  rewrite find_cons. simpl String.length.
  destruct (decide (c' = c)); [right; lia|].
  destruct (decide (find c rest = (-1)%Z)); [by left|]. right. lia.
Qed.

Lemma rfind_bounds c s :
  rfind c s = (-1)%Z \/ (0 <= rfind c s < Z.of_nat (String.length s))%Z.
Proof.
  induction s as [|c' rest IH]; [by left|].
  rewrite rfind_cons. simpl String.length.
  destruct (decide (rfind c rest = (-1)%Z)).
  - destruct (decide (c' = c)); [right; lia | by left].
  - right. lia.
Qed.

(** No occurrence at all when [rfind] finds none. *)
Lemma rfind_none_find c s : rfind c s = (-1)%Z <-> find c s = (-1)%Z.
Proof.
  induction s as [|c' rest IH]; [done|].
  rewrite rfind_cons, find_cons.
  destruct (rfind_bounds c rest) as [Hr|Hr], (find_bounds c rest) as [Hf|Hf];
    destruct (decide (c' = c));
    repeat (case_decide; try lia); try done; try (split; intros; lia);
    destruct IH; lia.
Qed.

Lemma append_cons c (a b : string) : String c a +:+ b = String c (a +:+ b).
Proof. reflexivity. Qed.

Lemma take_drop_chars n s : take_chars n s +:+ drop_chars n s = s.
Proof.
  revert s. induction n as [|n IH]; intros [|c s]; simpl; try done.
  by rewrite append_cons, IH.
Qed.

Lemma drop_chars_drop n m s : drop_chars n (drop_chars m s) = drop_chars (m + n) s.
Proof.
  revert s. induction m as [|m IH]; intros s; simpl; [done|].
  destruct s as [|c s]; [by destruct n|]. apply IH.
Qed.

Lemma find_drop_none c s n : find c s = (-1)%Z -> find c (drop_chars n s) = (-1)%Z.
Proof.
  revert s. induction n as [|n IH]; intros s; simpl; [done|].
  destruct s as [|c' s]; [done|]. rewrite find_cons.
  destruct (decide (c' = c)); [done|].
  destruct (decide (find c s = (-1)%Z)); [auto|].
  destruct (find_bounds c s); lia.
Qed.

(** Before the first occurrence there is none, and the first occurrence
    heads what is left. *)
Lemma find_first c s :
  find c s <> (-1)%Z ->
  find c (take_chars (Z.to_nat (find c s)) s) = (-1)%Z /\
  exists rest, drop_chars (Z.to_nat (find c s)) s = String c rest.
Proof.
  induction s as [|c' s IH]; [done|].
  rewrite find_cons. destruct (decide (c' = c)) as [->|Hne].
  - intros _. simpl. split; [done | by eexists].
  - destruct (decide (find c s = (-1)%Z)) as [Hnone|Hsome]; [done|].
    intros _. destruct (IH Hsome) as [Htake Hdrop].
    destruct (find_bounds c s) as [?|Hb]; [done|].
    replace (Z.to_nat (find c s + 1)) with (S (Z.to_nat (find c s))) by lia.
    simpl. split; [|done].
    rewrite find_cons, decide_False, Htake by done. done.
Qed.

(** The last occurrence heads what is left from it on, and after it there is
    none. *)
Lemma rfind_last c s :
  find c (drop_chars (Z.to_nat (rfind c s + 1)) s) = (-1)%Z /\
  (rfind c s <> (-1)%Z ->
   exists rest, drop_chars (Z.to_nat (rfind c s)) s = String c rest).
Proof.
  induction s as [|c' s [IHnone IHsome]]; [done|].
  rewrite rfind_cons.
  destruct (rfind_bounds c s) as [Hr|Hr].
  - rewrite Hr in *. simpl in IHnone. simpl.
    destruct (decide (c' = c)) as [->|Hne]; simpl.
    + split; [done|]. intros _. by eexists.
    + split; [|done]. rewrite find_cons, decide_False, IHnone by done. done.
  - rewrite decide_False by lia.
    replace (Z.to_nat (rfind c s + 1 + 1)) with (S (Z.to_nat (rfind c s + 1))) by lia.
    replace (Z.to_nat (rfind c s + 1)) with (S (Z.to_nat (rfind c s))) in * by lia.
    simpl. split; [done|]. intros _. apply IHsome. lia.
Qed.

Lemma take_chars_snoc m u c r :
  drop_chars m u = String c r ->
  take_chars (S m) u = take_chars m u +:+ String c "".
Proof.
  revert u. induction m as [|m IH]; intros [|c' u]; try done.
  - by intros [= -> _].
  - intros H.
    change (take_chars (S (S m)) (String c' u)) with (String c' (take_chars (S m) u)).
    rewrite (IH u H). reflexivity.
Qed.

(** The text from the first [o] to the last [c]: it is a part of the text;
    no [o] comes before it and no [c] after it; and it is empty, when no
    [c] follows the first [o], or starts with that [o] and ends with that
    [c]. *)
Lemma bracket_slice_shape (o c : ascii) (text : string) :
  o <> c -> find o text <> (-1)%Z ->
  exists pre post,
    text = pre +:+ slice text (find o text) (rfind c text + 1) +:+ post /\
    find o pre = (-1)%Z /\ find c post = (-1)%Z /\
    ((slice text (find o text) (rfind c text + 1) = "" /\
      (rfind c text < find o text)%Z) \/
     (exists mid,
        slice text (find o text) (rfind c text + 1)
        = String o mid +:+ String c "" /\
        (find o text < rfind c text)%Z)).
Proof.
  intros Hoc Hfound.
  destruct (find_bounds o text) as [?|Hi]; [done|].
  destruct (find_first o text Hfound) as [Hpre [rest1 Hdrop1]].
  destruct (rfind_last c text) as [Hpost Hdrop2].
  set (i := find o text) in *. set (j := rfind c text) in *.
  assert (j = (-1)%Z \/ (0 <= j < Z.of_nat (String.length text))%Z) as Hj
    by apply rfind_bounds.
  assert (slice text i (j + 1)
          = take_chars (Z.to_nat (j + 1 - i)) (drop_chars (Z.to_nat i) text)) as Hslice.
  { unfold slice.
    replace (i <? 0)%Z with false by (symmetry; apply Z.ltb_ge; lia).
    replace (j + 1 <? 0)%Z with false by (symmetry; apply Z.ltb_ge; lia).
    rewrite !Z.min_l by lia. done. }
  rewrite Hslice.
  destruct (decide (j < i)%Z) as [Hlt|Hge].
  - exists (take_chars (Z.to_nat i) text), (drop_chars (Z.to_nat i) text).
    replace (Z.to_nat (j + 1 - i)) with 0 by lia. simpl.
    split; [by rewrite take_drop_chars|]. split; [done|]. split; [|by left].
    replace (Z.to_nat i) with (Z.to_nat (j + 1) + (Z.to_nat i - Z.to_nat (j + 1))) by lia.
    rewrite <- drop_chars_drop. by apply find_drop_none.
  - assert (j <> (-1)%Z) as Hjfound by lia.
    destruct (Hdrop2 Hjfound) as [rest2 Hdrop2'].
    assert (i <> j) as Hij.
    { intros Heq. rewrite Heq, Hdrop2' in Hdrop1. by injection Hdrop1 as ->. }
    assert (i < j)%Z as Hlt by lia.
    exists (take_chars (Z.to_nat i) text), (drop_chars (Z.to_nat (j + 1)) text).
    set (u := drop_chars (Z.to_nat i) text) in *.
    assert (drop_chars (Z.to_nat (j - i)) u = String c rest2) as Hc.
    { subst u. rewrite drop_chars_drop.
      replace (Z.to_nat i + Z.to_nat (j - i)) with (Z.to_nat j) by lia. done. }
    replace (Z.to_nat (j + 1 - i)) with (S (Z.to_nat (j - i))) by lia.
    split; [|split; [done|split; [done|right]]].
    + rewrite <- (take_drop_chars (Z.to_nat i) text) at 1. fold u. f_equal.
      rewrite <- (take_drop_chars (S (Z.to_nat (j - i))) u) at 1. f_equal.
      subst u. rewrite drop_chars_drop. f_equal. lia.
    + rewrite (take_chars_snoc _ _ _ _ Hc), Hdrop1.
      replace (Z.to_nat (j - i)) with (S (Z.to_nat (j - i - 1))) by lia.
      simpl. eexists. split; [reflexivity | done].
Qed.

Lemma elements_payload_spec text :
  elements_payload text
  = if decide (find "[" text = (-1)%Z) then None
    else Some (slice text (find "[" text) (rfind "]" text + 1)).
Proof.
  unfold elements_payload.
  assert (rfind "]" text + 1 <> -1)%Z as Hend
    by (destruct (rfind_bounds "]" text); lia).
  rewrite (bool_decide_eq_true_2 _ Hend), andb_true_r.
  destruct (decide (find "[" text = (-1)%Z)) as [Heq | Hne].
  - by rewrite bool_decide_eq_false_2 by (intros H; by apply H).
  - by rewrite bool_decide_eq_true_2.
Qed.

Lemma payload_spec text :
  payload text
  = if decide (find "{" text = (-1)%Z) then None
    else Some (slice text (find "{" text) (rfind "}" text + 1)).
Proof.
  unfold payload.
  assert (rfind "}" text + 1 <> -1)%Z as Hend
    by (destruct (rfind_bounds "}" text); lia).
  rewrite (bool_decide_eq_true_2 _ Hend), andb_true_r.
  destruct (decide (find "{" text = (-1)%Z)) as [Heq | Hne].
  - by rewrite bool_decide_eq_false_2 by (intros H; by apply H).
  - by rewrite bool_decide_eq_true_2.
Qed.

(** X6.  The text handed to [json.loads] is the widest bracketed span of
    the reply: it is a part of the reply with no opening bracket before it
    and no closing bracket after it, and either it is empty, which happens
    exactly when no closing bracket follows the first opening one, or it
    starts with the first opening bracket and ends with the last closing
    one.  This holds for the object of [process_user_request] and for the
    array of [identify_elements]. *)
Theorem payload_is_widest_bracketed_span (text : string) :
  (forall json_str, payload text = Some json_str ->
     exists pre post,
       text = pre +:+ json_str +:+ post /\
       find "{" pre = (-1)%Z /\ find "}" post = (-1)%Z /\
       ((json_str = "" /\ (rfind "}" text < find "{" text)%Z) \/
        (exists mid, json_str = "{" +:+ mid +:+ "}" /\
                     (find "{" text < rfind "}" text)%Z))) /\
  (forall json_str, elements_payload text = Some json_str ->
     exists pre post,
       text = pre +:+ json_str +:+ post /\
       find "[" pre = (-1)%Z /\ find "]" post = (-1)%Z /\
       ((json_str = "" /\ (rfind "]" text < find "[" text)%Z) \/
        (exists mid, json_str = "[" +:+ mid +:+ "]" /\
                     (find "[" text < rfind "]" text)%Z))).
Proof.
  split; intros json_str.
  - rewrite payload_spec. case_decide as Hfound; [done|]. intros [= <-].
    destruct (bracket_slice_shape "{" "}" text) as (pre & post & H); [done|done|].
    exists pre, post. exact H.
  - rewrite elements_payload_spec. case_decide as Hfound; [done|]. intros [= <-].
    destruct (bracket_slice_shape "[" "]" text) as (pre & post & H); [done|done|].
    exists pre, post. exact H.
Qed.

Example payload_of_nested_braces :
  payload "say {a} or {b} now" = Some "{a} or {b}" /\
  elements_payload "] none [" = Some "" /\
  elements_payload "no list here" = None.
Proof. repeat split; vm_compute; reflexivity. Qed.

(** X7.  A reply that has an opening bracket but no closing bracket after
    it does not take the branch "could not parse": [json.loads] is called
    with the empty string, and when that raises, [identify_elements] and
    [identify_desktop_elements] return the empty list and
    [process_user_request] the "Parse error" object, each with its error
    line printed.  [identify_elements] prints "Couldn't parse JSON response"
    exactly when the reply has no opening bracket at all. *)
Theorem unclosed_bracket_is_a_parse_error
    (json_loads : string -> outcome json) (text e : string) :
  json_loads "" = Raise e ->
  ((find "[" text <> (-1)%Z /\ (rfind "]" text < find "[" text)%Z) ->
   identify_elements json_loads (Return text)
   = (JArray [], ["Error identifying elements: " +:+ e]) /\
   identify_desktop_elements json_loads (Return (Return text))
   = Return (JArray [], ["Error parsing elements: " +:+ e])) /\
  ((find "{" text <> (-1)%Z /\ (rfind "}" text < find "{" text)%Z) ->
   process_user_request json_loads text
   = (JObject [("error", JString ("Parse error: " +:+ e))],
      ["Error parsing action: " +:+ e])) /\
  ((identify_elements json_loads (Return text)).2
   = ["Couldn't parse JSON response, using empty elements list"]
   <-> find "[" text = (-1)%Z).
Proof.
  intros Hempty. split; [|split].
  - intros [Hfound Hlt].
    assert (elements_payload text = Some "") as Hpayload.
    { rewrite elements_payload_spec, decide_False by done. f_equal.
      destruct (bracket_slice_shape "[" "]" text) as (_ & _ & _ & _ & _ & [[H _]|(? & _ & ?)]);
        [done | done | done | lia]. }
    unfold identify_elements, identify_desktop_elements, parse_elements; simpl.
    by rewrite Hpayload, Hempty.
  - intros [Hfound Hlt].
    assert (payload text = Some "") as Hpayload.
    { rewrite payload_spec, decide_False by done. f_equal.
      destruct (bracket_slice_shape "{" "}" text) as (_ & _ & _ & _ & _ & [[H _]|(? & _ & ?)]);
        [done | done | done | lia]. }
    unfold process_user_request. by rewrite Hpayload, Hempty.
  - unfold identify_elements, parse_elements; simpl.
    rewrite elements_payload_spec.
    case_decide as Hfound; simpl; [done|].
    destruct (json_loads (slice text (find "[" text) (rfind "]" text + 1)));
      simpl; (split; [|intros ?; contradiction]).
    + discriminate.
    + intros [= H].
Qed.

Lemma unclosed_bracket_is_a_parse_error_witness :
  let loads := fun s : string =>
                 if decide (s = "") then Raise "Expecting value" else Return JNull in
  ((find "[" "see [1, 2" <> (-1)%Z /\ (rfind "]" "see [1, 2" < find "[" "see [1, 2")%Z) ->
   identify_elements loads (Return "see [1, 2")
   = (JArray [], ["Error identifying elements: " +:+ "Expecting value"]) /\
   identify_desktop_elements loads (Return (Return "see [1, 2"))
   = Return (JArray [], ["Error parsing elements: " +:+ "Expecting value"])) /\
  ((find "{" "see [1, 2" <> (-1)%Z /\ (rfind "}" "see [1, 2" < find "{" "see [1, 2")%Z) ->
   process_user_request loads "see [1, 2"
   = (JObject [("error", JString ("Parse error: " +:+ "Expecting value"))],
      ["Error parsing action: " +:+ "Expecting value"])) /\
  ((identify_elements loads (Return "see [1, 2")).2
   = ["Couldn't parse JSON response, using empty elements list"]
   <-> find "[" "see [1, 2" = (-1)%Z).
Proof.
  intros loads.
  apply (unclosed_bracket_is_a_parse_error loads "see [1, 2" "Expecting value").
  reflexivity.
Defined.

Example unclosed_bracket_run :
  identify_elements
    (fun s => if decide (s = "") then Raise "Expecting value" else Return JNull)
    (Return "see [1, 2")
  = (JArray [], ["Error identifying elements: Expecting value"]).
Proof. reflexivity. Qed.

(** ** The template store, file by file *)

Lemma elem_of_dict_set {V : Type} (d : pydict V) k v k' v' :
  (k', v') ∈ dict_set d k v -> (k', v') = (k, v) \/ (k', v') ∈ d.
Proof.
  induction d as [|[k0 v0] d IH]; simpl.
  - intros H. apply list_elem_of_singleton in H. by left.
  - destruct (decide (k0 = k)) as [->|Hne]; intros H;
      apply elem_of_cons in H as [H|H].
    + by left.
    + right. by apply elem_of_cons; right.
    + right. apply elem_of_cons. by left.
    + destruct (IH H) as [?|?]; [by left|]. right. apply elem_of_cons. by right.
Qed.

Lemma dict_set_keys {V : Type} (d : pydict V) k v :
  map fst (dict_set d k v)
  = if decide (k ∈ map fst d) then map fst d else map fst d ++ [k].
Proof.
  induction d as [|[k0 v0] d IH].
  - case_decide as Hin; [|done]. by apply elem_of_nil in Hin.
  - cbn [dict_set map fst]. destruct (decide (k0 = k)) as [->|Hne].
    + rewrite decide_True; [done|]. apply elem_of_cons. by left.
    + cbn [map fst]. rewrite IH. destruct (decide (k ∈ map fst d)) as [Hin|Hnin].
      * rewrite decide_True; [done|]. apply elem_of_cons. by right.
      * rewrite decide_False; [done|]. intros [?|?]%elem_of_cons; congruence.
Qed.

Lemma dict_set_NoDup {V : Type} (d : pydict V) k v :
  NoDup (map fst d) -> NoDup (map fst (dict_set d k v)).
Proof.
  intros Hnd. rewrite dict_set_keys. case_decide as Hin; [done|].
  apply NoDup_app. split; [done|]. split; [|apply NoDup_singleton].
  intros x Hx Hk. apply list_elem_of_singleton in Hk. by subst.
Qed.

Lemma dict_set_length {V : Type} (d : pydict V) k v :
  length d <= length (dict_set d k v) <= S (length d).
Proof.
  rewrite <- !(length_map fst), dict_set_keys.
  case_decide; [lia|]. rewrite length_app. simpl. lia.
Qed.

Lemma find_key_chars c s :
  all_chars key_char s = true -> key_char c = false -> find c s = (-1)%Z.
Proof.
  intros Hall Hc. induction s as [|c' s IH]; [done|].
  simpl in Hall. apply andb_true_iff in Hall as [Hc' Hs].
  rewrite find_cons, decide_False by congruence.
  by rewrite decide_True by auto.
Qed.

(** One element touches at most the file of its own key. *)
Lemma extract_one_directory dir announce shot st e file :
  directory (extract_one dir announce shot st e) !! file <> directory st !! file ->
  exists name, e_name e = Some name /\
               file = dir +:+ "/" +:+ safe_name name +:+ ".png".
Proof.
  destruct (extract_one_outcome dir announce shot st e)
    as [[_ ->] | [(_ & _ & _ & [-> | (name & x1 & y1 & x2 & y2 & Hn & _ & _ & _ & _ & _ & ->)]) |
        (_ & name & x1 & y1 & x2 & y2 & img & Hn & _ & _ & _ & _ & _ & _ & _ & _ & -> & _)]];
    try done.
  - destruct (decide (file = dir +:+ "/" +:+ safe_name name +:+ ".png")) as [->|Hne].
    + intros _. by exists name.
    + by rewrite lookup_insert_ne.
  - destruct (decide (file = dir +:+ "/" +:+ safe_name name +:+ ".png")) as [->|Hne].
    + intros _. by exists name.
    + by rewrite lookup_insert_ne.
Qed.

(** The files an extraction has touched. *)
Lemma extract_fold_directory dir announce shot elements files file :
  directory (foldl (extract_one dir announce shot)
               {| templates := []; directory := files; printed := [] |}
               elements) !! file <> files !! file ->
  exists e name,
    e ∈ elements /\ e_name e = Some name /\
    file = dir +:+ "/" +:+ safe_name name +:+ ".png".
Proof.
  induction elements as [|e elements IH] using rev_ind; [done|].
  rewrite foldl_app. simpl. set (st := foldl _ _ elements) in *.
  intros Hchanged.
  destruct (decide (directory (extract_one dir announce shot st e) !! file
                    = directory st !! file)) as [Heq | Hne].
  - rewrite Heq in Hchanged. destruct (IH Hchanged) as (e0 & name & Hin & Hrest).
    exists e0, name. split; [|done]. apply elem_of_app. by left.
  - destruct (extract_one_directory dir announce shot st e file Hne) as (name & Hn & ->).
    exists e, name. split; [|done].
    apply elem_of_app. right. by apply list_elem_of_singleton.
Qed.

(** X9.  [extract_templates] creates or overwrites only files named
    [template_dir/key.png], where [key] is the key of the name of one of the
    elements; the key holds no character other than '_' and alphanumeric
    ones, so no '/', no '\' and no '.', and a name such as "../x" cannot
    place a file outside the template directory.  Every other file of the
    directory is left as it was. *)
Theorem extract_templates_writes_only_keyed_files
    (dir : string) (shot : gray) (elements : list element)
    (files : gmap string gray) (file : string) :
  directory (extract_templates dir shot elements files) !! file <> files !! file ->
  exists e name,
    e ∈ elements /\ e_name e = Some name /\
    file = dir +:+ "/" +:+ safe_name name +:+ ".png" /\
    (forall c, isalnum c = false -> c <> "_"%char ->
               find c (safe_name name) = (-1)%Z) /\
    find "/" (safe_name name) = (-1)%Z /\
    find "\" (safe_name name) = (-1)%Z /\
    find "." (safe_name name) = (-1)%Z.
Proof.
  intros Hchanged.
  destruct (extract_fold_directory dir false shot elements files file Hchanged)
    as (e & name & Hin & Hname & Hfile).
  exists e, name. repeat (split; [done|]).
  pose proof (safe_name_key_chars name) as Hkey.
  split; [|split; [|split]]; try (by apply find_key_chars).
  intros c Halnum Hc. apply find_key_chars; [done|].
  unfold key_char. rewrite Halnum, bool_decide_eq_false_2 by done. done.
Qed.

Lemma extract_templates_writes_only_keyed_files_witness :
  exists e name,
    e ∈ [ {| e_name := Some "../Save Icon"; e_type := None;
             e_bounding_box := Some [0; 0; 2; 2]%Z; e_description := None |} ] /\
    e_name e = Some name /\
    "templates/___save_icon.png" = "templates" +:+ "/" +:+ safe_name name +:+ ".png" /\
    (forall c, isalnum c = false -> c <> "_"%char ->
               find c (safe_name name) = (-1)%Z) /\
    find "/" (safe_name name) = (-1)%Z /\
    find "\" (safe_name name) = (-1)%Z /\
    find "." (safe_name name) = (-1)%Z.
Proof.
  apply (extract_templates_writes_only_keyed_files "templates" Demo.two_copies
           [ {| e_name := Some "../Save Icon"; e_type := None;
                e_bounding_box := Some [0; 0; 2; 2]%Z; e_description := None |} ]
           ∅ "templates/___save_icon.png").
  vm_compute. discriminate.
Defined.

(** The entries of an extraction: distinct names, each with its file in the
    directory; and as long as nothing has been printed, that file holds a
    raster with pixels. *)
Lemma extract_fold_invariant dir shot elements files :
  let st := foldl (extract_one dir false shot)
              {| templates := []; directory := files; printed := [] |} elements in
  NoDup (map fst (templates st)) /\
  forall name info, (name, info) ∈ templates st ->
    filename info = dir +:+ "/" +:+ safe_name name +:+ ".png" /\
    is_Some (directory st !! filename info) /\
    (printed st = [] ->
     exists img, directory st !! filename info = Some img /\
                 0 < (shape img).1 /\ 0 < (shape img).2).
Proof.
  induction elements as [|e elements IH] using rev_ind.
  - simpl. split; [constructor|]. intros ? ? H. by apply elem_of_nil in H.
  - rewrite foldl_app. simpl. set (st := foldl _ _ elements) in *.
    simpl in IH. destruct IH as [IHnd IHfiles].
    destruct (extract_one_outcome dir false shot st e)
      as [[_ ->] | [(_ & -> & (line & ->) & Hdir) |
          (_ & n & x1 & y1 & x2 & y2 & img & _ & _ & _ & _ & _ & _ & Hh & Hw
             & -> & -> & ->)]];
      [done | |].
    + split; [done|]. intros name info Hin.
      destruct (IHfiles name info Hin) as (Hfile & Hsome & _).
      split; [done|]. split.
      * destruct Hdir as [-> | (n & x1 & y1 & x2 & y2 & _ & _ & _ & _ & _ & _ & ->)];
          [done|].
        destruct (decide (filename info = dir +:+ "/" +:+ safe_name n +:+ ".png"))
          as [->|Hne]; [by rewrite lookup_insert_eq | by rewrite lookup_insert_ne].
      * intros Hp. by destruct (printed st).
    + split; [by apply dict_set_NoDup|].
      intros name info Hin.
      apply elem_of_dict_set in Hin as [[= -> ->] | Hin]; simpl.
      * split; [done|]. rewrite lookup_insert_eq. split; [done|].
        intros _. by exists img.
      * destruct (IHfiles name info Hin) as (Hfile & Hsome & Hload).
        split; [done|].
        destruct (decide (filename info = dir +:+ "/" +:+ safe_name n +:+ ".png"))
          as [->|Hne].
        -- rewrite lookup_insert_eq. split; [done|]. intros _. by exists img.
        -- rewrite lookup_insert_ne by done. done.
Qed.

Lemma imread_Some files file img :
  Cv2.imread files file = Some img <->
  files !! file = Some img /\ empty_raster img = false.
Proof.
  unfold Cv2.imread. destruct (files !! file) as [img'|]; [|by split; [|intros []]].
  destruct (empty_raster img') eqn:Hraster; split.
  - done.
  - intros [[= ->] ?]. congruence.
  - intros [= ->]. done.
  - by intros [[= ->] _].
Qed.

Lemma nonempty_raster (img : gray) :
  0 < (shape img).1 -> 0 < (shape img).2 -> empty_raster img = false.
Proof.
  intros Hh Hw. unfold empty_raster. apply orb_false_iff.
  split; apply Nat.eqb_neq; lia.
Qed.

(** X10.  What [extract_templates] returns: the names of the mapping are
    distinct, and the file of every entry is [template_dir/key.png] for the
    key of its name and is in the directory.  When nothing was printed,
    every one of these files holds a raster with pixels, so that
    [find_templates_on_screen] loads every template of the mapping.  (After
    a printed failure a file can be empty: a write that fails empties the
    file of an earlier entry with the same key.) *)
Theorem extracted_templates_load_when_silent
    (dir : string) (shot : gray) (elements : list element)
    (files : gmap string gray) :
  let st := extract_templates dir shot elements files in
  NoDup (map fst (templates st)) /\
  (forall name info, (name, info) ∈ templates st ->
     filename info = dir +:+ "/" +:+ safe_name name +:+ ".png" /\
     is_Some (directory st !! filename info)) /\
  (printed st = [] ->
   (forall name info, (name, info) ∈ templates st ->
      exists img, Cv2.imread (directory st) (filename info) = Some img /\
                  0 < (shape img).1 /\ 0 < (shape img).2) /\
   List.filter (missing (Cv2.imread (directory st))) (templates st) = []) /\
  (let st' := extract_templates "templates" [[0; 255; 0; 255]; [255; 0; 255; 0]]%Z
                [ {| e_name := Some "Save Icon"; e_type := Some "icon";
                     e_bounding_box := Some [0; 0; 2; 2]%Z; e_description := None |};
                  {| e_name := Some "save_icon"; e_type := None;
                     e_bounding_box := Some [1; 0; 1; 2]%Z; e_description := None |} ]
                ∅ in
   map (fun item => (item.1, filename item.2)) (templates st')
   = [("Save Icon", "templates/save_icon.png")] /\
   length (printed st') = 1 /\
   directory st' !! "templates/save_icon.png" = Some [] /\
   Cv2.imread (directory st') "templates/save_icon.png" = None).
Proof.
  intros st.
  assert (forall P Q R S : Prop, (P /\ Q /\ R) -> S -> P /\ Q /\ R /\ S) as Hjoin
    by tauto.
  apply Hjoin; [|by vm_compute].
  destruct (extract_fold_invariant dir shot elements files) as [Hnd Hfiles].
  fold (extract_templates dir shot elements files) in Hnd, Hfiles. fold st in Hnd, Hfiles.
  clearbody st.
  split; [done|]. split.
  { intros name info Hin. destruct (Hfiles name info Hin) as (? & ? & _). done. }
  intros Hsilent.
  assert (forall name info, (name, info) ∈ templates st ->
            exists img, Cv2.imread (directory st) (filename info) = Some img /\
                        0 < (shape img).1 /\ 0 < (shape img).2) as Hload.
  { intros name info Hin.
    destruct (Hfiles name info Hin) as (_ & _ & Himg).
    destruct (Himg Hsilent) as (img & Hdir & Hh & Hw).
    exists img. split; [|done]. apply imread_Some. split; [done|].
    by apply nonempty_raster. }
  split; [exact Hload|].
  assert (forall items : pydict template_info,
            (forall item, item ∈ items -> item ∈ templates st) ->
            List.filter (missing (Cv2.imread (directory st))) items = []) as Hnone.
  { induction items as [|[name info] items IH]; intros Hsub; [done|].
    destruct (Hload name info) as (img & Himg & _).
    { apply Hsub. apply elem_of_cons. by left. }
    simpl. unfold missing at 1. simpl. rewrite Himg.
    apply IH. intros item Hin. apply Hsub. apply elem_of_cons. by right. }
  by apply Hnone.
Qed.

Example extracted_templates_load_run :
  let st := extract_templates "templates" Demo.two_copies
              [ {| e_name := Some "Save Icon"; e_type := Some "icon";
                   e_bounding_box := Some [0; 0; 2; 2]%Z; e_description := None |};
                {| e_name := Some "save icon"; e_type := None;
                   e_bounding_box := Some [1; 0; 3; 2]%Z; e_description := None |} ]
              ∅ in
  map (fun item => (item.1, filename item.2)) (templates st)
  = [("Save Icon", "templates/save_icon.png");
     ("save icon", "templates/save_icon.png")] /\
  printed st = [] /\
  List.filter (missing (Cv2.imread (directory st))) (templates st) = [].
Proof. vm_compute. repeat split; reflexivity. Qed.

(** A second element with the key of the first and a box without pixels:
    its write fails and empties the file of the first, whose entry stays in
    the mapping and no longer loads. *)
Example failed_write_empties_earlier_template :
  let st := extract_templates "templates" Demo.two_copies
              [ {| e_name := Some "Save Icon"; e_type := Some "icon";
                   e_bounding_box := Some [0; 0; 2; 2]%Z; e_description := None |};
                {| e_name := Some "save_icon"; e_type := None;
                   e_bounding_box := Some [1; 0; 1; 2]%Z; e_description := None |} ]
              ∅ in
  map (fun item => (item.1, filename item.2)) (templates st)
  = [("Save Icon", "templates/save_icon.png")] /\
  printed st = ["Error extracting template for save_icon: SystemError: tile cannot extend outside image"] /\
  Cv2.imread (directory st) "templates/save_icon.png" = None /\
  map fst (List.filter (missing (Cv2.imread (directory st))) (templates st))
  = ["Save Icon"].
Proof. vm_compute. repeat split; reflexivity. Qed.

Lemma extract_fold_count dir shot elements files :
  let st := foldl (extract_one dir false shot)
              {| templates := []; directory := files; printed := [] |} elements in
  length (templates st) + length (printed st) <= length (List.filter usable elements).
Proof.
  induction elements as [|e elements IH] using rev_ind; [done|].
  rewrite foldl_app, List.filter_app, length_app. simpl.
  set (st := foldl _ _ elements) in *. simpl in IH.
  destruct (extract_one_outcome dir false shot st e)
    as [[-> ->] | [(-> & -> & (line & ->) & _) |
        (-> & n & x1 & y1 & x2 & y2 & img & _ & _ & _ & _ & _ & _ & _ & _
           & -> & _ & ->)]];
    simpl.
  - lia.
  - rewrite length_app. simpl. lia.
  - pose proof (dict_set_length (templates st) n
                  {| filename := dir +:+ "/" +:+ safe_name n +:+ ".png";
                     bounding_box := [x1; y1; x2; y2];
                     type_ := default "unknown" (e_type e);
                     description := default "" (e_description e) |}). lia.
Qed.

(** X11.  [extract_templates] accounts for every element (an object with a
    name that is a string and a box that is a list of integers, when it has
    them): one that lacks a name or a bounding box is passed over without a
    word, and every other element either ends in the mapping or has its
    failure printed, in one line, with the mapping as it was and no file
    touched but the one of its key; so the entries and the printed lines
    together never outnumber the elements that have both keys. *)
Theorem extract_templates_accounts_for_elements
    (dir : string) (shot : gray) (elements : list element)
    (files : gmap string gray) :
  let st := extract_templates dir shot elements files in
  length (templates st) + length (printed st)
  <= length (List.filter usable elements) /\
  (forall announce st0 e, usable e = false ->
     extract_one dir announce shot st0 e = st0) /\
  (forall st0 e, usable e = true ->
     let st1 := extract_one dir false shot st0 e in
     exists name, e_name e = Some name /\
       ((printed st1 = printed st0 /\ is_Some (dict_get (templates st1) name)) \/
        (templates st1 = templates st0 /\
         (exists line, printed st1 = printed st0 ++ [line]) /\
         forall file, file <> dir +:+ "/" +:+ safe_name name +:+ ".png" ->
                      directory st1 !! file = directory st0 !! file))) /\
  (let st' := extract_templates "templates" [[0; 255; 0; 255]; [255; 0; 255; 0]]%Z
                [ {| e_name := None; e_type := Some "icon";
                     e_bounding_box := Some [0; 0; 2; 2]%Z; e_description := None |};
                  {| e_name := Some "Bar"; e_type := None;
                     e_bounding_box := Some [0; 0; 2]%Z; e_description := None |};
                  {| e_name := Some "Save Icon"; e_type := None;
                     e_bounding_box := Some [1; 0; 3; 2]%Z; e_description := None |} ]
                ∅ in
   map fst (templates st') = ["Save Icon"] /\
   map_to_list (directory st')
   = [("templates/save_icon.png", [[255; 0]; [0; 255]]%Z)] /\
   printed st'
   = ["Error extracting template for Bar: ValueError: wrong number of values to unpack"]).
Proof.
  intros st. split; [by apply extract_fold_count|]. split; [|split; [|by vm_compute]].
  - intros announce st0 e Hun.
    destruct (extract_one_outcome dir announce shot st0 e)
      as [[_ ->] | [(Hu & _) | (Hu & _)]]; [done | congruence | congruence].
  - intros st0 e Hu st1.
    assert (exists name, e_name e = Some name) as [name Hname].
    { unfold usable in Hu. destruct (e_bounding_box e), (e_name e); try done.
      by eexists. }
    exists name. split; [done|]. subst st1.
    destruct (extract_one_outcome dir false shot st0 e)
      as [[Hun _] | [(_ & Ht & Hp & Hd) |
          (_ & n & x1 & y1 & x2 & y2 & img & Hn & _ & _ & _ & _ & _ & _ & _
             & Ht & _ & Hp)]].
    + congruence.
    + right. split; [done|]. split; [done|]. intros file Hfile.
      destruct Hd as [-> | (n & x1 & y1 & x2 & y2 & Hn & _ & _ & _ & _ & _ & ->)];
        [done|].
      assert (n = name) as -> by congruence. by rewrite lookup_insert_ne.
    + left. split; [done|]. assert (n = name) as -> by congruence.
      rewrite Ht, dict_get_set_eq. by eexists.
Qed.

Example extract_templates_accounting_run :
  let st := extract_templates "templates" Demo.two_copies
              [ {| e_name := None; e_type := Some "icon";
                   e_bounding_box := Some [0; 0; 2; 2]%Z; e_description := None |};
                {| e_name := Some "Bar"; e_type := None;
                   e_bounding_box := Some [0; 0; 2]%Z; e_description := None |};
                {| e_name := Some "Save Icon"; e_type := None;
                   e_bounding_box := Some [1; 0; 3; 2]%Z; e_description := None |} ]
              ∅ in
  map fst (templates st) = ["Save Icon"] /\
  printed st
  = ["Error extracting template for Bar: ValueError: wrong number of values to unpack"].
Proof. vm_compute. split; reflexivity. Qed.

(** ** The matcher: thresholds and boxes *)

(** X12.  Lowering the confidence threshold never loses a template.  numpy
    compares the score map with the threshold converted to float32; for two
    thresholds whose float32 values are in order, and the same screenshot
    and templates, a name that has an entry at the higher threshold has one
    at the lower (the entry may be an earlier cell). *)
Theorem lower_threshold_keeps_matches
    (imread_gray : string -> option gray)
    (matchTemplate : gray -> gray -> outcome score_map)
    (screenshot_gray : gray) (templates : pydict template_info)
    (t_low t_high : float) (name : string) :
  NoDup (map fst templates) ->
  PrimFloat.leb (to_float32 t_low) (to_float32 t_high) = true ->
  is_Some ((find_templates_on_screen imread_gray matchTemplate screenshot_gray
              templates t_high).1 !! name) ->
  is_Some ((find_templates_on_screen imread_gray matchTemplate screenshot_gray
              templates t_low).1 !! name) /\
  (find_templates_on_screen (Cv2.imread Demo.corner_files) Cv2.matchTemplate
     Demo.seven_tenths Demo.corner_batch 0.7).1 !! "Corner"
  = Some {| center := (1, 1)%Z; box := (0, 0, 2, 2)%Z;
            confidence := 0x1.666666p-1 |} /\
  (find_templates_on_screen (Cv2.imread Demo.files) Cv2.matchTemplate
     Demo.near_then_exact Demo.batch 0.99).1 !! "Save Icon"
  = Some {| center := (3, 1)%Z; box := (2, 0, 4, 2)%Z; confidence := 1 |}.
Proof.
  intros Hnd Hle [m Hm]. split; [|split; vm_compute; reflexivity].
  destruct (find_templates_entries imread_gray matchTemplate _ _ _ _ _ Hm)
    as (info & template & result & px & py & s & Hin & Hread & Hmatch & Hfirst & Hs & _).
  pose proof (find_templates_entry imread_gray matchTemplate screenshot_gray t_low
                templates name info template result Hnd Hin Hread Hmatch) as Hlow.
  destruct ((find_templates_on_screen imread_gray matchTemplate screenshot_gray
               templates t_low).1 !! name) as [m'|]; [done|].
  exfalso. apply (Hlow py px).
  destruct Hfirst as [(s' & Hs' & Hq) _].
  exists s'. split; [done|]. by apply (float_leb_trans _ (to_float32 t_high)).
Qed.

Lemma lower_threshold_keeps_matches_witness :
  is_Some ((find_templates_on_screen (Cv2.imread Demo.corner_files) Cv2.matchTemplate
              Demo.seven_tenths Demo.corner_batch 0.7%float).1 !! "Corner").
Proof.
  apply (lower_threshold_keeps_matches (Cv2.imread Demo.corner_files)
           Cv2.matchTemplate Demo.seven_tenths Demo.corner_batch
           0.7%float 0.99%float "Corner").
  - apply NoDup_singleton.
  - vm_compute. reflexivity.
  - vm_compute. by eexists.
Defined.

Lemma list_lookup_map {A B : Type} (f : A -> B) (l : list A) (i : nat) :
  map f l !! i = f <$> (l !! i).
Proof. exact (list_lookup_fmap f l i). Qed.

(** The score map of the reference model has one cell per placement of the
    template within the image. *)
Lemma correlate_cell img templ row col s :
  cell (Cv2.correlate img templ) row col = Some s ->
  row <= (shape img).1 - (shape templ).1 /\ col <= (shape img).2 - (shape templ).2.
Proof.
  unfold Cv2.correlate, cell.
  destruct (shape img) as [ih iw], (shape templ) as [th tw].
  cbv beta iota. cbn [fst snd]. rewrite list_lookup_map.
  destruct (seq 0 (S (ih - th)) !! row) as [y|] eqn:Hrow; [|done].
  cbn [fmap option_fmap option_map]. rewrite list_lookup_map.
  destruct (seq 0 (S (iw - tw)) !! col) as [x|] eqn:Hcol; [|done]. intros _.
  apply lookup_lt_Some in Hrow, Hcol. rewrite length_seq in Hrow, Hcol. lia.
Qed.

(** X13.  With OpenCV's score map (one cell per placement), the box of every
    entry has the size of its template and holds the reported center, and
    when the template is no larger than the screenshot in either dimension
    the box lies within the screenshot. *)
Theorem matched_box_lies_within_frame
    (files : gmap string gray) (screenshot_gray : gray)
    (templates : pydict template_info) (thr : float) (name : string)
    (m : match_result) :
  (find_templates_on_screen (Cv2.imread files) Cv2.matchTemplate screenshot_gray
     templates thr).1 !! name = Some m ->
  exists info template x1 y1 x2 y2,
    (name, info) ∈ templates /\ files !! filename info = Some template /\
    box m = (x1, y1, x2, y2) /\
    (x2 - x1 = Z.of_nat (shape template).2 /\
     y2 - y1 = Z.of_nat (shape template).1 /\
     x1 <= (center m).1 <= x2 /\ y1 <= (center m).2 <= y2)%Z /\
    ((shape template).1 <= (shape screenshot_gray).1 ->
     (shape template).2 <= (shape screenshot_gray).2 ->
     (0 <= x1 /\ x2 <= Z.of_nat (shape screenshot_gray).2 /\
      0 <= y1 /\ y2 <= Z.of_nat (shape screenshot_gray).1)%Z).
Proof.
  intros Hm.
  destruct (find_templates_entries (Cv2.imread files) Cv2.matchTemplate _ _ _ _ _ Hm)
    as (info & template & result & px & py & s & Hin & Hread & Hmatch & _ & Hs & ->).
  exists info, template, (Z.of_nat px), (Z.of_nat py),
    (Z.of_nat px + Z.of_nat (shape template).2)%Z,
    (Z.of_nat py + Z.of_nat (shape template).1)%Z.
  split; [done|]. split; [by apply imread_Some in Hread as [? _]|].
  split; [reflexivity|]. split.
  - unfold entry_at; cbn [center fst snd].
    pose proof (Z.div_pos (Z.of_nat (shape template).2) 2).
    pose proof (Z.div_pos (Z.of_nat (shape template).1) 2).
    pose proof (Z.div_le_upper_bound (Z.of_nat (shape template).2) 2
                  (Z.of_nat (shape template).2)).
    pose proof (Z.div_le_upper_bound (Z.of_nat (shape template).1) 2
                  (Z.of_nat (shape template).1)).
    lia.
  - intros Hh Hw. unfold Cv2.matchTemplate in Hmatch.
    destruct (shape screenshot_gray) as [ih iw] eqn:Hshot.
    destruct (shape template) as [th tw] eqn:Htempl. simpl in Hh, Hw.
    replace ((ih <? th)%nat || (iw <? tw)%nat) with false in Hmatch.
    2: { symmetry. apply orb_false_iff. split; apply Nat.ltb_ge; lia. }
    simpl in Hmatch. injection Hmatch as <-.
    apply correlate_cell in Hs. rewrite Hshot, Htempl in Hs. simpl in *. lia.
Qed.

Lemma matched_box_lies_within_frame_witness :
  exists info template x1 y1 x2 y2,
    ("Save Icon", info) ∈ Demo.batch /\
    Demo.files !! filename info = Some template /\
    (2, 0, 4, 2)%Z = (x1, y1, x2, y2) /\
    (x2 - x1 = Z.of_nat (shape template).2 /\
     y2 - y1 = Z.of_nat (shape template).1 /\
     x1 <= 3 <= x2 /\ y1 <= 1 <= y2)%Z /\
    ((shape template).1 <= (shape Demo.near_then_exact).1 ->
     (shape template).2 <= (shape Demo.near_then_exact).2 ->
     (0 <= x1 /\ x2 <= Z.of_nat (shape Demo.near_then_exact).2 /\
      0 <= y1 /\ y2 <= Z.of_nat (shape Demo.near_then_exact).1)%Z).
Proof.
  apply (matched_box_lies_within_frame Demo.files Demo.near_then_exact Demo.batch
           0.99%float "Save Icon"
           {| center := (3, 1)%Z; box := (2, 0, 4, 2)%Z; confidence := 1%float |}).
  vm_compute. reflexivity.
Defined.

(** ** Advanced actions *)

Section AdvancedFacts.

Variable clock : list call -> Q.
Variable fails : list call -> call -> option string.
Variable eval : string -> outcome json.
Variable int_of_string : string -> outcome Z.

Local Abbreviation advanced := (execute_advanced_action clock fails eval int_of_string).
Local Abbreviation plain := (execute_action clock fails).

(** [execute_action] raises nothing, so a handler around it is never
    entered. *)
Lemma catch_execute_action self action_type target location kw
    (handler : string -> M (bool * executor)) tr :
  catch (plain self action_type target location kw) handler tr
  = plain self action_type target location kw tr.
Proof.
  destruct (execute_action_spec clock fails self action_type target location kw tr)
    as (b & self' & new & Hrun & _).
  unfold catch. by rewrite Hrun.
Qed.

(** What a run of [execute_advanced_action] can be: nothing at all, one
    printed error, or one call of [execute_action]. *)
Inductive advanced_run (self : executor) (action_name : string) (tr : list call)
    : outcome (bool * executor) * list call -> Prop :=
| advanced_nothing :
    advanced_run self action_name tr (Return (false, self), tr)
| advanced_error e :
    advanced_run self action_name tr
      (Return (false, self),
       tr ++ [Print ("Error executing advanced action: " +:+ e)])
| advanced_action action_type location kw :
    (action_name, action_type)
      ∈ [("click", "click"); ("left_double", "double_click");
         ("right_single", "right_click"); ("drag", "drag"); ("hotkey", "hotkey");
         ("type", "type"); ("scroll", "scroll"); ("wait", "wait");
         ("finished", "finished"); ("call_user", "call_user")] ->
    advanced_run self action_name tr (plain self action_type None location kw tr).

Lemma catch_bind_lift {A B : Type} (o : outcome A) (k : A -> M B)
    (handler : string -> M B) tr :
  catch (lift o ≫= k) handler tr
  = match o with
    | Return a => catch (k a) handler tr
    | Raise e => handler e tr
    end.
Proof. unfold catch, mbind, M_bind, lift. by destruct o. Qed.

Lemma advanced_handler (self : executor) e tr :
  (perform fails (Print ("Error executing advanced action: " +:+ e))
   ≫= λ _ : (), (mret (false, self) : M (bool * executor))) tr
  = (Return (false, self), tr ++ [Print ("Error executing advanced action: " +:+ e)]).
Proof. reflexivity. Qed.

Lemma catch_mret {A : Type} (a : A) (handler : string -> M A) tr :
  catch (mret a) handler tr = (Return a, tr).
Proof. reflexivity. Qed.

Ltac step_lift :=
  unfold eval_box; rewrite catch_bind_lift;
  match goal with
  | |- context [match ?o with Return _ => _ | Raise _ => _ end] =>
      match o with
      | context [eval ?s] =>
          destruct (eval s) as [?|?] eqn:?; cbn [mbind outcome_bind];
          [match goal with
           | |- context [unpack4_values ?v] =>
               destruct (unpack4_values v) as [[[[? ?] ?] ?]|?] eqn:?
           end|]
      | _ => destruct o as [?|?] eqn:?
      end
  end;
  try (rewrite advanced_handler; apply advanced_error);
  cbv beta iota.

Ltac close_advanced :=
  first [ rewrite catch_mret; apply advanced_nothing
        | rewrite catch_execute_action; apply advanced_action; set_solver ].

Lemma advanced_run_cases self action_name params tr :
  advanced_run self action_name tr (advanced self action_name params tr).
Proof.
  unfold execute_advanced_action.
  repeat (case_decide; [subst action_name|]).
  - destruct (dict_get params "start_box"); [|close_advanced].
    repeat step_lift. close_advanced.
  - destruct (dict_get params "start_box"); [|close_advanced].
    repeat step_lift. close_advanced.
  - destruct (dict_get params "start_box"); [|close_advanced].
    repeat step_lift. close_advanced.
  - destruct (dict_get params "start_box"), (dict_get params "end_box");
      try close_advanced.
    repeat step_lift. close_advanced.
  - destruct (dict_get params "key"); close_advanced.
  - destruct (dict_get params "content"); [|close_advanced].
    destruct (dict_get params "start_box"); [|close_advanced].
    repeat step_lift. close_advanced.
  - destruct (dict_get params "start_box"), (dict_get params "direction");
      try close_advanced.
    repeat step_lift. close_advanced.
  - step_lift. close_advanced.
  - close_advanced.
  - close_advanced.
  - close_advanced.
Qed.

End AdvancedFacts.


Lemma split_on_cons_shape sep s : exists piece pieces, split_on sep s = piece :: pieces.
Proof.
  induction s as [|c rest (piece & pieces & IH)]; simpl; [by eexists _, _|].
  destruct (decide (c = sep)); [by eexists _, _|]. rewrite IH. by eexists _, _.
Qed.

Lemma join_with_cons sep piece pieces :
  join_with sep (piece :: pieces)
  = match pieces with
    | [] => piece
    | _ => piece +:+ sep +:+ join_with sep pieces
    end.
Proof. by destruct pieces. Qed.

(** Joining the pieces of a split with the separator gives the string
    back. *)
Lemma join_split sep s : join_with (String sep "") (split_on sep s) = s.
Proof.
  induction s as [|c rest IH]; [done|]. cbn [split_on].
  destruct (split_on_cons_shape sep rest) as (piece & pieces & Hsplit).
  destruct (decide (c = sep)) as [->|Hne].
  - rewrite join_with_cons, Hsplit. rewrite <- Hsplit, IH. reflexivity.
  - rewrite Hsplit in IH |- *. destruct pieces as [|p ps].
    + cbn [join_with] in *. by rewrite IH.
    + change (join_with (String sep "") (String c piece :: p :: ps))
        with (String c (piece +:+ String sep "" +:+ join_with (String sep "") (p :: ps))).
      change (join_with (String sep "") (piece :: p :: ps))
        with (piece +:+ String sep "" +:+ join_with (String sep "") (p :: ps)) in IH.
      by rewrite IH.
Qed.

Lemma split_on_no_sep sep s :
  Forall (fun piece => find sep piece = (-1)%Z) (split_on sep s).
Proof.
  induction s as [|c rest IH]; cbn [split_on]; [by repeat constructor|].
  destruct (decide (c = sep)) as [->|Hne]; [by constructor|].
  destruct (split_on sep rest) as [|piece pieces].
  - constructor; [|constructor]. by rewrite find_cons, decide_False, decide_True.
  - inversion IH as [|? ? Hpiece Hpieces]; subst. constructor; [|done].
    by rewrite find_cons, decide_False, decide_True.
Qed.

Lemma midpoint_within (a b : Z) : (a <= b -> a <= (a + b) / 2 <= b)%Z.
Proof. intros H. split; [apply Z.div_le_lower_bound | apply Z.div_le_upper_bound]; lia. Qed.



(** X15.  An advanced click, double click or right click on a box that
    evaluates to four integers is the plain action at the point
    [((x1 + x2) // 2, (y1 + y2) // 2)], with floor division; for a box with
    [x1 <= x2] and [y1 <= y2], negative coordinates included, that point
    lies within the box. *)
Theorem advanced_click_hits_box_center
    (clock : list call -> Q) (fails : list call -> call -> option string)
    (eval : string -> outcome json) (int_of_string : string -> outcome Z)
    (self : executor) (action_name action_type : string)
    (params : pydict string) (start_box : string) (x1 y1 x2 y2 : Z)
    (tr : list call) :
  (action_name, action_type)
    ∈ [("click", "click"); ("left_double", "double_click");
       ("right_single", "right_click")] ->
  dict_get params "start_box" = Some start_box ->
  eval start_box = Return (JArray [JNumber x1; JNumber y1; JNumber x2; JNumber y2]) ->
  execute_advanced_action clock fails eval int_of_string self action_name params tr
  = execute_action clock fails self action_type None
      (Some ((x1 + x2) / 2, (y1 + y2) / 2)%Z) no_kwargs tr /\
  ((x1 <= x2)%Z -> (x1 <= (x1 + x2) / 2 <= x2)%Z) /\
  ((y1 <= y2)%Z -> (y1 <= (y1 + y2) / 2 <= y2)%Z).
Proof.
  intros Hkind Hbox Heval.
  split; [|split; apply midpoint_within].
  unfold execute_advanced_action.
  repeat (apply elem_of_cons in Hkind as [[= -> ->]|Hkind]);
    [| | |by apply elem_of_nil in Hkind];
    cbn [decide]; repeat (rewrite decide_False by done);
    rewrite ?decide_True by done; rewrite Hbox;
    unfold eval_box; rewrite catch_bind_lift, Heval; cbn [mbind outcome_bind];
    cbn; rewrite !catch_bind_lift; cbn;
    apply catch_execute_action.
Qed.

Lemma advanced_click_hits_box_center_witness :
  let eval := fun s : string =>
                if decide (s = "[-30, 10, -5, 21]")
                then Return (JArray [JNumber (-30); JNumber 10; JNumber (-5); JNumber 21])
                else Raise "SyntaxError" in
  execute_advanced_action (fun _ => 0%Q) (fun _ _ => None) eval (fun _ => Return 0%Z)
    Demo.idle_executor "left_double" [("start_box", "[-30, 10, -5, 21]")] []
  = execute_action (fun _ => 0%Q) (fun _ _ => None) Demo.idle_executor "double_click"
      None (Some ((-30 + -5) / 2, (10 + 21) / 2)%Z) no_kwargs [] /\
  ((-30 <= -5)%Z -> (-30 <= (-30 + -5) / 2 <= -5)%Z) /\
  ((10 <= 21)%Z -> (10 <= (10 + 21) / 2 <= 21)%Z).
Proof.
  intros eval.
  apply (advanced_click_hits_box_center (fun _ => 0%Q) (fun _ _ => None) eval
           (fun _ => Return 0%Z) Demo.idle_executor "left_double" "double_click"
           [("start_box", "[-30, 10, -5, 21]")] "[-30, 10, -5, 21]"
           (-30) 10 (-5) 21 []).
  - set_solver.
  - reflexivity.
  - reflexivity.
Defined.

Example advanced_double_click_run :
  (execute_advanced_action (fun _ => 0%Q) (fun _ _ => None)
     (fun _ => Return (JArray [JNumber (-30); JNumber 10; JNumber (-5); JNumber 21]))
     (fun _ => Return 0%Z)
     Demo.idle_executor "left_double" [("start_box", "[-30, 10, -5, 21]")] []).2
  = [Time; DoubleClick (-18) 15].
Proof. reflexivity. Qed.

(** X16.  An advanced "type" with a content but no [start_box], the form
    [type(content='text to type')] that template_automation.py offers to
    the translator, never types: [execute_action] is called without a
    location, returns [False] and makes no pyautogui call, though the
    request is recorded in the history. *)
Theorem advanced_type_without_box_never_types
    (clock : list call -> Q) (fails : list call -> call -> option string)
    (eval : string -> outcome json) (int_of_string : string -> outcome Z)
    (self : executor) (params : pydict string) (content : string)
    (tr : list call) :
  dict_get params "content" = Some content ->
  dict_get params "start_box" = None ->
  exists (self' : executor) (new : list call),
    execute_advanced_action clock fails eval int_of_string self "type" params tr
    = (Return (false, self'), tr ++ new) /\
    Forall (fun c => dispatches c = false) new /\
    length (action_history self') = S (length (action_history self)).
Proof.
  intros Hcontent Hbox. unfold execute_advanced_action. cbn [decide].
  repeat (rewrite decide_False by done). rewrite decide_True by done.
  rewrite Hcontent, Hbox, catch_execute_action.
  destruct (execute_action_spec clock fails self "type" None None
              {| kw_end_location := None; kw_text := Some content; kw_keys := None;
                 kw_direction := None; kw_clicks := None; kw_seconds := None;
                 kw_message := None |} tr)
    as (b & self' & new & Hrun & _ & Hrefused & Hhist).
  destruct Hrefused as [-> Hquiet]; [left; by split|].
  by exists self', new.
Qed.

Lemma advanced_type_without_box_never_types_witness :
  exists (self' : executor) (new : list call),
    execute_advanced_action (fun _ => 0%Q) (fun _ _ => None)
      (fun _ => Raise "SyntaxError") (fun _ => Return 0%Z)
      Demo.idle_executor "type" [("content", "hello")] []
    = (Return (false, self'), [] ++ new) /\
    Forall (fun c => dispatches c = false) new /\
    length (action_history self') = S (length (action_history Demo.idle_executor)).
Proof.
  apply (advanced_type_without_box_never_types (fun _ => 0%Q) (fun _ _ => None)
           (fun _ => Raise "SyntaxError") (fun _ => Return 0%Z)
           Demo.idle_executor [("content", "hello")] "hello" []); reflexivity.
Defined.

(** X17.  An advanced hotkey splits its [key] at every '+': the keys, joined
    with '+', give [key] back, none of them holds a '+', and there is at
    least one, so the request is never refused for want of keys (the key ""
    presses the one key "") and [pyautogui.hotkey] is called with those
    keys, as the first call that is dispatched. *)
Theorem advanced_hotkey_splits_on_plus
    (clock : list call -> Q) (fails : list call -> call -> option string)
    (eval : string -> outcome json) (int_of_string : string -> outcome Z)
    (self : executor) (params : pydict string) (key : string) (tr : list call) :
  dict_get params "key" = Some key ->
  let keys := split_on "+" key in
  join_with "+" keys = key /\
  Forall (fun k => find "+" k = (-1)%Z) keys /\
  keys <> [] /\
  exists (b : bool) (self' : executor) (pre post : list call),
    execute_advanced_action clock fails eval int_of_string self "hotkey" params tr
    = (Return (b, self'), tr ++ pre ++ Hotkey keys :: post) /\
    Forall (fun c => dispatches c = false) pre.
Proof.
  intros Hkey keys.
  split; [apply join_split|]. split; [apply split_on_no_sep|].
  destruct (split_on_cons_shape "+" key) as (k & ks & Hkeys). fold keys in Hkeys.
  split; [by rewrite Hkeys|].
  unfold execute_advanced_action. cbn [decide].
  repeat (rewrite decide_False by done). rewrite decide_True by done.
  rewrite Hkey, catch_execute_action. fold keys.
  set (kw := {| kw_end_location := None; kw_text := None; kw_keys := Some keys;
                kw_direction := None; kw_clicks := None; kw_seconds := None;
                kw_message := None |}).
  destruct (execute_action_run clock fails self "hotkey" None None kw tr)
    as (self1 & new1 & o & new2 & _ & _ & Hquiet & Hdispatch & _ & _ & _ & Hrun).
  assert (exists o', dispatch fails "hotkey" None kw ((tr ++ new1) ++ [Time])
                     = (o', ((tr ++ new1) ++ [Time]) ++ [Hotkey keys])) as [o' Ho'].
  { unfold dispatch. cbn [decide]. repeat (rewrite decide_False by done).
    rewrite decide_True by done. subst kw. cbn [kw_keys]. rewrite Hkeys.
    unfold mbind, M_bind, perform. cbn [default from_option id].
    match goal with
    | |- context [call_error fails ?t ?c] => destruct (call_error fails t c)
    end; by eexists. }
  rewrite Ho' in Hdispatch. injection Hdispatch as <- Hnew2.
  apply app_inv_head in Hnew2. subst new2.
  eexists _, _, (new1 ++ [Time]), _. split.
  - rewrite Hrun. f_equal. rewrite <- !app_assoc. reflexivity.
  - apply Forall_app. split; [done | by repeat constructor].
Qed.

Lemma advanced_hotkey_splits_on_plus_witness :
  join_with "+" (split_on "+" "ctrl+shift+s") = "ctrl+shift+s" /\
  Forall (fun k => find "+" k = (-1)%Z) (split_on "+" "ctrl+shift+s") /\
  split_on "+" "ctrl+shift+s" <> [] /\
  exists (b : bool) (self' : executor) (pre post : list call),
    execute_advanced_action (fun _ => 0%Q) (fun _ _ => None)
      (fun _ => Raise "SyntaxError") (fun _ => Return 0%Z)
      Demo.idle_executor "hotkey" [("key", "ctrl+shift+s")] []
    = (Return (b, self'), [] ++ pre ++ Hotkey (split_on "+" "ctrl+shift+s") :: post) /\
    Forall (fun c => dispatches c = false) pre.
Proof.
  apply (advanced_hotkey_splits_on_plus (fun _ => 0%Q) (fun _ _ => None)
           (fun _ => Raise "SyntaxError") (fun _ => Return 0%Z)
           Demo.idle_executor [("key", "ctrl+shift+s")] "ctrl+shift+s" []).
  reflexivity.
Defined.

Example split_on_plus_run :
  split_on "+" "ctrl+shift+s" = ["ctrl"; "shift"; "s"] /\
  split_on "+" "" = [""] /\ split_on "+" "a++" = ["a"; ""; ""].
Proof. repeat split; reflexivity. Qed.

(** ** The executors of the scripts *)

Lemma dict_get_in {V : Type} (d : pydict V) k :
  k ∈ map fst d <-> is_Some (dict_get d k).
Proof.
  induction d as [|[k' v] d IH]; simpl.
  - split; [by intros ?%elem_of_nil | by intros [? ?]].
  - destruct (decide (k' = k)) as [->|Hne].
    + split; [by eexists | intros _; apply elem_of_cons; by left].
    + rewrite elem_of_cons, IH. split; [intros [?|?]; [congruence|done] | by right].
Qed.

Lemma py_in_object k fields :
  py_in k (JObject fields) = Return (bool_decide (is_Some (dict_get fields k))).
Proof. simpl. f_equal. apply bool_decide_ext, dict_get_in. Qed.

Section DesktopFacts.

Variable str_of : json -> string.
Variable gfails : list gui_call -> gui_call -> option string.

Ltac grun :=
  unfold mbind, G_bind, mret, G_ret, glift, gperform, gcatch; simpl;
  repeat (match goal with
          | |- context [gfails ?t ?c] => destruct (gfails t c) as [?|] eqn:?
          | |- context [unpack2_values ?v] =>
              destruct (unpack2_values v) as [[? ?]|?] eqn:?
          | |- context [is_str ?v ?s] => destruct (is_str v s) eqn:?
          end; simpl).

Ltac not_in_list :=
  let H := fresh in
  intros H; repeat (apply elem_of_cons in H as [H|H]; [discriminate|]);
  by apply elem_of_nil in H.

Lemma desktop_run fields tr :
  exists b new,
    Desktop.execute_action str_of gfails (JObject fields) tr = (Return b, tr ++ new) /\
    (is_Some (dict_get fields "error") \/ dict_get fields "coordinates" = None ->
     b = false /\ exists line, new = [GPrint line]) /\
    (b = true ->
     exists coordinates x y,
       dict_get fields "coordinates" = Some coordinates /\
       unpack2_values coordinates = Return (x, y) /\
       let click :=
         if is_str (default (JString "single") (dict_get fields "click_type")) "double"
         then GDoubleClickHere else GClickHere in
       new = [GMoveTo x y; click;
              GPrint ("Clicked at coordinates (" +:+ str_of x +:+ ", "
                      +:+ str_of y +:+ ")")] /\
       gfails tr (GMoveTo x y) = None /\
       gfails (tr ++ [GMoveTo x y]) click = None) /\
    (GClickHere ∈ new \/ GDoubleClickHere ∈ new ->
     exists x y rest, new = GMoveTo x y :: rest /\ gfails tr (GMoveTo x y) = None).
Proof.
  unfold Desktop.execute_action. rewrite !py_in_object.
  unfold mbind at 1, G_bind at 1, glift at 1.
  destruct (dict_get fields "error") as [err|] eqn:Herr.
  { rewrite bool_decide_eq_true_2 by (by eexists).
    simpl. rewrite Herr. grun; eexists _, [_]; (split; [reflexivity|]);
      (split; [intros _; split; [done | by eexists]|]);
      (split; [done|]); intros [H|H]; revert H; not_in_list. }
  rewrite bool_decide_eq_false_2 by (by intros [? ?]).
  unfold mbind at 1, G_bind at 1, glift at 1.
  destruct (dict_get fields "coordinates") as [coords|] eqn:Hcoords.
  2: { rewrite bool_decide_eq_false_2 by (by intros [? ?]).
       grun; eexists _, [_]; (split; [reflexivity|]);
         (split; [intros _; split; [done | by eexists]|]);
         (split; [done|]); intros [H|H]; revert H; not_in_list. }
  rewrite bool_decide_eq_true_2 by (by eexists).
  simpl. rewrite Hcoords. grun;
    (eexists _, _; split; [rewrite <- ?app_assoc; simpl; reflexivity|]);
    (split; [intros [[? ?]|?]; done|]);
    (split; [first [ discriminate
                   | intros _; eexists _, _, _; repeat (split; [done|]);
                     simpl; rewrite ?Heqb; done ]|]);
    first [ intros [H|H]; revert H; not_in_list
          | intros _; by eexists _, _, _ ].
Qed.

End DesktopFacts.

Section VisionFacts.

Variable str_of : json -> string.
Variable gfails : list gui_call -> gui_call -> option string.
Variable locate : list gui_call -> string -> outcome (option (Z * Z)).

Local Abbreviation ok := (gall_ok gfails locate).

Lemma gall_ok_app tr new1 new2 :
  ok tr (new1 ++ new2) <-> ok tr new1 /\ ok (tr ++ new1) new2.
Proof.
  revert tr. induction new1 as [|c new1 IH]; intros tr; simpl.
  - rewrite app_nil_r. tauto.
  - rewrite IH, <- app_assoc. simpl. tauto.
Qed.

(** A computation only adds calls, and when it returns a value that [P]
    holds of, none of the calls it made raised. *)
Definition sound_for {A : Type} (P : A -> Prop) (m : G A) : Prop :=
  forall tr, exists new,
    (m tr).2 = tr ++ new /\
    forall a, (m tr).1 = Return a -> P a -> ok tr new.

Lemma sound_weaken {A : Type} (P Q : A -> Prop) (m : G A) :
  (forall a, Q a -> P a) -> sound_for P m -> sound_for Q m.
Proof.
  intros HPQ Hm tr. destruct (Hm tr) as (new & Htr & Hok).
  exists new. split; [done|]. eauto.
Qed.

Lemma sound_ret {A : Type} (P : A -> Prop) (a : A) : sound_for P (mret a).
Proof. intros tr. exists []. rewrite app_nil_r. by split. Qed.

Lemma sound_lift {A : Type} (P : A -> Prop) (o : outcome A) : sound_for P (glift o).
Proof. intros tr. exists []. rewrite app_nil_r. by split. Qed.

Lemma sound_perform (P : unit -> Prop) (c : gui_call) :
  (forall file, c <> GLocate file) -> sound_for P (gperform gfails c).
Proof.
  intros Hc tr. exists [c]. unfold gperform.
  destruct (gcall_error gfails tr c) eqn:Herr; simpl; (split; [done|]); [done|].
  intros _ _ _. split; [done|]. split; [|done]. intros file e ->. by destruct (Hc file).
Qed.

Lemma sound_locate (P : option (Z * Z) -> Prop) file :
  sound_for P (locateCenterOnScreen locate file).
Proof.
  intros tr. exists [GLocate file]. unfold locateCenterOnScreen. simpl.
  split; [done|]. intros a Ha _. split; [done|]. split; [|done].
  intros f e [= <-]. congruence.
Qed.

Lemma sound_bind {A B : Type} (P : B -> Prop) (m : G A) (k : A -> G B) :
  sound_for (fun _ => True) m -> (forall a, sound_for P (k a)) ->
  sound_for P (m ≫= k).
Proof.
  intros Hm Hk tr. destruct (Hm tr) as (new1 & Htr1 & Hok1).
  unfold mbind, G_bind. destruct (m tr) as [[a|e] tr1] eqn:Hrun; simpl in *; subst tr1.
  - destruct (Hk a (tr ++ new1)) as (new2 & Htr2 & Hok2).
    exists (new1 ++ new2). rewrite app_assoc. split; [done|].
    intros b Hb HP. apply gall_ok_app. split; [by apply (Hok1 a)|]. by apply (Hok2 b).
  - exists new1. split; [done|]. done.
Qed.

(** A handler that prints the error and returns [False]. *)
Lemma sound_catch (m : G bool) (line : string -> string) :
  sound_for (fun b => b = true) m ->
  sound_for (fun b => b = true)
    (gcatch m (fun e => _ ← gperform gfails (GPrint (line e)); mret false)).
Proof.
  intros Hm tr. destruct (Hm tr) as (new & Htr & Hok).
  unfold gcatch. destruct (m tr) as [[b|e] tr1] eqn:Hrun; simpl in *; subst tr1.
  - exists new. split; [done|]. done.
  - exists (new ++ [GPrint (line e)]). rewrite app_assoc. split; [done|].
    by intros b [= <-].
Qed.

Lemma catch_returns (m : G bool) (line : string -> string) tr :
  (exists new, (m tr).2 = tr ++ new) ->
  exists b new,
    gcatch m (fun e => _ ← gperform gfails (GPrint (line e)); mret false) tr
    = (Return b, tr ++ new).
Proof.
  intros [new Htr]. unfold gcatch.
  destruct (m tr) as [[b|e] tr1]; simpl in *; subst tr1.
  - by exists b, new.
  - exists false, (new ++ [GPrint (line e)]). by rewrite app_assoc.
Qed.

Ltac sound_step :=
  first [ apply sound_ret
        | apply sound_lift
        | apply sound_locate
        | apply sound_perform; discriminate
        | apply sound_bind; [|intros ?]
        | case_decide
        | match goal with
          | |- sound_for _ (if ?b then _ else _) => destruct b
          | |- sound_for _ (match ?x with _ => _ end) => destruct x
          | |- sound_for _ (let '(_, _) := ?x in _) => destruct x
          end ].

Lemma act_sound action templates action_type x y :
  sound_for (fun b => b = true)
    (Vision.act str_of gfails locate action templates action_type x y).
Proof. unfold Vision.act. repeat sound_step. Qed.

Lemma locate_and_act_sound action templates file :
  sound_for (fun b => b = true)
    (Vision.locate_and_act str_of gfails locate action templates file).
Proof.
  unfold Vision.locate_and_act.
  apply (sound_catch _ (fun e => "Error executing action: " +:+ e)).
  repeat sound_step. apply act_sound.
Qed.

Lemma execute_action_with_template_sound action templates :
  sound_for (fun b => b = true)
    (Vision.execute_action_with_template str_of gfails locate action templates).
Proof.
  unfold Vision.execute_action_with_template.
  repeat sound_step. apply locate_and_act_sound.
Qed.

Lemma gperform_print line tr :
  gperform gfails (GPrint line) tr = (Return tt, tr ++ [GPrint line]).
Proof. reflexivity. Qed.

(** The [try] of [execute_action_with_template]: it returns, and what it
    did starts with the search for the template; an action follows only
    when the template was found. *)
Lemma locate_and_act_run action templates file tr :
  let looking := GPrint ("Looking for template '" +:+ file +:+ "' on screen...") in
  exists b rest,
    Vision.locate_and_act str_of gfails locate action templates file tr
    = (Return b, tr ++ looking :: GLocate file :: rest) /\
    ((forall x y, locate (tr ++ [looking]) file <> Return (Some (x, y))) ->
     b = false /\ exists line, rest = [GPrint line]).
Proof.
  intros looking. unfold Vision.locate_and_act.
  set (handler := fun e : string => _).
  set (body := fun location : option (Z * Z) => match location with
                                                | Some (x, y) => _
                                                | None => _
                                                end).
  unfold gcatch, mbind at 1, G_bind at 1. rewrite gperform_print. fold looking.
  unfold mbind at 1, G_bind at 1, locateCenterOnScreen.
  destruct (locate (tr ++ [looking]) file) as [[[x y]|]|e] eqn:Hlocate.
  - assert (sound_for (fun b => b = true) (body (Some (x, y)))) as Hsound.
    { subst body. cbv beta iota. repeat sound_step. apply act_sound. }
    destruct (Hsound ((tr ++ [looking]) ++ [GLocate file])) as (new & Htr & _).
    destruct (body (Some (x, y)) ((tr ++ [looking]) ++ [GLocate file]))
      as [[b|e] tr1] eqn:Hrun; simpl in Htr; subst tr1.
    + exists b, new. rewrite <- !app_assoc. split; [done|].
      intros Hne. by destruct (Hne x y).
    + subst handler. cbv beta. unfold mbind, G_bind. rewrite gperform_print.
      eexists false, (new ++ [_]). rewrite <- !app_assoc. split; [done|].
      intros Hne. by destruct (Hne x y).
  - subst body. cbv beta iota. unfold mbind, G_bind. rewrite gperform_print.
    eexists false, [_]. rewrite <- !app_assoc. split; [done|].
    intros _. split; [done | by eexists].
  - subst handler. cbv beta. unfold mbind, G_bind. rewrite gperform_print.
    eexists false, [_]. rewrite <- !app_assoc. split; [done|].
    intros _. split; [done | by eexists].
Qed.

Lemma names_template_true target templates :
  Vision.names_template target templates = Return true ->
  exists name info,
    target = JString name /\ dict_get templates name = Some info /\
    key_lookup target templates = Return info.
Proof.
  unfold Vision.names_template, key_in.
  destruct (truthy target); [|done].
  destruct target as [| | |name| |]; try done.
  intros [= Hin]. apply bool_decide_eq_true_1 in Hin as [info Hinfo].
  exists name, info. simpl. by rewrite Hinfo.
Qed.

(** What a run of [execute_action_with_template] can be. *)
Inductive template_run (action : json) (templates : pydict template_info)
    (tr : list gui_call) : outcome bool * list gui_call -> Prop :=
| run_escaped e :
    template_run action templates tr (Raise e, tr)
| run_refused line :
    template_run action templates tr (Return false, tr ++ [GPrint line])
| run_searched name info b rest :
    py_get action "target_element" JNull = Return (JString name) ->
    dict_get templates name = Some info ->
    let looking :=
      GPrint ("Looking for template '" +:+ filename info +:+ "' on screen...") in
    ((forall x y, locate (tr ++ [looking]) (filename info) <> Return (Some (x, y))) ->
     b = false /\ exists line, rest = [GPrint line]) ->
    template_run action templates tr
      (Return b, tr ++ looking :: GLocate (filename info) :: rest).

Lemma template_run_cases action templates tr :
  template_run action templates tr
    (Vision.execute_action_with_template str_of gfails locate action templates tr).
Proof.
  unfold Vision.execute_action_with_template.
  unfold mbind at 1, G_bind at 1, glift at 1.
  destruct (py_in "error" action) as [[|]|e]; [| |apply run_escaped].
  { unfold mbind at 1, G_bind at 1, glift at 1.
    destruct (py_getitem action "error") as [err|e]; [|apply run_escaped].
    apply run_refused. }
  unfold mbind at 1, G_bind at 1, glift at 1.
  destruct (py_get action "target_element" JNull) as [target|e] eqn:Htarget;
    [|apply run_escaped].
  unfold mbind at 1, G_bind at 1, glift at 1.
  destruct (Vision.names_template target templates) as [[|]|e] eqn:Hknown;
    [| apply run_refused | apply run_escaped].
  destruct (names_template_true _ _ Hknown) as (name & info & -> & Hinfo & Hlookup).
  cbn [negb]. unfold mbind at 1, G_bind at 1, glift at 1. rewrite Hlookup.
  destruct (locate_and_act_run action templates (filename info) tr)
    as (b & rest & -> & Hmissed).
  by apply (run_searched _ _ _ name info).
Qed.

(** A computation only adds calls, all of them among the [allowed]. *)
Definition only {A : Type} (allowed : gui_call -> Prop) (m : G A) : Prop :=
  forall tr, exists new, (m tr).2 = tr ++ new /\ Forall allowed new.

Lemma only_ret {A : Type} allowed (a : A) : only allowed (mret a).
Proof. intros tr. exists []. rewrite app_nil_r. by split. Qed.

Lemma only_lift {A : Type} allowed (o : outcome A) : only allowed (glift o).
Proof. intros tr. exists []. rewrite app_nil_r. by split. Qed.

Lemma only_perform allowed (c : gui_call) :
  allowed c -> only allowed (gperform gfails c).
Proof.
  intros Hc tr. exists [c]. unfold gperform.
  destruct (gcall_error gfails tr c); simpl; (split; [done|]); by repeat constructor.
Qed.

Lemma only_locate allowed file :
  allowed (GLocate file) -> only allowed (locateCenterOnScreen locate file).
Proof. intros Hc tr. exists [GLocate file]. split; [done|]. by repeat constructor. Qed.

Lemma only_bind {A B : Type} allowed (m : G A) (k : A -> G B) :
  only allowed m -> (forall a, only allowed (k a)) -> only allowed (m ≫= k).
Proof.
  intros Hm Hk tr. destruct (Hm tr) as (new1 & Htr1 & Hall1).
  unfold mbind, G_bind. destruct (m tr) as [[a|e] tr1]; simpl in *; subst tr1.
  - destruct (Hk a (tr ++ new1)) as (new2 & Htr2 & Hall2).
    exists (new1 ++ new2). rewrite app_assoc. split; [done|]. by apply Forall_app.
  - by exists new1.
Qed.

Lemma only_bind_lift {A B : Type} allowed (o : outcome A) (a : A) (k : A -> G B) :
  o = Return a -> only allowed (k a) -> only allowed (glift o ≫= k).
Proof.
  intros -> Hk tr. destruct (Hk tr) as (new & Htr & Hall).
  exists new. unfold mbind, G_bind, glift. by split.
Qed.

Lemma only_catch allowed (m : G bool) (line : string -> string) :
  (forall text, allowed (GPrint text)) -> only allowed m ->
  only allowed (gcatch m (fun e => _ ← gperform gfails (GPrint (line e)); mret false)).
Proof.
  intros Hprint Hm tr. destruct (Hm tr) as (new & Htr & Hall).
  unfold gcatch. destruct (m tr) as [[b|e] tr1]; simpl in *; subst tr1.
  - by exists new.
  - exists (new ++ [GPrint (line e)]). rewrite app_assoc. split; [done|].
    apply Forall_app. split; [done|]. by repeat constructor.
Qed.

Ltac allowed_call := intros ?; first [discriminate | by eexists _, _].

Ltac only_step :=
  first [ apply only_ret
        | apply only_lift
        | apply only_locate; allowed_call
        | apply only_perform; allowed_call
        | apply only_bind; [|intros ?]
        | case_decide; try discriminate
        | match goal with
          | |- only _ (if ?b then _ else _) => destruct b
          | |- only _ (match ?x with _ => _ end) => destruct x
          end ].

(** A drag makes no input call but [dragTo]. *)
Lemma drag_only action templates :
  (a ← py_get action "action" (JString "click"); py_lower a) = Return "drag" ->
  only (fun c => injects c = true -> exists ex ey, c = GDragTo ex ey)
    (Vision.execute_action_with_template str_of gfails locate action templates).
Proof.
  intros Hdrag. unfold Vision.execute_action_with_template.
  apply only_bind; [apply only_lift|]. intros [|]; [repeat only_step|].
  apply only_bind; [apply only_lift|]. intros target.
  apply only_bind; [apply only_lift|]. intros known.
  destruct (negb known); [repeat only_step|].
  apply only_bind; [apply only_lift|]. intros info.
  unfold Vision.locate_and_act.
  apply (only_catch _ _ (fun e => "Error executing action: " +:+ e));
    [intros text; allowed_call|].
  apply only_bind; [apply only_perform; allowed_call|]. intros _.
  apply only_bind; [apply only_locate; allowed_call|].
  intros [[x y]|]; [|repeat only_step].
  apply only_bind; [apply only_perform; allowed_call|]. intros _.
  apply (only_bind_lift _ _ "drag"); [exact Hdrag|].
  unfold Vision.act. repeat only_step.
Qed.

End VisionFacts.

(** X18.  [execute_action] of desktop_automation.py, on an action that is
    an object: it returns a boolean; with an "error" key, or without
    "coordinates", it returns [False] after one printed line, with no
    pyautogui call; it clicks only after [moveTo] has returned; and it
    returns [True] only along one path: the coordinates unpack to two
    values, the pointer is moved there, then one click is made at the
    pointer, a double click only when "click_type" is exactly "double",
    both calls return and the line "Clicked at coordinates" is printed. *)
Theorem desktop_execute_action_moves_then_clicks
    (str_of : json -> string) (gfails : list gui_call -> gui_call -> option string)
    (fields : pydict json) (tr : list gui_call) :
  exists (b : bool) (new : list gui_call),
    Desktop.execute_action str_of gfails (JObject fields) tr = (Return b, tr ++ new) /\
    (is_Some (dict_get fields "error") \/ dict_get fields "coordinates" = None ->
     b = false /\ exists line, new = [GPrint line]) /\
    (b = true ->
     exists coordinates x y,
       dict_get fields "coordinates" = Some coordinates /\
       unpack2_values coordinates = Return (x, y) /\
       let click :=
         if is_str (default (JString "single") (dict_get fields "click_type")) "double"
         then GDoubleClickHere else GClickHere in
       new = [GMoveTo x y; click;
              GPrint ("Clicked at coordinates (" +:+ str_of x +:+ ", "
                      +:+ str_of y +:+ ")")] /\
       gfails tr (GMoveTo x y) = None /\
       gfails (tr ++ [GMoveTo x y]) click = None) /\
    (GClickHere ∈ new \/ GDoubleClickHere ∈ new ->
     exists x y rest, new = GMoveTo x y :: rest /\ gfails tr (GMoveTo x y) = None).
Proof. apply desktop_run. Qed.

Example desktop_click_run :
  Desktop.execute_action (fun _ => "?") (fun _ _ => None)
    (JObject [("target_element", JString "Trash");
              ("coordinates", JArray [JNumber 40; JNumber 60]);
              ("click_type", JString "Double")]) []
  = (Return true,
     [GMoveTo (JNumber 40) (JNumber 60); GClickHere;
      GPrint "Clicked at coordinates (?, ?)"]) /\
  Desktop.execute_action (fun _ => "?") (fun _ _ => None)
    (JObject [("error", JString "no such element");
              ("coordinates", JArray [JNumber 40; JNumber 60])]) []
  = (Return false, [GPrint "Cannot execute: ?"]).
Proof. split; reflexivity. Qed.

(** X19.  [execute_action_with_template] makes no pyautogui input call
    unless it has first located the template of its target on the screen:
    in every run, either nothing but [print] and the search is called, or
    the target is the name of a template, the run starts with the search
    for that template's file, and the search returned a point. *)
Theorem template_action_only_after_locating
    (str_of : json -> string) (gfails : list gui_call -> gui_call -> option string)
    (locate : list gui_call -> string -> outcome (option (Z * Z)))
    (action : json) (templates : pydict template_info) (tr : list gui_call) :
  exists (o : outcome bool) (new : list gui_call),
    Vision.execute_action_with_template str_of gfails locate action templates tr
    = (o, tr ++ new) /\
    (Forall (fun c => injects c = false) new \/
     exists name info x y rest,
       py_get action "target_element" JNull = Return (JString name) /\
       dict_get templates name = Some info /\
       let looking :=
         GPrint ("Looking for template '" +:+ filename info +:+ "' on screen...") in
       new = looking :: GLocate (filename info) :: rest /\
       locate (tr ++ [looking]) (filename info) = Return (Some (x, y))).
Proof.
  destruct (template_run_cases str_of gfails locate action templates tr)
    as [e | line | name info b rest Htarget Hinfo looking Hmissed].
  - exists (Raise e), []. rewrite app_nil_r. split; [done|]. by left.
  - eexists _, _. split; [done|]. left. by repeat constructor.
  - eexists _, _. split; [done|].
    destruct (locate (tr ++ [looking]) (filename info)) as [[[x y]|]|e] eqn:Hlocate.
    + right. by exists name, info, x, y, rest.
    + left. destruct Hmissed as (_ & line & ->); [done|]. by repeat constructor.
    + left. destruct Hmissed as (_ & line & ->); [done|]. by repeat constructor.
Qed.

(** X20.  [execute_action_with_template] returns [True] only when every
    call it made returned: no pyautogui call raised, every search of the
    screen returned, and the target's template was found. *)
Theorem template_action_true_when_all_calls_returned
    (str_of : json -> string) (gfails : list gui_call -> gui_call -> option string)
    (locate : list gui_call -> string -> outcome (option (Z * Z)))
    (action : json) (templates : pydict template_info) (tr : list gui_call) :
  exists (o : outcome bool) (new : list gui_call),
    Vision.execute_action_with_template str_of gfails locate action templates tr
    = (o, tr ++ new) /\
    (o = Return true ->
     gall_ok gfails locate tr new /\
     exists file x y line rest,
       new = GPrint line :: GLocate file :: rest /\
       locate (tr ++ [GPrint line]) file = Return (Some (x, y))).
Proof.
  destruct (execute_action_with_template_sound str_of gfails locate action templates tr)
    as (new & Htr & Hok).
  destruct (template_run_cases str_of gfails locate action templates tr)
    as [e | line | name info b rest Htarget Hinfo looking Hmissed].
  - exists (Raise e), []. rewrite app_nil_r. by split.
  - eexists _, _. by split.
  - simpl in Htr. apply app_inv_head in Htr. subst new.
    eexists _, _. split; [done|]. intros [= ->]. split; [by apply (Hok true)|].
    destruct (locate (tr ++ [looking]) (filename info)) as [[[x y]|]|e] eqn:Hlocate.
    + eexists (filename info), x, y, _, rest. split; [reflexivity | exact Hlocate].
    + by destruct Hmissed.
    + by destruct Hmissed.
Qed.

(** X21.  On an action that is an object without an "error" key,
    [execute_action_with_template] raises a TypeError, before any call,
    when the "target_element" is a list or an object that is not empty (a
    value that cannot be hashed is looked up in the templates outside the
    [try]); for every other target it returns a boolean. *)
Theorem template_action_unhashable_target_escapes
    (str_of : json -> string) (gfails : list gui_call -> gui_call -> option string)
    (locate : list gui_call -> string -> outcome (option (Z * Z)))
    (fields : pydict json) (templates : pydict template_info) (tr : list gui_call) :
  let target := default JNull (dict_get fields "target_element") in
  let unhashable := match target with
                    | JArray (_ :: _) | JObject (_ :: _) => true
                    | _ => false
                    end in
  let run := Vision.execute_action_with_template str_of gfails locate
               (JObject fields) templates tr in
  (dict_get fields "error" = None -> unhashable = true ->
   run = (Raise "TypeError: unhashable type", tr)) /\
  (is_Some (dict_get fields "error") \/ unhashable = false ->
   exists b new, run = (Return b, tr ++ new)).
Proof.
  intros target unhashable run. subst run.
  assert (py_get (JObject fields) "target_element" JNull = Return target) as Hget
    by reflexivity.
  clearbody target.
  unfold Vision.execute_action_with_template. rewrite py_in_object.
  unfold mbind at 1, G_bind at 1, glift at 1.
  destruct (dict_get fields "error") as [err|] eqn:Herr.
  { rewrite bool_decide_eq_true_2 by (by eexists). split; [done|]. intros _.
    simpl. rewrite Herr. by eexists _, [_]. }
  rewrite bool_decide_eq_false_2 by (by intros [? ?]).
  unfold mbind, G_bind, glift. rewrite Hget.
  split.
  - intros _ Hun. subst unhashable.
    destruct target as [| | | |[|? ?]|[|? ?]]; try done.
  - intros [[? ?]|Hhash]; [done|].
    destruct (Vision.names_template target templates) as [[|]|e] eqn:Hknown.
    + destruct (names_template_true _ _ Hknown) as (name & info & Htarget & Hinfo & Hlookup).
      cbn [negb]. rewrite Hlookup.
      destruct (locate_and_act_run str_of gfails locate (JObject fields) templates
                  (filename info) tr) as (b & rest & -> & _).
      by eexists _, _.
    + by eexists _, [_].
    + exfalso. subst unhashable. unfold Vision.names_template, key_in in Hknown.
      destruct target as [|[]|z|[|? ?]|[|? ?]|[|? ?]]; simpl in Hknown; try done.
      by destruct (negb (z =? 0)%Z).
Qed.

Example unhashable_target_run :
  Vision.execute_action_with_template (fun _ => "?") (fun _ _ => None)
    (fun _ _ => Return None)
    (JObject [("target_element", JArray [JString "Save Icon"])])
    [("Save Icon", Demo.icon_info)] []
  = (Raise "TypeError: unhashable type", []).
Proof. reflexivity. Qed.

(** X22.  For a "drag" (in any letter case), [execute_action_with_template]
    finds the start template but never moves the pointer to it and never
    presses there: the only input call it can make is [dragTo], towards the
    end target, so the drag starts from wherever the pointer is. *)
Theorem template_drag_never_goes_to_start
    (str_of : json -> string) (gfails : list gui_call -> gui_call -> option string)
    (locate : list gui_call -> string -> outcome (option (Z * Z)))
    (action : json) (templates : pydict template_info) (tr : list gui_call) :
  (a ← py_get action "action" (JString "click"); py_lower a) = Return "drag" ->
  exists (o : outcome bool) (new : list gui_call),
    Vision.execute_action_with_template str_of gfails locate action templates tr
    = (o, tr ++ new) /\
    Forall (fun c => injects c = true -> exists ex ey, c = GDragTo ex ey) new.
Proof.
  intros Hdrag.
  destruct (drag_only str_of gfails locate action templates Hdrag tr)
    as (new & Htr & Hall).
  destruct (Vision.execute_action_with_template _ _ _ _ _ tr) as [o tr1].
  simpl in Htr. subst tr1. by exists o, new.
Qed.

Lemma template_drag_never_goes_to_start_witness :
  exists (o : outcome bool) (new : list gui_call),
    Vision.execute_action_with_template (fun _ => "?") (fun _ _ => None)
      (fun _ file => if decide (file = "templates/save_icon.png")
                     then Return (Some (10, 20)%Z) else Return (Some (300, 40)%Z))
      (JObject [("target_element", JString "Save Icon");
                ("action", JString "Drag");
                ("action_parameters", JObject [("end_target", JString "Trash")])])
      [("Save Icon", Demo.icon_info);
       ("Trash", {| filename := "templates/trash.png"; bounding_box := [0; 0; 2; 2]%Z;
                    type_ := "icon"; description := "" |})] []
    = (o, [] ++ new) /\
    Forall (fun c => injects c = true -> exists ex ey, c = GDragTo ex ey) new.
Proof.
  apply (template_drag_never_goes_to_start (fun _ => "?") (fun _ _ => None)).
  reflexivity.
Defined.

Example template_drag_run :
  (Vision.execute_action_with_template (fun _ => "?") (fun _ _ => None)
     (fun _ file => if decide (file = "templates/save_icon.png")
                    then Return (Some (10, 20)%Z) else Return (Some (300, 40)%Z))
     (JObject [("target_element", JString "Save Icon");
               ("action", JString "Drag");
               ("action_parameters", JObject [("end_target", JString "Trash")])])
     [("Save Icon", Demo.icon_info);
      ("Trash", {| filename := "templates/trash.png"; bounding_box := [0; 0; 2; 2]%Z;
                   type_ := "icon"; description := "" |})] [])
  = (Return true,
     [GPrint "Looking for template 'templates/save_icon.png' on screen...";
      GLocate "templates/save_icon.png";
      GPrint "Found template at coordinates (?, ?)";
      GLocate "templates/trash.png";
      GDragTo 300 40;
      GPrint "Dragged from (?, ?) to (?, ?)"]).
Proof. reflexivity. Qed.

(** ** The requests to the translator *)

Lemma describe_named (e : json) :
  has_name e = true -> exists d, describe e = Return d.
Proof.
  destruct e as [| | | | |fields]; try done. simpl.
  intros [name Hname]%bool_decide_eq_true.
  unfold describe. simpl. rewrite Hname. simpl. by eexists.
Qed.

Lemma describe_nameless (e : json) :
  has_name e = false ->
  exists err, describe e = Raise err /\
              (is_object e = true -> err = "KeyError: 'name'").
Proof.
  destruct e as [| | | | |fields]; simpl; intros Hname;
    try (by eexists; split; [reflexivity|]).
  apply bool_decide_eq_false in Hname.
  destruct (dict_get fields "name") as [name|] eqn:Hget.
  { exfalso. apply Hname. by eexists. }
  exists "KeyError: 'name'". unfold describe. simpl. by rewrite Hget.
Qed.

Lemma describe_all_named elements :
  (forall e, e ∈ elements -> has_name e = true) ->
  exists described, describe_all elements = Return described /\
                    length described = length elements.
Proof.
  induction elements as [|e elements IH]; intros Hnamed; [by exists []|].
  destruct (describe_named e) as [d Hd]; [apply Hnamed, elem_of_cons; by left|].
  destruct IH as (ds & Hds & Hlen).
  { intros e' He'. apply Hnamed. apply elem_of_cons. by right. }
  simpl. rewrite Hd. simpl. rewrite Hds. simpl.
  eexists. split; [done|]. simpl. by rewrite Hlen.
Qed.

Lemma describe_all_nameless elements :
  (exists e, e ∈ elements /\ has_name e = false) ->
  exists err, describe_all elements = Raise err /\
              ((forall e, e ∈ elements -> is_object e = true) ->
               err = "KeyError: 'name'").
Proof.
  intros (e & Hin & Hname).
  induction elements as [|e' elements IH]; [by apply elem_of_nil in Hin|].
  destruct (has_name e') eqn:Hname'.
  - destruct (describe_named e' Hname') as [d Hd].
    apply elem_of_cons in Hin as [->|Hin]; [congruence|].
    destruct (IH Hin) as (err & Herr & Hkey).
    exists err. simpl. rewrite Hd. simpl. rewrite Herr. simpl. split; [done|].
    intros Hobj. apply Hkey. intros e0 He0. apply Hobj. apply elem_of_cons. by right.
  - destruct (describe_nameless e' Hname') as (err & Herr & Hkey).
    exists err. simpl. rewrite Herr. simpl. split; [done|].
    intros Hobj. apply Hkey. apply Hobj. apply elem_of_cons. by left.
Qed.

Lemma format_all_objects elements :
  (forall e, e ∈ elements -> is_object e = true) ->
  exists formatted, format_all elements = Return formatted /\
                    length formatted = length elements.
Proof.
  induction elements as [|e elements IH]; intros Hobj; [by exists []|].
  destruct IH as (ds & Hds & Hlen).
  { intros e' He'. apply Hobj. apply elem_of_cons. by right. }
  assert (is_object e = true) as He by (apply Hobj, elem_of_cons; by left).
  destruct e as [| | | | |fields]; try done.
  simpl. rewrite Hds. simpl. eexists. split; [done|]. simpl. by rewrite Hlen.
Qed.

Lemma format_all_other elements :
  (exists e, e ∈ elements /\ is_object e = false) ->
  format_all elements = Raise "AttributeError: object has no attribute 'get'".
Proof.
  intros (e & Hin & Hobj).
  induction elements as [|e' elements IH]; [by apply elem_of_nil in Hin|].
  destruct (is_object e') eqn:Hobj'.
  - apply elem_of_cons in Hin as [->|Hin]; [congruence|].
    destruct e' as [| | | | |fields]; try done.
    simpl. by rewrite (IH Hin).
  - by destruct e' as [| | | | |fields].
Qed.

(** X8.  One element that is not an object with a name makes
    [process_user_request] raise before the translator is asked, whatever
    it would have answered: a KeyError when all elements are objects.
    [process_advanced_action_request] gives an object without a name the
    name "unnamed", but raises an AttributeError, again before the
    translator is asked, when an element is not an object.  When every
    element is an object with a name, for the first function, or an object,
    for the second, the only exceptions that leave the function are those
    of the call to the translator. *)
Theorem nameless_element_breaks_process_user_request
    (json_loads : string -> outcome json) (request : string) (elements : list json) :
  ((exists e, e ∈ elements /\ has_name e = false) ->
   exists err,
     (forall generate_content,
        Template.process_user_request json_loads generate_content request elements
        = Raise err) /\
     ((forall e, e ∈ elements -> is_object e = true) -> err = "KeyError: 'name'")) /\
  ((forall e, e ∈ elements -> has_name e = true) ->
   exists described,
     describe_all elements = Return described /\
     length described = length elements /\
     forall generate_content err,
       Template.process_user_request json_loads generate_content request elements
       = Raise err
       <-> generate_content request described = Raise err) /\
  ((exists e, e ∈ elements /\ is_object e = false) ->
   forall generate_content,
     Template.process_advanced_action_request json_loads generate_content
       request elements
     = Raise "AttributeError: object has no attribute 'get'") /\
  ((forall e, e ∈ elements -> is_object e = true) ->
   exists formatted,
     format_all elements = Return formatted /\
     length formatted = length elements /\
     forall generate_content err,
       Template.process_advanced_action_request json_loads generate_content
         request elements = Raise err
       <-> generate_content request formatted = Raise err).
Proof.
  split; [|split; [|split]].
  - intros Hnameless.
    destruct (describe_all_nameless elements Hnameless) as (err & Herr & Hkey).
    exists err. split; [|done]. intros generate_content.
    unfold Template.process_user_request. by rewrite Herr.
  - intros Hnamed.
    destruct (describe_all_named elements Hnamed) as (described & Hd & Hlen).
    exists described. split; [done|]. split; [done|]. intros generate_content err.
    unfold Template.process_user_request. rewrite Hd. simpl.
    destruct (generate_content request described); simpl; split; congruence.
  - intros Hother generate_content.
    unfold Template.process_advanced_action_request.
    by rewrite (format_all_other elements Hother).
  - intros Hobj.
    destruct (format_all_objects elements Hobj) as (formatted & Hf & Hlen).
    exists formatted. split; [done|]. split; [done|]. intros generate_content err.
    unfold Template.process_advanced_action_request. rewrite Hf. simpl.
    destruct (generate_content request formatted); simpl; split; congruence.
Qed.

Example nameless_element_run :
  let editor := JObject [("name", JString "Editor"); ("type", JString "icon")] in
  let nameless := JObject [("type", JString "button")] in
  Template.process_user_request (fun _ => Return JNull)
    (fun _ _ => Return (Return "{}")) "open the editor" [editor; nameless]
  = Raise "KeyError: 'name'" /\
  Template.process_advanced_action_request (fun _ => Return JNull)
    (fun _ _ => Return (Return "{}")) "open the editor" [editor; nameless]
  = Return (JNull, []) /\
  Template.process_advanced_action_request (fun _ => Return JNull)
    (fun _ _ => Return (Return "{}")) "open the editor" [editor; JNumber 1]
  = Raise "AttributeError: object has no attribute 'get'".
Proof. vm_compute. repeat split; reflexivity. Qed.
